(** * Reddit persona generator: data processing and persona assembly

    A shallow embedding of [src/data_processor.py] (class [DataProcessor])
    and [src/persona_generator.py] (class [PersonaGenerator]), with the URL
    and text helpers of [main.py] and [src/utils.py], followed by the
    properties of the cleaning, aggregation, statistics and
    citation-grounding pipeline.

    Conventions of the embedding.
    - A Python [str] is a [string]; a character is a code point below 256
      (the Latin-1 block), and every character class below is the one
      CPython uses on that block.
    - A Python [int] is a [Z]; a timestamp or a mean is a [Q].
    - A dict with a fixed set of keys is a record; a dict used as a counter
      is an association list in insertion order.
    - The module [config] is not among the sources: the entries read from
      [PERSONA_CONFIG], [OPENAI_CONFIG] and [PERSONA_PROMPTS] are the fields
      of the records of these names, and every result holds for all their
      values.
    - The backend, the clock and the logger are the outside world: a
      computation of [PersonaGenerator] carries the trace of its backend
      calls and log records. *)

From Stdlib Require Import Bool Arith ZArith NArith QArith Lia List.
From Stdlib Require Import Ascii String DecimalString.
From Stdlib Require Import Permutation Sorted.
Import ListNotations.

Close Scope Q_scope.
Open Scope nat_scope.
Open Scope string_scope.
Open Scope list_scope.

(* ================================================================== *)
(** ** Python string primitives *)

Module PyStr.

Definition code (c : ascii) : N := N_of_ascii c.

Definition between (lo hi : N) (c : ascii) : bool :=
  ((lo <=? code c) && (code c <=? hi))%N.

Definition is_code (n : N) (c : ascii) : bool := (code c =? n)%N.

(** [str.isspace] on one character; the separators of [str.split()] and
    the characters removed by [str.strip()]. *)
Definition isspace (c : ascii) : bool :=
  between 9 13 c || between 28 32 c || is_code 133 c || is_code 160 c.

(** The class [\w] of [re] on a [str] pattern. *)
Definition isword (c : ascii) : bool :=
  between 48 57 c || between 65 90 c || is_code 95 c || between 97 122 c
  || is_code 170 c || between 178 179 c || is_code 181 c
  || between 185 186 c || between 188 190 c
  || between 192 214 c || between 216 246 c || between 248 255 c.

Definition isupper (c : ascii) : bool :=
  between 65 90 c || between 192 214 c || between 216 222 c.

Definition lower_char (c : ascii) : ascii :=
  if isupper c then ascii_of_N (code c + 32) else c.

(** [s.lower()] *)
Fixpoint lower (s : string) : string :=
  match s with
  | EmptyString => EmptyString
  | String c s' => String (lower_char c) (lower s')
  end.

(** [not s] *)
Definition is_empty (s : string) : bool :=
  match s with EmptyString => true | String _ _ => false end.

(** [len(s)] *)
Definition len (s : string) : Z := Z.of_nat (String.length s).

(** [s.startswith(p)], returning what follows the prefix. *)
Fixpoint strip_prefix (p s : string) : option string :=
  match p with
  | EmptyString => Some s
  | String a p' =>
      match s with
      | EmptyString => None
      | String b s' => if Ascii.eqb a b then strip_prefix p' s' else None
      end
  end.

Definition startswith (p s : string) : bool :=
  match strip_prefix p s with Some _ => true | None => false end.

(** [sub in s] *)
Fixpoint contains (sub s : string) : bool :=
  startswith sub s
  || match s with
     | EmptyString => false
     | String _ s' => contains sub s'
     end.

(** [s[:n]] *)
Fixpoint take (n : nat) (s : string) : string :=
  match n, s with
  | S k, String c s' => String c (take k s')
  | _, _ => EmptyString
  end.

(** [c * n] for a one-character string [c]. *)
Fixpoint replicate (n : nat) (c : ascii) : string :=
  match n with
  | O => EmptyString
  | S k => String c (replicate k c)
  end.

Definition starts_word (s : string) : bool :=
  match s with
  | EmptyString => false
  | String c _ => negb (isspace c)
  end.

(** [s.split()]: the maximal runs of non-whitespace characters. *)
Fixpoint split (s : string) : list string :=
  match s with
  | EmptyString => []
  | String c s' =>
      if isspace c then split s'
      else if starts_word s' then
        match split s' with
        | w :: ws => String c w :: ws
        | [] => [String c EmptyString]
        end
      else String c EmptyString :: split s'
  end.

(** [sep.join(parts)] *)
Definition join (sep : string) (parts : list string) : string :=
  String.concat sep parts.

(** [s.lstrip()] *)
Fixpoint lstrip (s : string) : string :=
  match s with
  | EmptyString => EmptyString
  | String c s' => if isspace c then lstrip s' else s
  end.

(** [s.rstrip()] *)
Fixpoint rstrip (s : string) : string :=
  match s with
  | EmptyString => EmptyString
  | String c s' =>
      let r := rstrip s' in
      if is_empty r && isspace c then EmptyString else String c r
  end.

(** [s.strip()] *)
Definition strip (s : string) : string := rstrip (lstrip s).

(** [s.upper()] restricted to the characters whose upper case is again
    below 256. *)
Definition islower_latin (c : ascii) : bool :=
  between 97 122 c || between 224 246 c || between 248 254 c.

Definition upper_char (c : ascii) : ascii :=
  if islower_latin c then ascii_of_N (code c - 32) else c.

Fixpoint upper (s : string) : string :=
  match s with
  | EmptyString => EmptyString
  | String c s' => String (upper_char c) (upper s')
  end.

(** [str(n)] for an [int]. *)
Definition str_int (n : Z) : string := NilZero.string_of_int (Z.to_int n).

Definition newline : ascii := ascii_of_N 10.
Definition nl : string := String newline EmptyString.

End PyStr.

(* ================================================================== *)
(** ** [re.sub] for the patterns of [_clean_text] *)

Module Re.
Import PyStr.

(** A compiled pattern together with its replacement template: tried at
    the start of the remaining text, it answers with the replacement and
    the number of characters the match spans. *)
Definition matcher := string -> option (string * nat).

(** [re.sub(pattern, repl, s)]: leftmost matches, left to right, not
    overlapping; [skip] counts the characters of the current match that
    are still to be passed over. *)
Fixpoint sub_from (m : matcher) (skip : nat) (s : string) : string :=
  match s with
  | EmptyString => EmptyString
  | String c s' =>
      match skip with
      | S k => sub_from m k s'
      | O =>
          match m (String c s') with
          | Some (repl, n) => repl ++ sub_from m (pred n) s'
          | None => String c (sub_from m 0 s')
          end
      end
  end.

Definition sub (m : matcher) (s : string) : string := sub_from m 0 s.

(** Length of the longest prefix made of characters of class [f]:
    a greedy [+] with nothing after it. *)
Fixpoint span (f : ascii -> bool) (s : string) : nat :=
  match s with
  | EmptyString => 0
  | String c s' => if f c then S (span f s') else 0
  end.

(** One character of the URL body: [[a-zA-Z]], [[0-9]], [[$-_@.&+]]
    (the range from [$] to [_] and four more characters) or
    [[!*\\(\\),]].  The fifth alternative, a percent escape, starts with
    [%], which the range already accepts, so it is never reached. *)
Definition url_char (c : ascii) : bool :=
  between 97 122 c || between 65 90 c
  || between 48 57 c
  || between 36 95 c || is_code 64 c || is_code 46 c || is_code 38 c
     || is_code 43 c
  || is_code 33 c || is_code 42 c || is_code 92 c || is_code 40 c
     || is_code 41 c || is_code 44 c.

(** [http[s]?://(?:...)+] replaced by the empty string. *)
Definition url : matcher := fun s =>
  match strip_prefix "http" s with
  | None => None
  | Some r =>
      let after_scheme (k : nat) (r' : string) :=
        match strip_prefix "://" r' with
        | None => None
        | Some body =>
            match span url_char body with
            | O => None
            | n => Some (EmptyString, 4 + k + 3 + n)
            end
        end in
      match strip_prefix "s" r with
      | Some r' =>
          match after_scheme 1 r' with
          | Some res => Some res
          | None => after_scheme 0 r
          end
      | None => after_scheme 0 r
      end
  end.

(** [/u/\w+] and [/r/\w+] replaced by the empty string. *)
Definition mention (sigil : string) : matcher := fun s =>
  match strip_prefix sigil s with
  | None => None
  | Some body =>
      match span isword body with
      | O => None
      | n => Some (EmptyString, String.length sigil + n)
      end
  end.

(** The group [(.*?)] followed by the closing marker [d]: the shortest run
    of characters other than a newline after which [d] stands. *)
Fixpoint lazy_until (d : string) (s : string) : option string :=
  if startswith d s then Some EmptyString
  else
    match s with
    | EmptyString => None
    | String c s' =>
        if Ascii.eqb c newline then None
        else
          match lazy_until d s' with
          | Some body => Some (String c body)
          | None => None
          end
    end.

(** [d(.*?)d] replaced by the group. *)
Definition wrapped (d : string) : matcher := fun s =>
  match strip_prefix d s with
  | None => None
  | Some r =>
      match lazy_until d r with
      | None => None
      | Some body =>
          Some (body, String.length d + String.length body + String.length d)
      end
  end.

(** A literal pattern replaced by a literal. *)
Definition literal (pat repl : string) : matcher := fun s =>
  if startswith pat s then Some (repl, String.length pat) else None.

End Re.

(* ================================================================== *)
(** ** Python lists, counters and exceptions *)

Module PyList.

Section Sorting.
Variables (A K : Type) (key : A -> K) (kleb : K -> K -> bool).

Fixpoint insert (x : A) (l : list A) : list A :=
  match l with
  | [] => [x]
  | y :: l' =>
      if kleb (key x) (key y) then x :: y :: l' else y :: insert x l'
  end.

(** A stable ascending sort: of two elements with equal keys, the one
    that came first stays first. *)
Definition sort_stable (l : list A) : list A := fold_right insert [] l.

(** [l.sort(key=key, reverse=reverse)] and [sorted(l, key=key,
    reverse=reverse)].  As in CPython, a reversed sort reverses the
    list, sorts it ascending and stably, and reverses the result, which
    keeps equal keys in their original order. *)
Definition sort (reverse : bool) (l : list A) : list A :=
  if reverse then rev (sort_stable (rev l)) else sort_stable l.
End Sorting.

Arguments insert {A K} key kleb x l.
Arguments sort_stable {A K} key kleb l.
Arguments sort {A K} key kleb reverse l.

(** [l.append(x)] *)
Definition append {A} (l : list A) (x : A) : list A := l ++ [x].

(** [sum(l)] for a list of [int]. *)
Definition sum (l : list Z) : Z := fold_left Z.add l 0%Z.

(** [len(l)] *)
Definition len {A} (l : list A) : Z := Z.of_nat (List.length l).

(** The truth value of a list. *)
Definition nonempty {A} (l : list A) : bool :=
  match l with [] => false | _ :: _ => true end.

End PyList.

Module PyDict.

(** A [dict] from [str] to [int], in insertion order. *)
Definition t := list (string * Z).

(** [d.get(k, default)] *)
Fixpoint get (d : t) (k : string) (default : Z) : Z :=
  match d with
  | [] => default
  | (k', v) :: d' => if String.eqb k' k then v else get d' k default
  end.

(** [d[k] = v]: an existing key keeps its place, a new key goes last. *)
Fixpoint set (d : t) (k : string) (v : Z) : t :=
  match d with
  | [] => [(k, v)]
  | (k', v') :: d' =>
      if String.eqb k' k then (k', v) :: d' else (k', v') :: set d' k v
  end.

(** [d.items()] *)
Definition items (d : t) : list (string * Z) := d.

End PyDict.

Module PyExn.

Inductive exn := ZeroDivisionError.

Inductive result (A : Type) :=
| Ok (a : A)
| Raise (e : exn).
Arguments Ok {A} a.
Arguments Raise {A} e.

Definition bind {A B} (r : result A) (k : A -> result B) : result B :=
  match r with
  | Ok a => k a
  | Raise e => Raise e
  end.

(** [a / b] on [int]: the quotient, or [ZeroDivisionError].  The quotient
    is the exact one; CPython returns the double nearest to it. *)
Definition truediv (a b : Z) : result Q :=
  if (b =? 0)%Z then Raise ZeroDivisionError
  else Ok (inject_Z a / inject_Z b)%Q.

End PyExn.

Notation "x <- r ;; k" := (PyExn.bind r (fun x => k))
  (at level 61, r at next level, right associativity).

(** [d.get(key, default)] for an entry that may be missing. *)
Definition get_or {A} (default : A) (entry : option A) : A :=
  match entry with Some v => v | None => default end.

(* ================================================================== *)
(** ** Records of the pipeline *)

(** The entries of [config.PERSONA_CONFIG] read by the two modules. *)
Module PERSONA_CONFIG.
Record t := {
  min_content_length : Z;
  analyze_sentiment : bool
}.
End PERSONA_CONFIG.

Inductive Sentiment := positive | negative | neutral.

(** A post as the scraper hands it over. *)
Module RawPost.
Record t := {
  id : option string;
  title : option string;
  content : option string;
  subreddit : option string;
  created_utc : option Q;
  score : option Z;
  num_comments : option Z;
  url : option string;
  upvote_ratio : option Q
}.
End RawPost.

(** A comment as the scraper hands it over. *)
Module RawComment.
Record t := {
  id : option string;
  content : option string;
  subreddit : option string;
  created_utc : option Q;
  score : option Z;
  url : option string;
  parent_post_title : option string
}.
End RawComment.

(** A cleaned post; its ['type'] is ['post']. *)
Module Post.
Record t := {
  id : option string;
  title : string;
  content : string;
  subreddit : string;
  created_utc : Q;
  score : Z;
  num_comments : Z;
  url : string;
  upvote_ratio : Q;
  sentiment : option Sentiment
}.
End Post.

(** A cleaned comment; its ['type'] is ['comment']. *)
Module Comment.
Record t := {
  id : option string;
  content : string;
  subreddit : string;
  created_utc : Q;
  score : Z;
  url : string;
  parent_post_title : string;
  sentiment : option Sentiment
}.
End Comment.

Module Subreddit.
Record t := {
  name : string;
  category : string;
  description : string
}.
End Subreddit.

Module Karma.
Record t := {
  post : option Z;
  comment : option Z
}.
Definition empty : t := {| post := None; comment := None |}.
End Karma.

Module Statistics.
Record t := {
  total_posts : Z;
  total_comments : Z;
  average_post_score : Q;
  average_comment_score : Q;
  top_subreddits : list (string * Z);
  most_active_subreddit : option string;
  subreddit_diversity : Z;
  content_length_avg : Q
}.
End Statistics.

(** The user data returned by the scraper. *)
Module RawUserData.
Record t := {
  username : option string;
  account_age_days : option Q;
  karma : option Karma.t;
  posts : option (list RawPost.t);
  comments : option (list RawComment.t);
  subreddits : option (list string)
}.
End RawUserData.

(** The processed user data: every key is present. *)
Module UserData.
Record t := {
  username : option string;
  account_age_days : Q;
  karma : Karma.t;
  posts : list Post.t;
  comments : list Comment.t;
  subreddits : list Subreddit.t;
  statistics : Statistics.t
}.
End UserData.

(** An element of [posts + comments]. *)
Inductive Item :=
| IPost (p : Post.t)
| IComment (c : Comment.t).

Definition item_content (i : Item) : string :=
  match i with
  | IPost p => Post.content p
  | IComment c => Comment.content c
  end.

(* ================================================================== *)
(** ** [class DataProcessor] *)

Module DataProcessor.
Import PyStr PyExn.

(** [_clean_text]: the nine substitutions in source order, then the
    whitespace normalisation. *)
Definition _clean_text (text : string) : string :=
  if is_empty text then EmptyString
  else
    let text := Re.sub Re.url text in
    let text := Re.sub (Re.mention "/u/") text in
    let text := Re.sub (Re.mention "/r/") text in
    let text := Re.sub (Re.wrapped "**") text in
    let text := Re.sub (Re.wrapped "*") text in
    let text := Re.sub (Re.wrapped "~~") text in
    let text := Re.sub (Re.literal "&gt;" ">") text in
    let text := Re.sub (Re.literal "&lt;" "<") text in
    let text := Re.sub (Re.literal "&amp;" "&") text in
    let text := join " " (split text) in
    strip text.

Definition removal_sentinels : list string :=
  ["[deleted]"; "[removed]"; "deleted"; "removed"].

(** [x in l] for a list of [str]. *)
Definition str_in (x : string) (l : list string) : bool :=
  existsb (String.eqb x) l.

(** [sum(1 for word in words if word in text)] *)
Definition count_hits (words : list string) (text : string) : Z :=
  PyList.sum (map (fun _ => 1%Z)
                  (filter (fun word => contains word text) words)).

Definition _analyze_sentiment (text : string) : Sentiment :=
  let positive_words :=
    ["good"; "great"; "amazing"; "awesome"; "love"; "like"; "happy";
     "excellent"] in
  let negative_words :=
    ["bad"; "terrible"; "awful"; "hate"; "dislike"; "sad"; "angry";
     "frustrated"] in
  let text_lower := lower text in
  let positive_count := count_hits positive_words text_lower in
  let negative_count := count_hits negative_words text_lower in
  if (positive_count >? negative_count)%Z then positive
  else if (negative_count >? positive_count)%Z then negative
  else neutral.

Definition categories : list (string * list string) :=
  [("technology", ["programming"; "technology"; "coding"; "python";
                   "javascript"; "webdev"]);
   ("gaming", ["gaming"; "games"; "nintendo"; "xbox"; "playstation";
               "steam"]);
   ("lifestyle", ["food"; "cooking"; "fitness"; "fashion";
                  "relationships"]);
   ("entertainment", ["movies"; "music"; "television"; "books";
                      "netflix"]);
   ("news", ["news"; "worldnews"; "politics"; "coronavirus"]);
   ("educational", ["askreddit"; "explainlikeimfive"; "todayilearned";
                    "science"]);
   ("hobby", ["diy"; "crafts"; "gardening"; "photography"; "art"]);
   ("sports", ["sports"; "soccer"; "basketball"; "football"; "baseball"]);
   ("finance", ["personalfinance"; "investing"; "cryptocurrency";
                "stocks"]);
   ("career", ["jobs"; "career"; "cscareerquestions"; "resumes"])].

Definition _categorize_subreddit (subreddit : string) : string :=
  let subreddit_lower := lower subreddit in
  match
    find (fun entry =>
            existsb (fun keyword => contains keyword subreddit_lower)
                    (snd entry))
         categories
  with
  | Some (category, _) => category
  | None => "other"
  end.

Definition descriptions : list (string * string) :=
  [("programming", "Programming and software development discussions");
   ("askreddit", "Ask and answer thought-provoking questions");
   ("gaming", "General gaming discussions and news");
   ("technology", "Technology news and discussions");
   ("news", "Current news and events");
   ("food", "Food, cooking, and recipes");
   ("fitness", "Health, fitness, and exercise")].

Definition _get_subreddit_description (subreddit : string) : string :=
  match find (fun entry => String.eqb (fst entry) (lower subreddit))
             descriptions with
  | Some (_, description) => description
  | None => "Discussions about " ++ subreddit
  end.

Definition _process_subreddits (subreddits : list string)
  : list Subreddit.t :=
  fold_left
    (fun processed_subreddits subreddit =>
       if is_empty subreddit then processed_subreddits
       else
         PyList.append processed_subreddits
           {| Subreddit.name := subreddit;
              Subreddit.category := _categorize_subreddit subreddit;
              Subreddit.description :=
                _get_subreddit_description subreddit |})
    subreddits [].

(** [_calculate_average_content_length]: the loop carries
    [(total_length, count)]. *)
Definition _calculate_average_content_length (items : list Item)
  : result Q :=
  let '(total_length, count) :=
    fold_left
      (fun acc item =>
         let '(total_length, count) := acc in
         let content := item_content item in
         if is_empty content then (total_length, count)
         else ((total_length + len content)%Z, (count + 1)%Z))
      items (0%Z, 0%Z) in
  if (count >? 0)%Z then truediv total_length count else Ok 0%Q.

(** One step of the activity count:
    [subreddit_activity[s] = subreddit_activity.get(s, 0) + 1]. *)
Definition count_activity (subreddit_activity : PyDict.t)
           (subreddit : string) : PyDict.t :=
  PyDict.set subreddit_activity subreddit
             (PyDict.get subreddit_activity subreddit 0 + 1)%Z.

Definition _generate_statistics (posts : list Post.t)
           (comments : list Comment.t) : result Statistics.t :=
  let post_scores := map Post.score posts in
  let comment_scores := map Comment.score comments in
  let subreddit_activity :=
    fold_left (fun activity post =>
                 count_activity activity (Post.subreddit post))
              posts [] in
  let subreddit_activity :=
    fold_left (fun activity comment =>
                 count_activity activity (Comment.subreddit comment))
              comments subreddit_activity in
  let top_subreddits :=
    firstn 10 (PyList.sort snd Z.leb true
                           (PyDict.items subreddit_activity)) in
  average_post_score <-
    (if PyList.nonempty post_scores
     then truediv (PyList.sum post_scores) (PyList.len post_scores)
     else Ok 0%Q) ;;
  average_comment_score <-
    (if PyList.nonempty comment_scores
     then truediv (PyList.sum comment_scores) (PyList.len comment_scores)
     else Ok 0%Q) ;;
  content_length_avg <-
    _calculate_average_content_length
      (map IPost posts ++ map IComment comments) ;;
  Ok {| Statistics.total_posts := PyList.len posts;
        Statistics.total_comments := PyList.len comments;
        Statistics.average_post_score := average_post_score;
        Statistics.average_comment_score := average_comment_score;
        Statistics.top_subreddits := top_subreddits;
        Statistics.most_active_subreddit :=
          match top_subreddits with
          | (tag, _) :: _ => Some tag
          | [] => None
          end;
        Statistics.subreddit_diversity := PyList.len subreddit_activity;
        Statistics.content_length_avg := content_length_avg |}.

Section WithConfig.
Variable cfg : PERSONA_CONFIG.t.

Definition _is_valid_content (content : string) : bool :=
  if is_empty content then false
  else if (len content <? PERSONA_CONFIG.min_content_length cfg)%Z
  then false
  else if str_in (lower content) removal_sentinels then false
  else if (PyList.len (split content) <? 3)%Z then false
  else true.

(** [_clean_post].  The fields of a raw post are typed, so the
    handler of the [try] block, which returns [None], is not reached. *)
Definition _clean_post (post : RawPost.t) : option Post.t :=
  let title := _clean_text (get_or EmptyString (RawPost.title post)) in
  let content := _clean_text (get_or EmptyString (RawPost.content post)) in
  Some
    {| Post.id := RawPost.id post;
       Post.title := title;
       Post.content := content;
       Post.subreddit := get_or EmptyString (RawPost.subreddit post);
       Post.created_utc := get_or 0%Q (RawPost.created_utc post);
       Post.score := get_or 0%Z (RawPost.score post);
       Post.num_comments := get_or 0%Z (RawPost.num_comments post);
       Post.url := get_or EmptyString (RawPost.url post);
       Post.upvote_ratio := get_or 0%Q (RawPost.upvote_ratio post);
       Post.sentiment :=
         if PERSONA_CONFIG.analyze_sentiment cfg
         then Some (_analyze_sentiment (title ++ " " ++ content))
         else None |}.

Definition _clean_comment (comment : RawComment.t) : option Comment.t :=
  let content := _clean_text (get_or EmptyString (RawComment.content comment)) in
  Some
    {| Comment.id := RawComment.id comment;
       Comment.content := content;
       Comment.subreddit := get_or EmptyString (RawComment.subreddit comment);
       Comment.created_utc := get_or 0%Q (RawComment.created_utc comment);
       Comment.score := get_or 0%Z (RawComment.score comment);
       Comment.url := get_or EmptyString (RawComment.url comment);
       Comment.parent_post_title :=
         get_or EmptyString (RawComment.parent_post_title comment);
       Comment.sentiment :=
         if PERSONA_CONFIG.analyze_sentiment cfg
         then Some (_analyze_sentiment content)
         else None |}.

Definition _process_posts (posts : list RawPost.t) : list Post.t :=
  let processed_posts :=
    fold_left
      (fun processed_posts post =>
         match _clean_post post with
         | Some cleaned_post =>
             if _is_valid_content (Post.content cleaned_post)
             then PyList.append processed_posts cleaned_post
             else processed_posts
         | None => processed_posts
         end)
      posts [] in
  PyList.sort Post.created_utc Qle_bool true processed_posts.

Definition _process_comments (comments : list RawComment.t)
  : list Comment.t :=
  let processed_comments :=
    fold_left
      (fun processed_comments comment =>
         match _clean_comment comment with
         | Some cleaned_comment =>
             if _is_valid_content (Comment.content cleaned_comment)
             then PyList.append processed_comments cleaned_comment
             else processed_comments
         | None => processed_comments
         end)
      comments [] in
  PyList.sort Comment.created_utc Qle_bool true processed_comments.

Definition process_user_data (user_data : RawUserData.t)
  : result UserData.t :=
  let posts := _process_posts (get_or [] (RawUserData.posts user_data)) in
  let comments :=
    _process_comments (get_or [] (RawUserData.comments user_data)) in
  let subreddits :=
    _process_subreddits (get_or [] (RawUserData.subreddits user_data)) in
  statistics <- _generate_statistics posts comments ;;
  Ok {| UserData.username := RawUserData.username user_data;
        UserData.account_age_days :=
          get_or 0%Q (RawUserData.account_age_days user_data);
        UserData.karma :=
          get_or Karma.empty (RawUserData.karma user_data);
        UserData.posts := posts;
        UserData.comments := comments;
        UserData.subreddits := subreddits;
        UserData.statistics := statistics |}.
End WithConfig.

End DataProcessor.

(* ================================================================== *)
(** ** [class PersonaGenerator] *)

(** The entries of [config.OPENAI_CONFIG] sent with every request. *)
Module OPENAI_CONFIG.
Record t := {
  model : string;
  max_tokens : Z;
  temperature : Q
}.
End OPENAI_CONFIG.

(** [config.PERSONA_PROMPTS]: each template with its [format] applied. *)
Module PERSONA_PROMPTS.
Record t := {
  demographic_analysis : string -> string;
  personality_analysis : string -> string;
  interests_analysis : string -> string -> string;
  behavior_analysis : string -> string;
  motivations_analysis : string -> string
}.
End PERSONA_PROMPTS.

Module Citation.
Inductive kind := post | comment.

(** An entry of [all_content]; a comment entry has no ['title'] key. *)
Record t := {
  type : kind;
  content : string;
  title : option string;
  url : string;
  subreddit : string
}.
End Citation.

Module PersonaGenerator.
Import PyStr.
Local Open Scope string_scope.

Record ChatRequest := {
  model : string;
  system : string;
  user : string;
  max_tokens : Z;
  temperature : Q
}.

(** What [openai.ChatCompletion.create(...).choices[0].message.content]
    evaluates to: the generated text, or an exception with its message. *)
Inductive ChatResult :=
| Completion (text : string)
| Failure (message : string).

(** What the generator reads from outside: the text-generation backend,
    the clock, and two formatting builtins. *)
Module World.
Record t := {
  backend : ChatRequest -> ChatResult;
  (** [datetime.now().strftime("%Y-%m-%d %H:%M:%S")] *)
  now : string;
  (** [str(d)] for a subreddit dict *)
  str_dict : Subreddit.t -> string;
  (** [f"{x:.0f}"] *)
  format_0f : Q -> string
}.
End World.

Inductive Event :=
| LogInfo (msg : string)
| LogError (msg : string)
| BackendCall (request : ChatRequest).

(** Computations that append to the trace of observable events. *)
Definition M (A : Type) : Type := list Event -> A * list Event.

Definition ret {A} (a : A) : M A := fun trace => (a, trace).

Definition bind {A B} (c : M A) (k : A -> M B) : M B :=
  fun trace => let '(a, trace') := c trace in k a trace'.

Definition emit (e : Event) : M unit := fun trace => (tt, PyList.append trace e).

Definition run {A} (c : M A) : A * list Event := c [].

Notation "'do' x '<~' c 'in' k" := (bind c (fun x => k))
  (at level 10, x name, c at level 100, k at level 200).
Notation "c '>>' k" := (bind c (fun _ => k))
  (at level 61, right associativity).

Record Facet := {
  analysis : string;
  citations : list Citation.t
}.

Record BasicInfo := {
  username : option string;
  account_age_days : Q;
  total_posts : Z;
  total_comments : Z;
  post_karma : Z;
  comment_karma : Z;
  active_subreddits : list string
}.

Record Sections := {
  basic_info : BasicInfo;
  demographics : Facet;
  personality : Facet;
  interests : Facet;
  behaviors : Facet;
  motivations : Facet;
  frustrations : Facet
}.

(** [str(x)] for a [str] or [None]. *)
Definition str_opt (x : option string) : string :=
  match x with Some s => s | None => "None" end.

Definition kind_str (k : Citation.kind) : string :=
  match k with Citation.post => "post" | Citation.comment => "comment" end.

(** Text made of the given lines, each closed by a newline. *)
Definition unlines (ls : list string) : string :=
  String.concat EmptyString (map (fun l => l ++ nl) ls).

Definition rule : string := replicate 80 "=".

(** A titled block of the document: rule, title, rule, blank line. *)
Definition banner (heading : string) : string :=
  unlines [rule; heading; rule; EmptyString].

(** A facet section: its banner, the analysis and a blank line. *)
Definition section_block (heading body : string) : string :=
  banner heading ++ unlines [body; EmptyString].

(** [_extract_citations]: [analysis] is accepted and not read. *)
Definition _extract_citations (analysis : string) (user_data : UserData.t)
  : list Citation.t :=
  let all_content : list Citation.t := [] in
  let all_content :=
    fold_left
      (fun all_content post =>
         PyList.append all_content
           {| Citation.type := Citation.post;
              Citation.content := Post.content post;
              Citation.title := Some (Post.title post);
              Citation.url := Post.url post;
              Citation.subreddit := Post.subreddit post |})
      (UserData.posts user_data) all_content in
  let all_content :=
    fold_left
      (fun all_content comment =>
         PyList.append all_content
           {| Citation.type := Citation.comment;
              Citation.content := Comment.content comment;
              Citation.title := None;
              Citation.url := Comment.url comment;
              Citation.subreddit := Comment.subreddit comment |})
      (UserData.comments user_data) all_content in
  firstn 5 all_content.

Section WithEnvironment.
Variable cfg : PERSONA_CONFIG.t.
Variable openai_cfg : OPENAI_CONFIG.t.
Variable prompts : PERSONA_PROMPTS.t.
Variable include_citations : bool.
Variable world : World.t.

Definition long_enough (content : string) : bool :=
  negb (is_empty content)
  && (len content >? PERSONA_CONFIG.min_content_length cfg)%Z.

Definition _extract_content_for_analysis (user_data : UserData.t)
  : string :=
  let content_parts : list string := [] in
  let content_parts :=
    fold_left
      (fun content_parts post =>
         let content_parts :=
           if negb (is_empty (Post.title post))
           then PyList.append content_parts
                              ("POST TITLE: " ++ Post.title post)
           else content_parts in
         if long_enough (Post.content post)
         then PyList.append content_parts
                            ("POST CONTENT: " ++ Post.content post)
         else content_parts)
      (UserData.posts user_data) content_parts in
  let content_parts :=
    fold_left
      (fun content_parts comment =>
         if long_enough (Comment.content comment)
         then PyList.append content_parts
                            ("COMMENT: " ++ Comment.content comment)
         else content_parts)
      (UserData.comments user_data) content_parts in
  join (nl ++ nl) content_parts.

Definition _generate_basic_info (user_data : UserData.t) : BasicInfo :=
  let subreddits :=
    map (World.str_dict world) (UserData.subreddits user_data) in
  {| username := UserData.username user_data;
     account_age_days := UserData.account_age_days user_data;
     total_posts := PyList.len (UserData.posts user_data);
     total_comments := PyList.len (UserData.comments user_data);
     post_karma := get_or 0%Z (Karma.post (UserData.karma user_data));
     comment_karma :=
       get_or 0%Z (Karma.comment (UserData.karma user_data));
     active_subreddits := subreddits |}.

Definition request (system_role prompt : string) : ChatRequest :=
  {| model := OPENAI_CONFIG.model openai_cfg;
     system := system_role;
     user := prompt;
     max_tokens := OPENAI_CONFIG.max_tokens openai_cfg;
     temperature := OPENAI_CONFIG.temperature openai_cfg |}.

Definition chat (req : ChatRequest) : M ChatResult :=
  emit (BackendCall req) >> ret (World.backend world req).

(** The body shared by the six [_analyze_*] methods: one backend call
    inside [try]; the handler logs and returns the fallback. *)
Definition analyze (system_role prompt error_label fallback : string)
           (user_data : UserData.t) : M Facet :=
  do response <~ chat (request system_role prompt) in
  match response with
  | Completion analysis =>
      let citations :=
        if include_citations
        then _extract_citations analysis user_data
        else [] in
      ret {| analysis := analysis; citations := citations |}
  | Failure e =>
      emit (LogError ("Error in " ++ error_label ++ " analysis: " ++ e))
      >> ret {| analysis := fallback; citations := [] |}
  end.

Definition demographics_role : string :=
  "You are an expert at analyzing text to identify demographic information. Be conservative in your estimates and only make claims based on clear evidence.".

Definition personality_role : string :=
  "You are an expert at analyzing writing style and communication patterns to identify personality traits. Focus on observable behaviors and communication patterns.".

Definition interests_role : string :=
  "You are an expert at identifying interests and hobbies from online activity. Consider both explicit mentions and implicit interests shown through participation.".

Definition behaviors_role : string :=
  "You are an expert at analyzing behavioral patterns from online activity. Focus on observable patterns in posting, engagement, and interaction styles.".

Definition motivations_role : string :=
  "You are an expert at identifying underlying motivations and goals from online behavior. Look for patterns that reveal what drives the person.".

Definition frustrations_role : string :=
  "You are an expert at identifying frustrations and pain points from online communication. Focus on explicit complaints and recurring negative themes.".

Definition demographics_prompt (content : string) : string :=
  PERSONA_PROMPTS.demographic_analysis prompts (take 3000 content).

Definition _analyze_demographics (content : string)
           (user_data : UserData.t) : M Facet :=
  analyze demographics_role (demographics_prompt content)
          "demographic" "Unable to analyze demographics" user_data.

Definition personality_prompt (content : string) : string :=
  PERSONA_PROMPTS.personality_analysis prompts (take 3000 content).

Definition _analyze_personality (content : string)
           (user_data : UserData.t) : M Facet :=
  analyze personality_role (personality_prompt content)
          "personality" "Unable to analyze personality" user_data.

(** The prompt of the interests facet also lists the subreddit names,
    or ["None"] when there are none. *)
Definition interests_prompt (content : string) (user_data : UserData.t)
  : string :=
  let subreddits_raw := UserData.subreddits user_data in
  let subreddits :=
    if PyList.nonempty subreddits_raw
    then join ", " (map Subreddit.name subreddits_raw)
    else "None" in
  PERSONA_PROMPTS.interests_analysis prompts (take 3000 content) subreddits.

Definition _analyze_interests (content : string)
           (user_data : UserData.t) : M Facet :=
  analyze interests_role (interests_prompt content user_data)
          "interests" "Unable to analyze interests" user_data.

Definition behaviors_prompt (content : string) : string :=
  PERSONA_PROMPTS.behavior_analysis prompts (take 3000 content).

Definition _analyze_behaviors (content : string)
           (user_data : UserData.t) : M Facet :=
  analyze behaviors_role (behaviors_prompt content)
          "behavior" "Unable to analyze behaviors" user_data.

Definition motivations_prompt (content : string) : string :=
  PERSONA_PROMPTS.motivations_analysis prompts (take 3000 content).

Definition _analyze_motivations (content : string)
           (user_data : UserData.t) : M Facet :=
  analyze motivations_role (motivations_prompt content)
          "motivations" "Unable to analyze motivations" user_data.

Definition indent : string := replicate 12 " ".

Definition frustrations_prompt (content : string) : string :=
  nl ++
  unlines
    (map (append indent)
       ["Analyze the following Reddit posts and comments to identify frustrations, complaints, and pain points expressed by the user.";
        "Look for:";
        "- Explicit complaints or frustrations";
        "- Recurring problems they face";
        "- Things that annoy or bother them";
        "- Challenges they're trying to overcome";
        "- Negative experiences they share";
        EmptyString;
        "Content: " ++ take 3000 content])
  ++ indent.

Definition _analyze_frustrations (content : string)
           (user_data : UserData.t) : M Facet :=
  analyze frustrations_role (frustrations_prompt content)
          "frustrations" "Unable to analyze frustrations" user_data.
(** One entry of the citations appendix, numbered [i]. *)
Definition citation_entry (i : Z) (citation : Citation.t) : string :=
  (str_int i ++ ". " ++ upper (kind_str (Citation.type citation)) ++ ": "
   ++ get_or (take 100 (Citation.content citation))
             (Citation.title citation)
   ++ "..." ++ nl)
  ++ ("   URL: " ++ Citation.url citation ++ nl)
  ++ ("   Subreddit: r/" ++ Citation.subreddit citation ++ nl ++ nl).

(** [for i, citation in enumerate(cs, 1): persona_text += ...] *)
Definition citation_entries (cs : list Citation.t) : string :=
  snd (fold_left
         (fun acc citation =>
            let '(i, text) := acc in
            ((i + 1)%Z, text ++ citation_entry i citation))
         cs (1%Z, EmptyString)).

Definition document_header (sections : Sections)
           (user_data : UserData.t) (timestamp : string) : string :=
  nl ++
  banner ("USER PERSONA: " ++ str_opt (UserData.username user_data))
  ++ unlines
       ["Generated on: " ++ timestamp;
        "Analysis based on "
          ++ str_int (PyList.len (UserData.posts user_data))
          ++ " posts and "
          ++ str_int (PyList.len (UserData.comments user_data))
          ++ " comments";
        EmptyString].

Definition basic_info_block (info : BasicInfo) (subreddits_str : string)
  : string :=
  banner "BASIC INFORMATION"
  ++ unlines
       ["Username: " ++ str_opt (username info);
        "Account Age: "
          ++ World.format_0f world (account_age_days info) ++ " days";
        "Total Posts: " ++ str_int (total_posts info);
        "Total Comments: " ++ str_int (total_comments info);
        "Post Karma: " ++ str_int (post_karma info);
        "Comment Karma: " ++ str_int (comment_karma info);
        "Active Subreddits: " ++ subreddits_str;
        EmptyString].

Definition citations_block (cs : list Citation.t) : string :=
  nl ++
  banner "CITATIONS & SOURCES"
  ++ unlines
       ["The following sources were used to generate this persona:"; EmptyString]
  ++ citation_entries (firstn 5 cs).

Definition disclaimer_block (timestamp : string) : string :=
  nl ++
  banner "DISCLAIMER"
  ++ unlines
       ["This persona is generated based on publicly available Reddit activity and should be ";
        "used for research and educational purposes only. The analysis represents patterns ";
        "observed in the user's online behavior and may not reflect their complete personality ";
        "or circumstances.";
        EmptyString;
        "Generation completed at: " ++ timestamp].

Definition _format_persona (sections : Sections)
           (user_data : UserData.t) : string :=
  let timestamp := World.now world in
  let subreddits := active_subreddits (basic_info sections) in
  let subreddits_str :=
    if PyList.nonempty subreddits
    then join ", " (firstn 10 subreddits)
    else "None" in
  let persona_text :=
    document_header sections user_data timestamp
    ++ basic_info_block (basic_info sections) subreddits_str
    ++ section_block "DEMOGRAPHICS" (analysis (demographics sections))
    ++ section_block "PERSONALITY TRAITS"
                     (analysis (personality sections))
    ++ section_block "INTERESTS & HOBBIES"
                     (analysis (interests sections))
    ++ section_block "BEHAVIORS & HABITS"
                     (analysis (behaviors sections))
    ++ section_block "MOTIVATIONS & GOALS"
                     (analysis (motivations sections))
    ++ section_block "FRUSTRATIONS & PAIN POINTS"
                     (analysis (frustrations sections)) in
  let persona_text :=
    if include_citations
    then persona_text
         ++ citations_block (citations (demographics sections))
    else persona_text in
  persona_text ++ disclaimer_block timestamp.

Definition no_content_message : string :=
  "Unable to generate persona: No content available".

Definition generate_persona (user_data : UserData.t) : M string :=
  emit (LogInfo "Starting persona generation...") >>
  let content := _extract_content_for_analysis user_data in
  if is_empty content then
    emit (LogError "No content available for analysis") >>
    ret no_content_message
  else
    let info := _generate_basic_info user_data in
    do demographics <~ _analyze_demographics content user_data in
    do personality <~ _analyze_personality content user_data in
    do interests <~ _analyze_interests content user_data in
    do behaviors <~ _analyze_behaviors content user_data in
    do motivations <~ _analyze_motivations content user_data in
    do frustrations <~ _analyze_frustrations content user_data in
    let persona_sections :=
      {| basic_info := info;
         demographics := demographics;
         personality := personality;
         interests := interests;
         behaviors := behaviors;
         motivations := motivations;
         frustrations := frustrations |} in
    let formatted_persona := _format_persona persona_sections user_data in
    emit (LogInfo "Persona generation completed") >>
    ret formatted_persona.
End WithEnvironment.

End PersonaGenerator.

(* ================================================================== *)
(** ** Vocabulary of the specification *)

Module Spec.
Import PyStr.

(** The corpus in corpus order: every post, then every comment. *)
Definition corpus (user_data : UserData.t) : list Item :=
  map IPost (UserData.posts user_data)
  ++ map IComment (UserData.comments user_data).

Definition item_kind (i : Item) : Citation.kind :=
  match i with
  | IPost _ => Citation.post
  | IComment _ => Citation.comment
  end.

Definition item_title (i : Item) : option string :=
  match i with
  | IPost p => Some (Post.title p)
  | IComment _ => None
  end.

Definition item_url (i : Item) : string :=
  match i with
  | IPost p => Post.url p
  | IComment c => Comment.url c
  end.

Definition item_subreddit (i : Item) : string :=
  match i with
  | IPost p => Post.subreddit p
  | IComment c => Comment.subreddit c
  end.

(** A citation that copies kind, title, URL, tag and body of an item. *)
Definition faithful_copy (i : Item) (c : Citation.t) : Prop :=
  Citation.type c = item_kind i
  /\ Citation.title c = item_title i
  /\ Citation.url c = item_url i
  /\ Citation.subreddit c = item_subreddit i
  /\ Citation.content c = item_content i.

(** The citation record of an item. *)
Definition cite (i : Item) : Citation.t :=
  {| Citation.type := item_kind i;
     Citation.content := item_content i;
     Citation.title := item_title i;
     Citation.url := item_url i;
     Citation.subreddit := item_subreddit i |}.

(** Equality of two texts up to letter case. *)
Definition caseless_eq (a b : string) : Prop := lower a = lower b.

(** The cleaned posts the content filter accepts, in input order. *)
Definition surviving_posts (cfg : PERSONA_CONFIG.t)
           (posts : list RawPost.t) : list Post.t :=
  flat_map
    (fun post =>
       match DataProcessor._clean_post cfg post with
       | Some p =>
           if DataProcessor._is_valid_content cfg (Post.content p)
           then [p] else []
       | None => []
       end)
    posts.

Definition surviving_comments (cfg : PERSONA_CONFIG.t)
           (comments : list RawComment.t) : list Comment.t :=
  flat_map
    (fun comment =>
       match DataProcessor._clean_comment cfg comment with
       | Some c =>
           if DataProcessor._is_valid_content cfg (Comment.content c)
           then [c] else []
       | None => []
       end)
    comments.

(** The elements whose key is equivalent to [k] under the order [kleb]. *)
Definition same_key {A K} (key : A -> K) (kleb : K -> K -> bool)
           (k : K) (a : A) : bool :=
  kleb (key a) k && kleb k (key a).

(** [a] may stand before [b] in a newest-first sequence. *)
Definition newest_first {A} (created : A -> Q) (a b : A) : Prop :=
  (created b <= created a)%Q.

(** The items created at time [t]. *)
Definition created_at {A} (created : A -> Q) (t : Q) (a : A) : bool :=
  Qeq_bool (created a) t.

(** The tags in the order the activity count meets them. *)
Definition tags (posts : list Post.t) (comments : list Comment.t)
  : list string :=
  map Post.subreddit posts ++ map Comment.subreddit comments.

(** Position of the first occurrence of [tag]. *)
Fixpoint first_index (tag : string) (l : list string) : option nat :=
  match l with
  | [] => None
  | x :: l' =>
      if String.eqb x tag then Some 0
      else option_map S (first_index tag l')
  end.

(** Number of occurrences of [tag]. *)
Fixpoint occurrences (tag : string) (l : list string) : Z :=
  match l with
  | [] => 0
  | x :: l' =>
      ((if String.eqb x tag then 1 else 0) + occurrences tag l')%Z
  end.

(** [a] may stand before [b] when sorting by count, descending. *)
Definition most_active_first (a b : string * Z) : Prop :=
  (snd b <= snd a)%Z.

(** [s] is [l] with some elements left out, the order kept. *)
Inductive Subseq {A : Type} : list A -> list A -> Prop :=
| Subseq_nil : Subseq [] []
| Subseq_skip (x : A) (s l : list A) : Subseq s l -> Subseq s (x :: l)
| Subseq_take (x : A) (s l : list A) :
    Subseq s l -> Subseq (x :: s) (x :: l).

(** [tag] was first met before [tag'] while counting over [l]. *)
Definition first_met_before (l : list string) (tag tag' : string) : Prop :=
  exists i j,
    first_index tag l = Some i /\ first_index tag' l = Some j /\ i < j.

(** The activity count after the tags [l] have been counted. *)
Definition activity (l : list string) : PyDict.t :=
  fold_left DataProcessor.count_activity l [].

(** [part] occurs in [text]. *)
Definition occurs_in (part text : string) : Prop :=
  exists before after, text = (before ++ part ++ after)%string.

(** Every character of [s] is of class [f]. *)
Fixpoint all_chars (f : ascii -> bool) (s : string) : bool :=
  match s with
  | EmptyString => true
  | String c s' => f c && all_chars f s'
  end.

(** A character none of the patterns of [_clean_text] needs: not one of
    [/], [*], [~] and [&]. *)
Definition plain_char (c : ascii) : bool :=
  negb (Ascii.eqb c "/" || Ascii.eqb c "*" || Ascii.eqb c "~"
        || Ascii.eqb c "&")%char.

(** A text without markup characters. *)
Definition markup_free (s : string) : bool := all_chars plain_char s.

(** A token: a non-empty text without whitespace. *)
Definition word (w : string) : Prop :=
  w <> EmptyString /\ all_chars (fun c => negb (isspace c)) w = true.

(** The six facets of a persona, in document order. *)
Inductive facet :=
| Demographics | Personality | Interests | Behaviors | Motivations
| Frustrations.

Definition facet_heading (f : facet) : string :=
  match f with
  | Demographics => "DEMOGRAPHICS"
  | Personality => "PERSONALITY TRAITS"
  | Interests => "INTERESTS & HOBBIES"
  | Behaviors => "BEHAVIORS & HABITS"
  | Motivations => "MOTIVATIONS & GOALS"
  | Frustrations => "FRUSTRATIONS & PAIN POINTS"
  end.

Definition facet_of (sections : PersonaGenerator.Sections) (f : facet)
  : PersonaGenerator.Facet :=
  match f with
  | Demographics => PersonaGenerator.demographics sections
  | Personality => PersonaGenerator.personality sections
  | Interests => PersonaGenerator.interests sections
  | Behaviors => PersonaGenerator.behaviors sections
  | Motivations => PersonaGenerator.motivations sections
  | Frustrations => PersonaGenerator.frustrations sections
  end.

(** The request the generator sends for a facet. *)
Definition facet_request (openai_cfg : OPENAI_CONFIG.t)
           (prompts : PERSONA_PROMPTS.t) (content : string)
           (user_data : UserData.t) (f : facet)
  : PersonaGenerator.ChatRequest :=
  match f with
  | Demographics =>
      PersonaGenerator.request openai_cfg PersonaGenerator.demographics_role
        (PersonaGenerator.demographics_prompt prompts content)
  | Personality =>
      PersonaGenerator.request openai_cfg PersonaGenerator.personality_role
        (PersonaGenerator.personality_prompt prompts content)
  | Interests =>
      PersonaGenerator.request openai_cfg PersonaGenerator.interests_role
        (PersonaGenerator.interests_prompt prompts content user_data)
  | Behaviors =>
      PersonaGenerator.request openai_cfg PersonaGenerator.behaviors_role
        (PersonaGenerator.behaviors_prompt prompts content)
  | Motivations =>
      PersonaGenerator.request openai_cfg PersonaGenerator.motivations_role
        (PersonaGenerator.motivations_prompt prompts content)
  | Frustrations =>
      PersonaGenerator.request openai_cfg PersonaGenerator.frustrations_role
        (PersonaGenerator.frustrations_prompt content)
  end.

(** A complete persona document: the header, the basic-info block, the
    six facet sections and the disclaimer. *)
Definition complete_document (doc : string) : Prop :=
  occurs_in "USER PERSONA: " doc
  /\ occurs_in (PersonaGenerator.banner "BASIC INFORMATION") doc
  /\ (forall f, occurs_in (PersonaGenerator.banner (facet_heading f)) doc)
  /\ occurs_in (PersonaGenerator.banner "DISCLAIMER") doc.

(** The trace holds a call of the backend. *)
Definition calls_backend (trace : list PersonaGenerator.Event) : bool :=
  existsb (fun e => match e with
                    | PersonaGenerator.BackendCall _ => true
                    | _ => false
                    end) trace.

End Spec.

(* ================================================================== *)
(** ** Sample inputs *)

Module Sample.
Import PersonaGenerator.
Local Open Scope string_scope.

Definition cfg : PERSONA_CONFIG.t :=
  {| PERSONA_CONFIG.min_content_length := 10;
     PERSONA_CONFIG.analyze_sentiment := true |}.

Definition openai_cfg : OPENAI_CONFIG.t :=
  {| OPENAI_CONFIG.model := "gpt-3.5-turbo";
     OPENAI_CONFIG.max_tokens := 1500;
     OPENAI_CONFIG.temperature := (7 # 10)%Q |}.

Definition prompts : PERSONA_PROMPTS.t :=
  {| PERSONA_PROMPTS.demographic_analysis :=
       fun content => "Demographics of: " ++ content;
     PERSONA_PROMPTS.personality_analysis :=
       fun content => "Personality of: " ++ content;
     PERSONA_PROMPTS.interests_analysis :=
       fun content subreddits =>
         "Interests of: " ++ content ++ " in " ++ subreddits;
     PERSONA_PROMPTS.behavior_analysis :=
       fun content => "Behaviors of: " ++ content;
     PERSONA_PROMPTS.motivations_analysis :=
       fun content => "Motivations of: " ++ content |}.

Definition no_statistics : Statistics.t :=
  {| Statistics.total_posts := 0;
     Statistics.total_comments := 0;
     Statistics.average_post_score := 0%Q;
     Statistics.average_comment_score := 0%Q;
     Statistics.top_subreddits := [];
     Statistics.most_active_subreddit := None;
     Statistics.subreddit_diversity := 0;
     Statistics.content_length_avg := 0%Q |}.

(** A user none of whose posts and comments survived. *)
Definition silent_user : UserData.t :=
  {| UserData.username := Some "nobody";
     UserData.account_age_days := 12%Q;
     UserData.karma := {| Karma.post := Some 1%Z; Karma.comment := Some 0%Z |};
     UserData.posts := [];
     UserData.comments := [];
     UserData.subreddits := [];
     UserData.statistics := no_statistics |}.

Definition python_post : Post.t :=
  {| Post.id := Some "p1";
     Post.title := "Learning python";
     Post.content := "I love programming in python and building cool apps";
     Post.subreddit := "learnpython";
     Post.created_utc := 200%Q;
     Post.score := 5%Z;
     Post.num_comments := 2%Z;
     Post.url := "https://reddit.com/r/learnpython/p1";
     Post.upvote_ratio := 1%Q;
     Post.sentiment := Some positive |}.

Definition community_comment : Comment.t :=
  {| Comment.id := Some "c1";
     Comment.content := "This is a great community honestly";
     Comment.subreddit := "learnpython";
     Comment.created_utc := 150%Q;
     Comment.score := 3%Z;
     Comment.url := "https://reddit.com/r/learnpython/p0/c1";
     Comment.parent_post_title := "Welcome";
     Comment.sentiment := Some positive |}.

Definition active_user : UserData.t :=
  {| UserData.username := Some "somebody";
     UserData.account_age_days := 400%Q;
     UserData.karma :=
       {| Karma.post := Some 5%Z; Karma.comment := Some 3%Z |};
     UserData.posts := [python_post];
     UserData.comments := [community_comment];
     UserData.subreddits :=
       [{| Subreddit.name := "learnpython";
           Subreddit.category := "technology";
           Subreddit.description := "Discussions about learnpython" |}];
     UserData.statistics := no_statistics |}.

(** A raw fetch: two posts, one of them deleted, and one comment. *)
Definition raw_post (created : Q) (body : string) : RawPost.t :=
  {| RawPost.id := Some "p";
     RawPost.title := Some "A **title**";
     RawPost.content := Some body;
     RawPost.subreddit := Some "learnpython";
     RawPost.created_utc := Some created;
     RawPost.score := Some 4%Z;
     RawPost.num_comments := Some 0%Z;
     RawPost.url := Some "https://reddit.com/r/learnpython/p";
     RawPost.upvote_ratio := Some 1%Q |}.

Definition raw_comment (created : Q) (body : string) : RawComment.t :=
  {| RawComment.id := Some "c";
     RawComment.content := Some body;
     RawComment.subreddit := Some "learnpython";
     RawComment.created_utc := Some created;
     RawComment.score := Some 2%Z;
     RawComment.url := Some "https://reddit.com/r/learnpython/p/c";
     RawComment.parent_post_title := Some "A title" |}.

Definition raw_user : RawUserData.t :=
  {| RawUserData.username := Some "somebody";
     RawUserData.account_age_days := Some 400%Q;
     RawUserData.karma :=
       Some {| Karma.post := Some 5%Z; Karma.comment := Some 3%Z |};
     RawUserData.posts :=
       Some [raw_post 200
               "I love programming in python and building cool apps";
             raw_post 100 "[deleted]"];
     RawUserData.comments :=
       Some [raw_comment 150 "This is a great community honestly"];
     RawUserData.subreddits := Some ["learnpython"] |}.

(** A backend that answers every request. *)
Definition answering : World.t :=
  {| World.backend := fun req => Completion ("Answer to: " ++ system req);
     World.now := "2024-01-01 00:00:00";
     World.str_dict := Subreddit.name;
     World.format_0f := fun _ => "400" |}.

(** A backend that fails on the personality request and on no other. *)
Definition personality_down : World.t :=
  {| World.backend :=
       fun req =>
         if String.eqb (system req) personality_role
         then Failure "Rate limit reached"
         else Completion ("Answer to: " ++ system req);
     World.now := "2024-01-01 00:00:00";
     World.str_dict := Subreddit.name;
     World.format_0f := fun _ => "400" |}.

(** The answer of [personality_down] for a facet other than personality. *)
Definition answers (f : Spec.facet) : string :=
  "Answer to: "
  ++ system (Spec.facet_request openai_cfg prompts EmptyString active_user f).

End Sample.

(* ================================================================== *)
(** ** Vocabulary of persona assembly *)

Module Assembly.
Import PersonaGenerator Spec.
Local Open Scope string_scope.

(** The facets in the order [generate_persona] analyses them. *)
Definition facets : list facet :=
  [Demographics; Personality; Interests; Behaviors; Motivations;
   Frustrations].

(** The text a facet holds when its backend call failed. *)
Definition facet_fallback (f : facet) : string :=
  match f with
  | Demographics => "Unable to analyze demographics"
  | Personality => "Unable to analyze personality"
  | Interests => "Unable to analyze interests"
  | Behaviors => "Unable to analyze behaviors"
  | Motivations => "Unable to analyze motivations"
  | Frustrations => "Unable to analyze frustrations"
  end.

(** The name of a facet in the error record of its handler. *)
Definition facet_label (f : facet) : string :=
  match f with
  | Demographics => "demographic"
  | Personality => "personality"
  | Interests => "interests"
  | Behaviors => "behavior"
  | Motivations => "motivations"
  | Frustrations => "frustrations"
  end.

(** What a facet holds, given the response of the backend. *)
Definition outcome (include_citations : bool) (user_data : UserData.t)
           (f : facet) (response : ChatResult) : Facet :=
  match response with
  | Completion text =>
      {| analysis := text;
         citations :=
           if include_citations
           then _extract_citations text user_data
           else [] |}
  | Failure _ =>
      {| analysis := facet_fallback f; citations := [] |}
  end.

(** The error record a response leaves in the log, if any. *)
Definition error_record (f : facet) (response : ChatResult)
  : list string :=
  match response with
  | Completion _ => []
  | Failure e => ["Error in " ++ facet_label f ++ " analysis: " ++ e]
  end.

(** The requests sent to the backend, in order. *)
Definition backend_calls (trace : list Event) : list ChatRequest :=
  flat_map (fun e => match e with BackendCall req => [req] | _ => [] end)
           trace.

(** The error records of the log, in order. *)
Definition logged_errors (trace : list Event) : list string :=
  flat_map (fun e => match e with LogError msg => [msg] | _ => [] end)
           trace.

(** The response of the backend to the request of a facet. *)
Definition response (openai_cfg : OPENAI_CONFIG.t)
           (prompts : PERSONA_PROMPTS.t) (world : World.t)
           (content : string) (user_data : UserData.t) (f : facet)
  : ChatResult :=
  World.backend world
    (facet_request openai_cfg prompts content user_data f).

(** The events one facet adds to the trace: its request, and the error
    record when the call failed. *)
Definition facet_events (openai_cfg : OPENAI_CONFIG.t)
           (prompts : PERSONA_PROMPTS.t) (world : World.t)
           (content : string) (user_data : UserData.t) (f : facet)
  : list Event :=
  (BackendCall (facet_request openai_cfg prompts content user_data f)
   :: map LogError
          (error_record f
             (response openai_cfg prompts world content user_data f)))%list.

(** The sections of a run: each facet holds the outcome of its call. *)
Definition assembled (openai_cfg : OPENAI_CONFIG.t)
           (prompts : PERSONA_PROMPTS.t) (include_citations : bool)
           (world : World.t) (content : string) (user_data : UserData.t)
  : Sections :=
  let result f :=
    outcome include_citations user_data f
            (response openai_cfg prompts world content user_data f) in
  {| basic_info := _generate_basic_info world user_data;
     demographics := result Demographics;
     personality := result Personality;
     interests := result Interests;
     behaviors := result Behaviors;
     motivations := result Motivations;
     frustrations := result Frustrations |}.

(** A post that adds nothing to the evidence text. *)
Definition silent_post (cfg : PERSONA_CONFIG.t) (p : Post.t) : Prop :=
  Post.title p = EmptyString /\ long_enough cfg (Post.content p) = false.

(** A comment that adds nothing to the evidence text. *)
Definition silent_comment (cfg : PERSONA_CONFIG.t) (c : Comment.t) : Prop :=
  long_enough cfg (Comment.content c) = false.

(** A user whose only comment has exactly [min_content_length]
    characters. *)
Definition terse_user : RawUserData.t :=
  {| RawUserData.username := Some "terse";
     RawUserData.account_age_days := Some 30%Q;
     RawUserData.karma := None;
     RawUserData.posts := None;
     RawUserData.comments :=
       Some [Sample.raw_comment 150 "ab cd efgh"];
     RawUserData.subreddits := None |}.

End Assembly.

(* ================================================================== *)
(** ** [main.py] and [utils.py]: the URL and text helpers *)

Module PyText.
Import PyStr.
Local Open Scope string_scope.

(** [s.split(sep)] for a non-empty [sep], as the first piece and the
    pieces after it; [skip] counts the characters of the separator found
    that are still to be passed over. *)
Fixpoint split_from (sep : string) (skip : nat) (s : string)
  : string * list string :=
  match s with
  | EmptyString => (EmptyString, [])
  | String c s' =>
      match skip with
      | S k => split_from sep k s'
      | O =>
          if startswith sep (String c s')
          then
            let '(piece, pieces) :=
              split_from sep (pred (String.length sep)) s' in
            (EmptyString, piece :: pieces)
          else
            let '(piece, pieces) := split_from sep 0 s' in
            (String c piece, pieces)
      end
  end.

Definition split_on (sep s : string) : list string :=
  let '(piece, pieces) := split_from sep 0 s in piece :: pieces.

(** [s.rstrip(c)] for a one-character [c]. *)
Fixpoint rstrip_char (a : ascii) (s : string) : string :=
  match s with
  | EmptyString => EmptyString
  | String c s' =>
      let r := rstrip_char a s' in
      if is_empty r && Ascii.eqb c a then EmptyString else String c r
  end.

(** [s.replace(a, b)] for one-character [a] and [b]. *)
Fixpoint replace_char (a b : ascii) (s : string) : string :=
  match s with
  | EmptyString => EmptyString
  | String c s' =>
      String (if Ascii.eqb c a then b else c) (replace_char a b s')
  end.

(** [s[:k]]; a negative [k] counts from the end. *)
Definition slice_to (k : Z) (s : string) : string :=
  if (k <? 0)%Z then take (Z.to_nat (Z.max 0 (len s + k))) s
  else take (Z.to_nat k) s.

(** [re.search(pattern, s)] for a pattern that is tried at each position
    in turn and answers with its group. *)
Fixpoint search (m : string -> option string) (s : string)
  : option string :=
  match m s with
  | Some group => Some group
  | None =>
      match s with
      | EmptyString => None
      | String _ s' => search m s'
      end
  end.

(** The pattern [literal([^/]+)]: the literal, then the longest non-empty
    run of characters other than [/], which is the group. *)
Definition path_segment_after (literal : string) : string -> option string :=
  fun s =>
    match strip_prefix literal s with
    | None => None
    | Some rest =>
        match Re.span (fun c => negb (Ascii.eqb c "/")) rest with
        | O => None
        | n => Some (take n rest)
        end
    end.

(** A maximal non-empty run of characters of class [f], replaced by
    [repl]: the patterns [\s+] and [\.+]. *)
Definition run_of (f : ascii -> bool) (repl : string) : Re.matcher :=
  fun s =>
    match Re.span f s with
    | O => None
    | n => Some (repl, n)
    end.

End PyText.

Module Main.
Import PyStr PyText.
Local Open Scope string_scope.

(** The [ValueError] raised by [extract_username], with its message. *)
Inductive outcome :=
| Username (name : string)
| ValueError (message : string).

(** [url.split(sep)[1].rstrip('/')]; an [IndexError] carries its text. *)
Definition after_marker (sep url : string) : string + string :=
  match nth_error (split_on sep url) 1 with
  | Some piece => inl (rstrip_char "/" piece)
  | None => inr "list index out of range"
  end.

Definition extract_username (url : string) : outcome :=
  let found :=
    if contains "/user/" url then after_marker "/user/" url
    else if contains "/u/" url then after_marker "/u/" url
    else inr "Invalid Reddit URL format" in
  match found with
  | inl username =>
      match nth_error (split_on "/" username) 0 with
      | Some first => Username first
      | None =>
          ValueError
            "Could not extract username from URL: list index out of range"
      end
  | inr e => ValueError ("Could not extract username from URL: " ++ e)
  end.

End Main.

Module Utils.
Import PyStr PyText.
Local Open Scope string_scope.

(** The truth value of an optional [str] argument. *)
Definition given (arg : option string) : bool :=
  match arg with
  | Some s => negb (is_empty s)
  | None => false
  end.

Definition extract_username_from_url (url : string) : option string :=
  let patterns :=
    [path_segment_after "reddit.com/user/";
     path_segment_after "reddit.com/u/";
     path_segment_after "old.reddit.com/user/";
     path_segment_after "old.reddit.com/u/"] in
  fold_left
    (fun found pattern =>
       match found with
       | Some name => Some name
       | None => search pattern url
       end)
    patterns None.

Definition truncate_text (text : string) (max_length : Z) : string :=
  if (len text <=? max_length)%Z then text
  else slice_to (max_length - 3) text ++ "...".

(** The characters of [invalid_chars], in order:
    [<], [>], [:], the double quote, [/], the backslash, [|], [?], [*]. *)
Definition invalid_chars : list ascii :=
  map ascii_of_N [60; 62; 58; 34; 47; 92; 124; 63; 42]%N.

Definition sanitize_filename (filename : string) : string :=
  let filename :=
    fold_left (fun filename char => replace_char char "_" filename)
              invalid_chars filename in
  let filename := Re.sub (run_of isspace "_") filename in
  let filename :=
    Re.sub (run_of (fun c => Ascii.eqb c ".") ".") filename in
  if is_empty filename || String.eqb filename "." then "unknown_user"
  else filename.

Definition create_citation_url (post_id comment_id subreddit username
                                : option string) : string :=
  let base_url := "https://www.reddit.com" in
  if given post_id then
    if given subreddit
    then base_url ++ "/r/" ++ get_or EmptyString subreddit ++ "/comments/"
         ++ get_or EmptyString post_id ++ "/"
    else base_url ++ "/comments/" ++ get_or EmptyString post_id ++ "/"
  else if given comment_id then
    base_url ++ "/comments/" ++ get_or EmptyString comment_id ++ "/"
  else if given username then
    base_url ++ "/user/" ++ get_or EmptyString username ++ "/"
  else base_url.

End Utils.

(* ================================================================== *)
(** ** Vocabulary of settled text and of the rendered document *)

Module Settled.
Import PyStr.

(** [re.search(pattern, s) is not None]: the pattern matches at some
    position of [s]. *)
Fixpoint finds (m : Re.matcher) (s : string) : bool :=
  match m s with
  | Some _ => true
  | None =>
      match s with
      | EmptyString => false
      | String _ s' => finds m s'
      end
  end.

(** The nine patterns of [_clean_text], in the order it applies them. *)
Definition clean_patterns : list Re.matcher :=
  [Re.url; Re.mention "/u/"; Re.mention "/r/";
   Re.wrapped "**"; Re.wrapped "*"; Re.wrapped "~~";
   Re.literal "&gt;" ">"; Re.literal "&lt;" "<"; Re.literal "&amp;" "&"].

(** A text in which none of the nine patterns matches any more. *)
Definition settled (s : string) : bool :=
  forallb (fun m => negb (finds m s)) clean_patterns.

End Settled.

Module Document.
Import PyStr Spec.
Local Open Scope string_scope.

(** The rule of the document: eighty equals signs. *)
Definition eighty_equals : string :=
  "================================================================================".

(** A section header as it stands in the document: the heading between
    two rules, each on a line of its own. *)
Definition section_header (heading : string) : string :=
  eighty_equals ++ nl ++ heading ++ nl ++ eighty_equals ++ nl.

(** A facet section as it stands in the document: the header, a blank
    line, the body and a blank line. *)
Definition rendered_section (heading body : string) : string :=
  section_header heading ++ nl ++ body ++ nl ++ nl.

(** A document with the header, the basic-info block, the six facet
    sections and the disclaimer. *)
Definition complete (doc : string) : Prop :=
  occurs_in (eighty_equals ++ nl ++ "USER PERSONA: ") doc
  /\ occurs_in (section_header "BASIC INFORMATION") doc
  /\ (forall f, occurs_in (section_header (facet_heading f)) doc)
  /\ occurs_in (section_header "DISCLAIMER") doc.

(** The method of [PersonaGenerator] that analyses a facet. *)
Definition facet_method (openai_cfg : OPENAI_CONFIG.t)
           (prompts : PERSONA_PROMPTS.t) (include_citations : bool)
           (world : PersonaGenerator.World.t) (f : facet)
  : string -> UserData.t -> PersonaGenerator.M PersonaGenerator.Facet :=
  match f with
  | Demographics =>
      PersonaGenerator._analyze_demographics openai_cfg prompts
        include_citations world
  | Personality =>
      PersonaGenerator._analyze_personality openai_cfg prompts
        include_citations world
  | Interests =>
      PersonaGenerator._analyze_interests openai_cfg prompts
        include_citations world
  | Behaviors =>
      PersonaGenerator._analyze_behaviors openai_cfg prompts
        include_citations world
  | Motivations =>
      PersonaGenerator._analyze_motivations openai_cfg prompts
        include_citations world
  | Frustrations =>
      PersonaGenerator._analyze_frustrations openai_cfg include_citations
        world
  end.

(** The sections [generate_persona] hands to [_format_persona]: the basic
    information and what each of the six methods returned. *)
Definition sections_of (world : PersonaGenerator.World.t)
           (user_data : UserData.t)
           (returned : facet -> PersonaGenerator.Facet)
  : PersonaGenerator.Sections :=
  {| PersonaGenerator.basic_info :=
       PersonaGenerator._generate_basic_info world user_data;
     PersonaGenerator.demographics := returned Demographics;
     PersonaGenerator.personality := returned Personality;
     PersonaGenerator.interests := returned Interests;
     PersonaGenerator.behaviors := returned Behaviors;
     PersonaGenerator.motivations := returned Motivations;
     PersonaGenerator.frustrations := returned Frustrations |}.

End Document.

Module Averages.
Import PyStr.

(** [_calculate_average_content_length] with the division of its last
    line left open: [divide total_length count] stands for
    [total_length / count], [zero] for the [0] of the other branch. *)
Definition _calculate_average_content_length_by {R : Type}
           (divide : Z -> Z -> R) (zero : R) (items : list Item) : R :=
  let '(total_length, count) :=
    fold_left
      (fun acc item =>
         let '(total_length, count) := acc in
         let content := item_content item in
         if is_empty content then (total_length, count)
         else ((total_length + len content)%Z, (count + 1)%Z))
      items (0%Z, 0%Z) in
  if (count >? 0)%Z then divide total_length count else zero.

End Averages.

(* ================================================================== *)
(** ** Loops that append *)

Section Loops.
Context {A B : Type}.

Lemma fold_append_map (f : A -> B) (l : list A) (init : list B) :
  fold_left (fun acc x => PyList.append acc (f x)) l init
  = init ++ map f l.
Proof.
  revert init; induction l as [|x l IH]; intros init; simpl.
  - now rewrite app_nil_r.
  - rewrite IH. unfold PyList.append. now rewrite <- app_assoc.
Qed.

Lemma fold_append_flat_map (f : A -> list B) (l : list A) (init : list B) :
  fold_left (fun acc x => acc ++ f x) l init = init ++ flat_map f l.
Proof.
  revert init; induction l as [|x l IH]; intros init; simpl.
  - now rewrite app_nil_r.
  - rewrite IH. now rewrite <- app_assoc.
Qed.

Lemma fold_left_ext (f g : B -> A -> B) (l : list A) (init : B) :
  (forall acc x, f acc x = g acc x) ->
  fold_left f l init = fold_left g l init.
Proof.
  intros Hfg; revert init; induction l as [|x l IH]; intros init; simpl.
  - reflexivity.
  - rewrite Hfg. apply IH.
Qed.
End Loops.

(* ================================================================== *)
(** ** Citation grounding *)

Section CitationGrounding.
Import PersonaGenerator.

Lemma cite_faithful (i : Item) : Spec.faithful_copy i (Spec.cite i).
Proof. unfold Spec.faithful_copy, Spec.cite; simpl; repeat split. Qed.

Lemma extract_citations_eq (analysis : string) (user_data : UserData.t) :
  _extract_citations analysis user_data
  = firstn 5 (map Spec.cite (Spec.corpus user_data)).
Proof.
  unfold _extract_citations, Spec.corpus.
  rewrite 2 fold_append_map. simpl.
  now rewrite map_app, 2 map_map.
Qed.

Lemma Forall2_map_r {X Y} (R : X -> Y -> Prop) (f : X -> Y) (l : list X) :
  (forall x, R x (f x)) -> Forall2 R l (map f l).
Proof. intros H; induction l; simpl; constructor; auto. Qed.

(** C6. Citation grounding returns at most five records; they copy, in
    corpus order (posts, then comments), the first items of the corpus;
    on a corpus without posts and comments the result is empty. *)
Theorem extract_citations_first_items :
  forall (analysis : string) (user_data : UserData.t),
    let cited := _extract_citations analysis user_data in
    List.length cited <= 5
    /\ List.length cited = Nat.min 5 (List.length (Spec.corpus user_data))
    /\ Forall2 Spec.faithful_copy (firstn 5 (Spec.corpus user_data)) cited
    /\ forall name age karma subreddits statistics,
         _extract_citations analysis
           {| UserData.username := name;
              UserData.account_age_days := age;
              UserData.karma := karma;
              UserData.posts := [];
              UserData.comments := [];
              UserData.subreddits := subreddits;
              UserData.statistics := statistics |} = [].
Proof.
  intros analysis user_data cited; subst cited.
  rewrite extract_citations_eq.
  repeat split.
  - apply firstn_le_length.
  - now rewrite length_firstn, length_map.
  - rewrite firstn_map. apply Forall2_map_r, cite_faithful.
Qed.

(** C8. The citation list is the same for any two analysis texts over
    one corpus. *)
Theorem extract_citations_ignores_analysis :
  forall (user_data : UserData.t) (a1 a2 : string),
    _extract_citations a1 user_data = _extract_citations a2 user_data.
Proof.
  intros user_data a1 a2. now rewrite 2 extract_citations_eq.
Qed.
End CitationGrounding.

(* ================================================================== *)
(** ** The content filter *)

Section ContentFilter.
Import PyStr DataProcessor.

Lemma is_empty_true (s : string) : is_empty s = true <-> s = EmptyString.
Proof. destruct s; simpl; split; congruence. Qed.

Lemma str_in_In (x : string) (l : list string) :
  str_in x l = true <-> In x l.
Proof.
  unfold str_in. rewrite existsb_exists. split.
  - intros [y [Hy Heq]]. apply String.eqb_eq in Heq. now subst.
  - intros H. exists x. split; [assumption | apply String.eqb_refl].
Qed.

Lemma sentinels_lowercase (s : string) :
  In s removal_sentinels -> lower s = s.
Proof.
  unfold removal_sentinels; simpl.
  intros [H | [H | [H | [H | []]]]]; subst; reflexivity.
Qed.

Lemma sentinel_match (content : string) :
  str_in (lower content) removal_sentinels = true
  <-> exists s, In s removal_sentinels /\ Spec.caseless_eq content s.
Proof.
  rewrite str_in_In. unfold Spec.caseless_eq. split.
  - intros H. exists (lower content). split; [assumption |].
    symmetry. now apply sentinels_lowercase.
  - intros [s [Hs Heq]]. rewrite Heq.
    now rewrite (sentinels_lowercase s Hs).
Qed.

(** C2. The content filter answers [False] exactly for the empty text,
    a text shorter than [min_content_length], a text equal up to case to
    one of the four removal sentinels, and a text with fewer than three
    whitespace-separated tokens; it answers [True] on every other text. *)
Theorem is_valid_content_rejects_exactly :
  forall (cfg : PERSONA_CONFIG.t) (content : string),
    let rejected :=
      content = EmptyString
      \/ (len content < PERSONA_CONFIG.min_content_length cfg)%Z
      \/ (exists s, In s removal_sentinels /\ Spec.caseless_eq content s)
      \/ List.length (split content) < 3 in
    (_is_valid_content cfg content = false <-> rejected)
    /\ (_is_valid_content cfg content = true <-> ~ rejected).
Proof.
  intros cfg content rejected.
  assert (Hfalse : _is_valid_content cfg content = false <-> rejected).
  { subst rejected. unfold _is_valid_content.
    destruct (is_empty content) eqn:He.
    { apply is_empty_true in He. tauto. }
    assert (Hne : content <> EmptyString).
    { intros H. apply is_empty_true in H. congruence. }
    destruct (len content <? PERSONA_CONFIG.min_content_length cfg)%Z
      eqn:Hlen.
    { apply Z.ltb_lt in Hlen. tauto. }
    apply Z.ltb_ge in Hlen.
    destruct (str_in (lower content) removal_sentinels) eqn:Hs.
    { apply sentinel_match in Hs. tauto. }
    assert (Hns : ~ exists s,
               In s removal_sentinels /\ Spec.caseless_eq content s).
    { intros H. apply sentinel_match in H. congruence. }
    unfold PyList.len.
    destruct (Z.of_nat (List.length (split content)) <? 3)%Z eqn:Hw.
    { apply Z.ltb_lt in Hw. split; [intros _ | reflexivity].
      right; right; right. lia. }
    apply Z.ltb_ge in Hw. split; [discriminate |].
    intros [H | [H | [H | H]]]; try contradiction; lia. }
  split; [exact Hfalse |].
  rewrite <- Hfalse.
  destruct (_is_valid_content cfg content); split; congruence.
Qed.
End ContentFilter.

(* ================================================================== *)
(** ** Statistics of the empty corpus, and the absence of faults *)

Section StatisticsTotal.
Import PyExn DataProcessor.

Lemma truediv_nonzero (a b : Z) :
  b <> 0%Z -> truediv a b = Ok (inject_Z a / inject_Z b)%Q.
Proof.
  intros Hb. unfold truediv.
  destruct (b =? 0)%Z eqn:E; [apply Z.eqb_eq in E; contradiction |].
  reflexivity.
Qed.

Lemma guarded_mean_ok (scores : list Z) :
  exists q,
    (if PyList.nonempty scores
     then truediv (PyList.sum scores) (PyList.len scores)
     else Ok 0%Q) = Ok q.
Proof.
  destruct scores as [|x scores]; simpl.
  - now exists 0%Q.
  - eexists. apply truediv_nonzero. unfold PyList.len; simpl; lia.
Qed.

Lemma average_content_length_ok (items : list Item) :
  exists q, _calculate_average_content_length items = Ok q.
Proof.
  unfold _calculate_average_content_length.
  destruct (fold_left _ items (0%Z, 0%Z)) as [total_length count].
  destruct (count >? 0)%Z eqn:E.
  - eexists. apply truediv_nonzero.
    apply Z.gtb_lt in E. lia.
  - now exists 0%Q.
Qed.

Lemma generate_statistics_ok (posts : list Post.t)
      (comments : list Comment.t) :
  exists s, _generate_statistics posts comments = Ok s.
Proof.
  unfold _generate_statistics.
  destruct (guarded_mean_ok (map Post.score posts)) as [q1 ->].
  destruct (guarded_mean_ok (map Comment.score comments)) as [q2 ->].
  destruct (average_content_length_ok
              (map IPost posts ++ map IComment comments)) as [q3 ->].
  simpl. eexists. reflexivity.
Qed.

(** C5. On the empty corpus the statistics report no posts, no comments
    and the three means equal to [0]; and on every corpus the computation
    returns a summary, never a division fault. *)
Theorem empty_corpus_statistics_zero :
  (exists s,
      _generate_statistics [] [] = Ok s
      /\ Statistics.total_posts s = 0%Z
      /\ Statistics.total_comments s = 0%Z
      /\ Statistics.average_post_score s = 0%Q
      /\ Statistics.average_comment_score s = 0%Q
      /\ Statistics.content_length_avg s = 0%Q)
  /\ (forall posts comments,
         _generate_statistics posts comments <> Raise ZeroDivisionError)
  /\ (forall cfg user_data,
         process_user_data cfg user_data <> Raise ZeroDivisionError).
Proof.
  split; [| split].
  - eexists. split; [reflexivity |]. simpl. repeat split.
  - intros posts comments.
    destruct (generate_statistics_ok posts comments) as [s ->].
    discriminate.
  - intros cfg user_data. unfold process_user_data.
    destruct (generate_statistics_ok
                (_process_posts cfg
                   (get_or [] (RawUserData.posts user_data)))
                (_process_comments cfg
                   (get_or [] (RawUserData.comments user_data))))
      as [s ->].
    discriminate.
Qed.

(** C10. On the empty corpus [most_active_subreddit] is [None] and
    [top_subreddits] is the empty list. *)
Theorem empty_corpus_most_active_none :
  exists s,
    _generate_statistics [] [] = Ok s
    /\ Statistics.most_active_subreddit s = None
    /\ Statistics.top_subreddits s = [].
Proof.
  eexists. split; [reflexivity |]. simpl. split; reflexivity.
Qed.
End StatisticsTotal.

(* ================================================================== *)
(** ** The stable sort *)

Section StableSort.
Variables (A K : Type) (key : A -> K) (kleb : K -> K -> bool).
Hypothesis kleb_total : forall a b, kleb a b = false -> kleb b a = true.
Hypothesis kleb_trans :
  forall a b c, kleb a b = true -> kleb b c = true -> kleb a c = true.

Let ascending (a b : A) : Prop := kleb (key a) (key b) = true.
Let descending (a b : A) : Prop := kleb (key b) (key a) = true.

Let same_key := Spec.same_key key kleb.

Lemma insert_perm (x : A) (l : list A) :
  Permutation (PyList.insert key kleb x l) (x :: l).
Proof.
  induction l as [|y l IH]; simpl.
  - apply Permutation_refl.
  - destruct (kleb (key x) (key y)).
    + apply Permutation_refl.
    + eapply perm_trans; [apply perm_skip, IH | apply perm_swap].
Qed.

Lemma sort_stable_perm (l : list A) :
  Permutation (PyList.sort_stable key kleb l) l.
Proof.
  induction l as [|x l IH]; simpl.
  - apply perm_nil.
  - eapply perm_trans; [apply insert_perm | now apply perm_skip].
Qed.

Lemma insert_sorted (x : A) (l : list A) :
  StronglySorted ascending l ->
  StronglySorted ascending (PyList.insert key kleb x l).
Proof.
  induction 1 as [|y l Hl IH Hy]; simpl.
  - constructor; constructor.
  - destruct (kleb (key x) (key y)) eqn:E.
    + constructor; [constructor; assumption |].
      constructor; [exact E |].
      eapply Forall_impl; [| exact Hy].
      intros z Hz. unfold ascending in *. eapply kleb_trans; eassumption.
    + constructor; [exact IH |].
      eapply Permutation_Forall; [symmetry; apply insert_perm |].
      constructor; [apply kleb_total, E | exact Hy].
Qed.

Lemma sort_stable_sorted (l : list A) :
  StronglySorted ascending (PyList.sort_stable key kleb l).
Proof.
  induction l as [|x l IH]; simpl.
  - constructor.
  - now apply insert_sorted.
Qed.

Lemma insert_same_key (k : K) (x : A) (l : list A) :
  filter (same_key k) (PyList.insert key kleb x l)
  = filter (same_key k) (x :: l).
Proof.
  induction l as [|y l IH]; [reflexivity |].
  cbn [PyList.insert].
  destruct (kleb (key x) (key y)) eqn:E; [reflexivity |].
  cbn [filter] in *. rewrite IH.
  destruct (same_key k x) eqn:Hx, (same_key k y) eqn:Hy; try reflexivity.
  exfalso. unfold same_key, Spec.same_key in Hx, Hy.
  apply andb_true_iff in Hx as [Hx1 _], Hy as [_ Hy2].
  rewrite (kleb_trans _ _ _ Hx1 Hy2) in E. discriminate.
Qed.

Lemma sort_stable_same_key (k : K) (l : list A) :
  filter (same_key k) (PyList.sort_stable key kleb l)
  = filter (same_key k) l.
Proof.
  induction l as [|x l IH]; [reflexivity |].
  cbn [PyList.sort_stable fold_right].
  rewrite insert_same_key. cbn [filter].
  unfold PyList.sort_stable in IH. now rewrite IH.
Qed.

Lemma StronglySorted_snoc (R : A -> A -> Prop) (l : list A) (x : A) :
  StronglySorted R l -> Forall (fun y => R y x) l ->
  StronglySorted R (l ++ [x]).
Proof.
  induction 1 as [|y l Hl IH Hy]; intros Hx; simpl.
  - constructor; constructor.
  - inversion Hx; subst. constructor; [now apply IH |].
    apply Forall_app. split; [assumption | now constructor].
Qed.

Lemma StronglySorted_impl (R R' : A -> A -> Prop) (l : list A) :
  (forall a b, R a b -> R' a b) ->
  StronglySorted R l -> StronglySorted R' l.
Proof.
  intros HR; induction 1 as [|y l Hl IH Hy]; constructor; auto.
  eapply Forall_impl; [| exact Hy]. intros z; apply HR.
Qed.

Lemma StronglySorted_rev (l : list A) :
  StronglySorted ascending l -> StronglySorted descending (rev l).
Proof.
  induction 1 as [|y l Hl IH Hy]; simpl.
  - constructor.
  - apply StronglySorted_snoc; [exact IH |].
    apply Forall_rev. exact Hy.
Qed.

(** A reversed sort yields a permutation of the list, ... *)
Lemma sort_reverse_perm (l : list A) :
  Permutation (PyList.sort key kleb true l) l.
Proof.
  unfold PyList.sort.
  eapply perm_trans; [symmetry; apply Permutation_rev |].
  eapply perm_trans; [apply sort_stable_perm |].
  symmetry. apply Permutation_rev.
Qed.

(** ... in descending order of the keys, ... *)
Lemma sort_reverse_sorted (l : list A) :
  StronglySorted descending (PyList.sort key kleb true l).
Proof. apply StronglySorted_rev, sort_stable_sorted. Qed.

(** ... in which the elements of one key keep their order. *)
Lemma sort_reverse_stable (k : K) (l : list A) :
  filter (same_key k) (PyList.sort key kleb true l)
  = filter (same_key k) l.
Proof.
  unfold PyList.sort.
  rewrite filter_rev, sort_stable_same_key, filter_rev.
  apply rev_involutive.
Qed.
End StableSort.

(* ================================================================== *)
(** ** Aggregation: survivors, newest first *)

Section Aggregation.
Import DataProcessor.

Lemma Qle_bool_total (a b : Q) : Qle_bool a b = false -> Qle_bool b a = true.
Proof.
  intros H. apply Qle_bool_iff.
  destruct (Qlt_le_dec b a) as [Hlt | Hle].
  - now apply Qlt_le_weak.
  - apply Qle_bool_iff in Hle. congruence.
Qed.

Lemma Qle_bool_trans (a b c : Q) :
  Qle_bool a b = true -> Qle_bool b c = true -> Qle_bool a c = true.
Proof.
  rewrite !Qle_bool_iff. apply Qle_trans.
Qed.

Lemma same_key_created_at {A} (created : A -> Q) (t : Q) (a : A) :
  Spec.same_key created Qle_bool t a = Spec.created_at created t a.
Proof.
  unfold Spec.same_key, Spec.created_at.
  destruct (Qeq_bool (created a) t) eqn:E.
  - apply Qeq_bool_iff in E. apply andb_true_iff.
    split; apply Qle_bool_iff; rewrite E; apply Qle_refl.
  - apply andb_false_iff.
    destruct (Qle_bool (created a) t) eqn:E1; [| now left].
    destruct (Qle_bool t (created a)) eqn:E2; [| now right].
    apply Qle_bool_iff in E1, E2.
    assert (H : (created a == t)%Q) by now apply Qle_antisym.
    apply Qeq_bool_iff in H. congruence.
Qed.

Lemma newest_first_sort {A} (created : A -> Q) (l : list A) :
  let sorted := PyList.sort created Qle_bool true l in
  Permutation sorted l
  /\ StronglySorted (Spec.newest_first created) sorted
  /\ forall t,
       filter (Spec.created_at created t) sorted
       = filter (Spec.created_at created t) l.
Proof.
  intros sorted; subst sorted. repeat split.
  - apply sort_reverse_perm.
  - eapply StronglySorted_impl;
      [| apply (sort_reverse_sorted _ _ created Qle_bool
                  Qle_bool_total Qle_bool_trans)].
    intros a b H. unfold Spec.newest_first. now apply Qle_bool_iff.
  - intros t.
    rewrite <- (filter_ext _ _ (same_key_created_at created t)).
    rewrite <- (filter_ext _ _ (same_key_created_at created t)).
    apply sort_reverse_stable, Qle_bool_trans.
Qed.

Lemma processed_posts_loop (cfg : PERSONA_CONFIG.t)
      (posts : list RawPost.t) :
  _process_posts cfg posts
  = PyList.sort Post.created_utc Qle_bool true
                (Spec.surviving_posts cfg posts).
Proof.
  unfold _process_posts, Spec.surviving_posts. f_equal.
  rewrite <- (app_nil_l (flat_map _ posts)).
  rewrite <- fold_append_flat_map.
  apply fold_left_ext. intros acc x.
  destruct (_clean_post cfg x) as [p |]; [| now rewrite app_nil_r].
  destruct (_is_valid_content cfg (Post.content p));
    [reflexivity | now rewrite app_nil_r].
Qed.

Lemma processed_comments_loop (cfg : PERSONA_CONFIG.t)
      (comments : list RawComment.t) :
  _process_comments cfg comments
  = PyList.sort Comment.created_utc Qle_bool true
                (Spec.surviving_comments cfg comments).
Proof.
  unfold _process_comments, Spec.surviving_comments. f_equal.
  rewrite <- (app_nil_l (flat_map _ comments)).
  rewrite <- fold_append_flat_map.
  apply fold_left_ext. intros acc x.
  destruct (_clean_comment cfg x) as [c |]; [| now rewrite app_nil_r].
  destruct (_is_valid_content cfg (Comment.content c));
    [reflexivity | now rewrite app_nil_r].
Qed.

(** C4. Aggregation returns the surviving posts, and the surviving
    comments, ordered by [created_utc] descending, items created at the
    same time keeping the order they had in the input. *)
Theorem aggregation_newest_first_stable :
  forall (cfg : PERSONA_CONFIG.t)
         (raw_posts : list RawPost.t) (raw_comments : list RawComment.t),
    let posts := _process_posts cfg raw_posts in
    let comments := _process_comments cfg raw_comments in
    (Permutation posts (Spec.surviving_posts cfg raw_posts)
     /\ StronglySorted (Spec.newest_first Post.created_utc) posts
     /\ forall t,
          filter (Spec.created_at Post.created_utc t) posts
          = filter (Spec.created_at Post.created_utc t)
                   (Spec.surviving_posts cfg raw_posts))
    /\ (Permutation comments (Spec.surviving_comments cfg raw_comments)
        /\ StronglySorted (Spec.newest_first Comment.created_utc) comments
        /\ forall t,
             filter (Spec.created_at Comment.created_utc t) comments
             = filter (Spec.created_at Comment.created_utc t)
                      (Spec.surviving_comments cfg raw_comments)).
Proof.
  intros cfg raw_posts raw_comments posts comments.
  subst posts comments.
  rewrite processed_posts_loop, processed_comments_loop.
  split; apply newest_first_sort.
Qed.
End Aggregation.

(* ================================================================== *)
(** ** Subsequences *)

Section Subsequences.
Import Spec.
Context {A : Type}.
Implicit Types (s l : list A).

Lemma Subseq_nil_l l : Subseq [] l.
Proof. induction l; constructor; assumption. Qed.

Lemma Subseq_refl l : Subseq l l.
Proof. induction l; constructor; assumption. Qed.

Lemma Subseq_trans s l l' : Subseq s l -> Subseq l l' -> Subseq s l'.
Proof.
  intros Hs Hl; revert s Hs.
  induction Hl as [| x l l' Hl IH | x l l' Hl IH]; intros s Hs.
  - assumption.
  - constructor. now apply IH.
  - inversion Hs; subst.
    + apply Subseq_skip. now apply IH.
    + apply Subseq_take. now apply IH.
Qed.

Lemma Subseq_In s l : Subseq s l -> forall x, In x s -> In x l.
Proof.
  induction 1 as [| y s l _ IH | y s l _ IH]; intros x Hx; simpl in *.
  - assumption.
  - right. now apply IH.
  - destruct Hx as [-> | Hx]; [now left | right; now apply IH].
Qed.

Lemma Subseq_filter (f : A -> bool) l : Subseq (filter f l) l.
Proof.
  induction l as [|x l IH]; simpl; [constructor |].
  destruct (f x); constructor; assumption.
Qed.

Lemma Subseq_filter_intro (f : A -> bool) s l :
  Subseq s l -> Forall (fun x => f x = true) s -> Subseq s (filter f l).
Proof.
  induction 1 as [| y s l _ IH | y s l _ IH]; intros Hf; simpl.
  - constructor.
  - destruct (f y); [constructor |]; now apply IH.
  - inversion Hf as [| ? ? Hy Hs]; subst. rewrite Hy.
    apply Subseq_take. now apply IH.
Qed.

Lemma Subseq_firstn (n : nat) l : Subseq (firstn n l) l.
Proof.
  revert n; induction l as [|x l IH]; intros [|n]; simpl.
  - constructor.
  - constructor.
  - apply Subseq_nil_l.
  - apply Subseq_take. apply IH.
Qed.

Lemma Subseq_app_l s l l' : Subseq s l -> Subseq s (l ++ l').
Proof.
  induction 1 as [| y s l _ IH | y s l _ IH]; simpl.
  - apply Subseq_nil_l.
  - now apply Subseq_skip.
  - now apply Subseq_take.
Qed.

Lemma Subseq_singleton (a : A) l : In a l -> Subseq [a] l.
Proof.
  induction l as [|x l IH]; intros H; [contradiction |].
  destruct H as [-> | H].
  - apply Subseq_take, Subseq_nil_l.
  - apply Subseq_skip. now apply IH.
Qed.

Lemma Subseq_nth (i j : nat) (a b : A) l :
  i < j -> nth_error l i = Some a -> nth_error l j = Some b ->
  Subseq [a; b] l.
Proof.
  revert i j; induction l as [|x l IH]; intros i j Hij Hi Hj.
  - destruct i; discriminate.
  - destruct j as [|j]; [lia |]. simpl in Hj.
    destruct i as [|i]; simpl in Hi.
    + injection Hi as ->. apply Subseq_take.
      apply Subseq_singleton. eapply nth_error_In; eassumption.
    + apply Subseq_skip. apply (IH i j); [lia | assumption | assumption].
Qed.

Lemma Subseq_pair_snoc (a b t : A) l :
  Subseq [a; b] (l ++ [t]) -> Subseq [a; b] l \/ (In a l /\ b = t).
Proof.
  induction l as [|x l IH]; simpl; intros H.
  - inversion H as [| ? ? ? H' | ? ? ? H']; subst; inversion H'.
  - inversion H as [| ? ? ? H' | ? ? ? H']; subst.
    + destruct (IH H') as [Hs | [Hin ->]].
      * left. now apply Subseq_skip.
      * right. split; [now right | reflexivity].
    + assert (Hb : In b (l ++ [t])).
      { eapply Subseq_In; [exact H' | now left]. }
      apply in_app_or in Hb as [Hb | [-> | []]].
      * left. apply Subseq_take. now apply Subseq_singleton.
      * right. split; [now left | reflexivity].
Qed.
End Subsequences.

Lemma Subseq_map {A B} (f : A -> B) (s l : list A) :
  Spec.Subseq s l -> Spec.Subseq (map f s) (map f l).
Proof.
  induction 1; simpl; constructor; assumption.
Qed.

(* ================================================================== *)
(** ** The activity count *)

Section ActivityCount.
Import DataProcessor Spec.

Lemma first_index_In (t : string) (l : list string) :
  In t l -> exists i, first_index t l = Some i /\ i < List.length l.
Proof.
  induction l as [|x l IH]; intros H; [contradiction |]. simpl.
  destruct (String.eqb x t) eqn:E.
  - exists 0. split; [reflexivity | lia].
  - apply String.eqb_neq in E. destruct H as [H | H]; [contradiction |].
    destruct (IH H) as [i [-> Hi]]. exists (S i). split; [reflexivity | lia].
Qed.

Lemma first_index_Some_In (t : string) (l : list string) (i : nat) :
  first_index t l = Some i -> In t l.
Proof.
  revert i; induction l as [|x l IH]; intros i H; simpl in *.
  - discriminate.
  - destruct (String.eqb x t) eqn:E.
    + apply String.eqb_eq in E. now left.
    + right. destruct (first_index t l) as [k |]; [| discriminate].
      now apply (IH k).
Qed.

Lemma first_index_app_In (t : string) (l l' : list string) :
  In t l -> first_index t (l ++ l') = first_index t l.
Proof.
  induction l as [|x l IH]; intros H; [contradiction |]. simpl.
  destruct (String.eqb x t) eqn:E; [reflexivity |].
  apply String.eqb_neq in E. destruct H as [H | H]; [contradiction |].
  now rewrite IH.
Qed.

Lemma first_index_snoc_new (t : string) (l : list string) :
  ~ In t l -> first_index t (l ++ [t]) = Some (List.length l).
Proof.
  induction l as [|x l IH]; intros H; simpl.
  - now rewrite String.eqb_refl.
  - destruct (String.eqb x t) eqn:E.
    + apply String.eqb_eq in E. exfalso. apply H. now left.
    + rewrite IH; [reflexivity |]. intros Hin. apply H. now right.
Qed.

Lemma occurrences_app (t : string) (l l' : list string) :
  occurrences t (l ++ l') = (occurrences t l + occurrences t l')%Z.
Proof.
  induction l as [|x l IH]; simpl; [reflexivity |]. rewrite IH. lia.
Qed.

Lemma occurrences_not_In (t : string) (l : list string) :
  ~ In t l -> occurrences t l = 0%Z.
Proof.
  induction l as [|x l IH]; intros H; simpl; [reflexivity |].
  destruct (String.eqb x t) eqn:E.
  - apply String.eqb_eq in E. exfalso. apply H. now left.
  - rewrite IH; [reflexivity |]. intros Hin. apply H. now right.
Qed.

Lemma occurrences_snoc (t t' : string) (l : list string) :
  occurrences t' (l ++ [t])
  = (occurrences t' l + if String.eqb t t' then 1 else 0)%Z.
Proof.
  rewrite occurrences_app. simpl. lia.
Qed.

Lemma In_keys (t : string) (c : Z) (d : PyDict.t) :
  In (t, c) d -> In t (map fst d).
Proof. intros H. apply (in_map fst) in H. exact H. Qed.

Lemma keys_In (t : string) (d : PyDict.t) :
  In t (map fst d) -> exists c, In (t, c) d.
Proof.
  intros H. apply in_map_iff in H as [[k c] [Hk Hin]].
  simpl in Hk; subst. now exists c.
Qed.

Lemma get_In (t : string) (c default : Z) (d : PyDict.t) :
  NoDup (map fst d) -> In (t, c) d -> PyDict.get d t default = c.
Proof.
  induction d as [|[k v] d IH]; intros Hnd Hin; [contradiction |].
  simpl in *. inversion Hnd as [| ? ? Hk Hnd']; subst.
  destruct Hin as [Heq | Hin].
  - injection Heq as -> ->. now rewrite String.eqb_refl.
  - destruct (String.eqb k t) eqn:E.
    + apply String.eqb_eq in E; subst k.
      exfalso. apply Hk. eapply In_keys; eassumption.
    + now apply IH.
Qed.

Lemma get_new (t : string) (default : Z) (d : PyDict.t) :
  ~ In t (map fst d) -> PyDict.get d t default = default.
Proof.
  induction d as [|[k v] d IH]; intros H; simpl; [reflexivity |].
  destruct (String.eqb k t) eqn:E.
  - apply String.eqb_eq in E. exfalso. apply H. now left.
  - apply IH. intros Hin. apply H. now right.
Qed.

Lemma set_keys_old (t : string) (v : Z) (d : PyDict.t) :
  In t (map fst d) -> map fst (PyDict.set d t v) = map fst d.
Proof.
  induction d as [|[k v0] d IH]; intros H; [contradiction |]. simpl.
  destruct (String.eqb k t) eqn:E; [reflexivity |]. simpl.
  apply String.eqb_neq in E. destruct H as [H | H]; [contradiction |].
  now rewrite IH.
Qed.

Lemma set_keys_new (t : string) (v : Z) (d : PyDict.t) :
  ~ In t (map fst d) -> map fst (PyDict.set d t v) = map fst d ++ [t].
Proof.
  induction d as [|[k v0] d IH]; intros H; simpl; [reflexivity |].
  destruct (String.eqb k t) eqn:E.
  - apply String.eqb_eq in E. exfalso. apply H. now left.
  - simpl. rewrite IH; [reflexivity |]. intros Hin. apply H. now right.
Qed.

Lemma set_In (t t' : string) (v c : Z) (d : PyDict.t) :
  NoDup (map fst d) -> In (t', c) (PyDict.set d t v) ->
  (t' = t /\ c = v) \/ (t' <> t /\ In (t', c) d).
Proof.
  induction d as [|[k v0] d IH]; intros Hnd Hin; simpl in *.
  - destruct Hin as [Heq | []]. injection Heq as <- <-. now left.
  - inversion Hnd as [| ? ? Hk Hnd']; subst.
    destruct (String.eqb k t) eqn:E.
    + apply String.eqb_eq in E; subst k.
      destruct Hin as [Heq | Hin].
      * injection Heq as <- <-. now left.
      * right. split; [| now right].
        intros ->. apply Hk. eapply In_keys; eassumption.
    + apply String.eqb_neq in E.
      destruct Hin as [Heq | Hin].
      * injection Heq as <- <-. right. split; [assumption | now left].
      * destruct (IH Hnd' Hin) as [H | [Hne H]]; [now left |].
        right. split; [assumption | now right].
Qed.

(** What holds of the count [d] once the tags [seen] are counted. *)
Let counted (seen : list string) (d : PyDict.t) : Prop :=
  NoDup (map fst d)
  /\ (forall t, In t (map fst d) <-> In t seen)
  /\ (forall t c, In (t, c) d -> c = occurrences t seen)
  /\ (forall a b, Subseq [a; b] (map fst d) -> first_met_before seen a b).

Lemma counted_nil : counted [] [].
Proof.
  unfold counted; simpl. repeat split; try tauto.
  - constructor.
  - intros a b H. inversion H.
Qed.

Lemma first_met_before_app (seen : list string) (t a b : string) :
  first_met_before seen a b -> first_met_before (seen ++ [t]) a b.
Proof.
  intros [i [j [Hi [Hj Hij]]]]. exists i, j.
  assert (Ha : In a seen) by (eapply first_index_Some_In; eassumption).
  assert (Hb : In b seen) by (eapply first_index_Some_In; eassumption).
  rewrite !first_index_app_In by assumption. auto.
Qed.

Lemma counted_step (seen : list string) (d : PyDict.t) (t : string) :
  counted seen d -> counted (seen ++ [t]) (count_activity d t).
Proof.
  intros (Hnd & Hkeys & Hcount & Horder). unfold count_activity.
  destruct (in_dec string_dec t (map fst d)) as [Hin | Hnin].
  - (* a tag met before: its count grows, the keys stay *)
    repeat split.
    + now rewrite set_keys_old.
    + rewrite set_keys_old by assumption. intros H.
      apply in_or_app. left. now apply Hkeys.
    + rewrite set_keys_old by assumption. intros H.
      apply in_app_or in H as [H | [<- | []]]; [now apply Hkeys | assumption].
    + intros t' c H. rewrite occurrences_snoc.
      apply set_In in H as [[-> ->] | [Hne H]]; [| | assumption].
      * rewrite String.eqb_refl.
        destruct (keys_In _ _ Hin) as [c0 Hc0].
        rewrite (get_In _ _ _ _ Hnd Hc0). now rewrite (Hcount _ _ Hc0).
      * assert (E : String.eqb t t' = false)
          by (apply String.eqb_neq; congruence).
        rewrite E, Z.add_0_r. now apply Hcount.
    + rewrite set_keys_old by assumption. intros a b H.
      now apply first_met_before_app, Horder.
  - (* a new tag: it enters last, with count one *)
    assert (Hseen : ~ In t seen) by (intros H; apply Hnin, Hkeys, H).
    repeat split.
    + rewrite set_keys_new by assumption.
      apply NoDup_rev in Hnd. rewrite <- (rev_involutive (_ ++ [t])).
      apply NoDup_rev. rewrite rev_app_distr. simpl.
      constructor; [| assumption]. now rewrite <- in_rev.
    + rewrite set_keys_new by assumption. intros H.
      apply in_app_or in H as [H | H]; apply in_or_app;
        [left; now apply Hkeys | now right].
    + rewrite set_keys_new by assumption. intros H.
      apply in_app_or in H as [H | H]; apply in_or_app;
        [left; now apply Hkeys | now right].
    + intros t' c H. rewrite occurrences_snoc.
      apply set_In in H as [[-> ->] | [Hne H]]; [| | assumption].
      * rewrite String.eqb_refl, (get_new _ _ _ Hnin).
        now rewrite (occurrences_not_In _ _ Hseen).
      * assert (E : String.eqb t t' = false)
          by (apply String.eqb_neq; congruence).
        rewrite E, Z.add_0_r. now apply Hcount.
    + rewrite set_keys_new by assumption. intros a b H.
      apply Subseq_pair_snoc in H as [H | [Ha ->]].
      * now apply first_met_before_app, Horder.
      * apply Hkeys in Ha.
        destruct (first_index_In _ _ Ha) as [i [Hi Hlt]].
        exists i, (List.length seen). repeat split.
        -- now rewrite first_index_app_In.
        -- now apply first_index_snoc_new.
        -- assumption.
Qed.

Lemma counted_fold (l seen : list string) (d : PyDict.t) :
  counted seen d -> counted (seen ++ l) (fold_left count_activity l d).
Proof.
  revert seen d; induction l as [|t l IH]; intros seen d H; simpl.
  - now rewrite app_nil_r.
  - replace (seen ++ t :: l) with ((seen ++ [t]) ++ l)
      by now rewrite <- app_assoc.
    apply IH. now apply counted_step.
Qed.

Lemma activity_counted (l : list string) :
  NoDup (map fst (activity l))
  /\ (forall t, In t (map fst (activity l)) <-> In t l)
  /\ (forall t c, In (t, c) (activity l) -> c = occurrences t l)
  /\ (forall a b,
         Subseq [a; b] (map fst (activity l)) -> first_met_before l a b).
Proof.
  apply (counted_fold l [] []), counted_nil.
Qed.
End ActivityCount.

(* ================================================================== *)
(** ** The most active tags *)

Section TopSubreddits.
Import PyExn DataProcessor Spec.

Lemma Zleb_total (a b : Z) : (a <=? b)%Z = false -> (b <=? a)%Z = true.
Proof. rewrite Z.leb_gt, Z.leb_le. lia. Qed.

Lemma Zleb_trans (a b c : Z) :
  (a <=? b)%Z = true -> (b <=? c)%Z = true -> (a <=? c)%Z = true.
Proof. rewrite !Z.leb_le. lia. Qed.

Lemma fold_left_map_arg {X Y S} (f : S -> Y -> S) (g : X -> Y)
      (l : list X) (init : S) :
  fold_left (fun acc x => f acc (g x)) l init = fold_left f (map g l) init.
Proof.
  revert init; induction l as [|x l IH]; intros init; simpl; auto.
Qed.

Lemma StronglySorted_Subseq {X} (R : X -> X -> Prop) (s l : list X) :
  Subseq s l -> StronglySorted R l -> StronglySorted R s.
Proof.
  induction 1 as [| y s l Hs IH | y s l Hs IH]; intros Hl.
  - constructor.
  - inversion Hl; subst. now apply IH.
  - inversion Hl as [| ? ? Hl' Hy]; subst.
    constructor; [now apply IH |].
    rewrite Forall_forall in *. intros z Hz.
    apply Hy. eapply Subseq_In; eassumption.
Qed.

Lemma NoDup_Subseq {X} (s l : list X) :
  Subseq s l -> NoDup l -> NoDup s.
Proof.
  induction 1 as [| y s l Hs IH | y s l Hs IH]; intros Hl.
  - constructor.
  - inversion Hl; subst. now apply IH.
  - inversion Hl as [| ? ? Hy Hl']; subst.
    constructor; [| now apply IH].
    intros Hin. apply Hy. eapply Subseq_In; eassumption.
Qed.

Lemma StronglySorted_app_inv {X} (R : X -> X -> Prop) (l1 l2 : list X) :
  StronglySorted R (l1 ++ l2) ->
  forall a b, In a l1 -> In b l2 -> R a b.
Proof.
  induction l1 as [|x l1 IH]; simpl; intros H a b Ha Hb; [contradiction |].
  inversion H as [| ? ? H' Hx]; subst.
  destruct Ha as [-> | Ha].
  - rewrite Forall_forall in Hx. apply Hx, in_or_app. now right.
  - now apply IH.
Qed.

(** The ranking the statistics hold: the activity count, sorted by count
    descending, cut to ten entries. *)
Lemma generate_statistics_top (posts : list Post.t)
      (comments : list Comment.t) :
  exists s,
    _generate_statistics posts comments = Ok s
    /\ Statistics.top_subreddits s
       = firstn 10 (PyList.sort snd Z.leb true
                                (activity (tags posts comments)))
    /\ Statistics.most_active_subreddit s
       = option_map fst (hd_error (Statistics.top_subreddits s)).
Proof.
  unfold _generate_statistics.
  destruct (guarded_mean_ok (map Post.score posts)) as [q1 ->].
  destruct (guarded_mean_ok (map Comment.score comments)) as [q2 ->].
  destruct (average_content_length_ok
              (map IPost posts ++ map IComment comments)) as [q3 ->].
  cbn [bind]. eexists. split; [reflexivity |].
  cbn [Statistics.top_subreddits Statistics.most_active_subreddit].
  split.
  - unfold activity, tags, PyDict.items.
    rewrite fold_left_app, <- 2 fold_left_map_arg. reflexivity.
  - destruct (firstn 10 _) as [|[tag count] rest]; reflexivity.
Qed.

(** C9. [top_subreddits] holds at most ten (tag, count) pairs, by count
    descending; each count is the number of surviving posts and comments
    with that tag; of two tags with equal counts, the one met first while
    counting (posts before comments) stands first; a tag left out has a
    count no greater than any count listed; and [most_active_subreddit] is
    the first tag of the list, which is empty only for the empty corpus. *)
Theorem top_subreddits_ranked :
  forall (posts : list Post.t) (comments : list Comment.t),
  exists s,
    _generate_statistics posts comments = Ok s
    /\ let top := Statistics.top_subreddits s in
       let met := tags posts comments in
       List.length top <= 10
       /\ StronglySorted most_active_first top
       /\ NoDup (map fst top)
       /\ Forall (fun entry =>
                    In (fst entry) met
                    /\ snd entry = occurrences (fst entry) met) top
       /\ (forall i j tag tag' count,
              i < j ->
              nth_error top i = Some (tag, count) ->
              nth_error top j = Some (tag', count) ->
              first_met_before met tag tag')
       /\ (forall tag,
              In tag met ->
              In tag (map fst top)
              \/ (List.length top = 10
                  /\ Forall (fun entry =>
                               (occurrences tag met <= snd entry)%Z) top))
       /\ Statistics.most_active_subreddit s = option_map fst (hd_error top)
       /\ (top = [] <-> posts = [] /\ comments = []).
Proof.
  intros posts comments.
  destruct (generate_statistics_top posts comments) as [s [Hs [Htop Hmost]]].
  exists s. split; [exact Hs |]. cbn zeta. rewrite Hmost, Htop.
  set (met := tags posts comments).
  set (counts := activity met).
  set (ranked := PyList.sort snd Z.leb true counts).
  destruct (activity_counted met) as (Hnd & Hkeys & Hcount & Horder).
  fold counts in Hnd, Hkeys, Hcount, Horder.
  assert (Hperm : Permutation ranked counts) by apply sort_reverse_perm.
  assert (Hsorted : StronglySorted most_active_first ranked).
  { eapply StronglySorted_impl;
      [| apply (sort_reverse_sorted _ _ snd Z.leb Zleb_total Zleb_trans)].
    intros a b H. unfold most_active_first. now apply Z.leb_le. }
  assert (Hsub : Subseq (firstn 10 ranked) ranked) by apply Subseq_firstn.
  split; [| split; [| split; [| split; [| split; [| split;
    [| split; [reflexivity | split]]]]]]].
  - apply firstn_le_length.
  - eapply StronglySorted_Subseq; eassumption.
  - eapply NoDup_Subseq; [apply Subseq_map, Hsub |].
    eapply Permutation_NoDup; [| exact Hnd].
    symmetry. now apply Permutation_map.
  - rewrite Forall_forall. intros [tag count] Hin. simpl.
    assert (Hc : In (tag, count) counts).
    { eapply Permutation_in; [exact Hperm |].
      eapply Subseq_In; eassumption. }
    split; [eapply Hkeys, In_keys; eassumption | now apply Hcount].
  - intros i j tag tag' count Hij Hi Hj.
    apply Horder.
    apply (Subseq_map fst [(tag, count); (tag', count)]).
    eapply Subseq_trans; [| apply (Subseq_filter
                                    (same_key snd Z.leb count))].
    rewrite <- (sort_reverse_stable _ _ snd Z.leb Zleb_trans count counts).
    apply Subseq_filter_intro.
    + eapply Subseq_trans; [| exact Hsub].
      eapply Subseq_nth; eassumption.
    + assert (Hc : same_key snd Z.leb count (tag, count) = true
                   /\ same_key snd Z.leb count (tag', count) = true).
      { unfold same_key; simpl. rewrite Z.leb_refl. now split. }
      destruct Hc. repeat constructor; assumption.
  - intros tag Hin.
    apply Hkeys, keys_In in Hin as [count Hin].
    assert (Hr : In (tag, count) ranked).
    { eapply Permutation_in; [symmetry; exact Hperm | exact Hin]. }
    rewrite <- (firstn_skipn 10 ranked) in Hr, Hsorted.
    apply in_app_or in Hr as [Hr | Hr].
    + left. apply (in_map fst) in Hr. exact Hr.
    + right. split.
      * rewrite length_firstn. apply Nat.min_l.
        destruct (le_lt_dec 10 (List.length ranked)) as [H | H];
          [assumption |].
        rewrite skipn_all2 in Hr by lia. contradiction.
      * rewrite Forall_forall. intros entry Hentry.
        rewrite <- (Hcount _ _ Hin).
        apply (StronglySorted_app_inv _ _ _ Hsorted entry (tag, count));
          assumption.
  - intros Hempty.
    assert (Hr : ranked = []).
    { destruct ranked; [reflexivity | discriminate]. }
    rewrite Hr in Hperm. apply Permutation_nil in Hperm.
    assert (Hmet : met = []).
    { destruct met as [|t met'] eqn:E; [reflexivity |].
      assert (H : In t (map fst counts)) by (apply Hkeys; now left).
      rewrite Hperm in H. contradiction. }
    unfold met, tags in Hmet. apply app_eq_nil in Hmet as [Hp Hc].
    apply map_eq_nil in Hp, Hc. now split.
  - intros [-> ->]. reflexivity.
Qed.
End TopSubreddits.

(* ================================================================== *)
(** ** Occurrences of one text in another *)

Section Occurrences.
Import PyStr Spec.
Local Open Scope string_scope.

Lemma append_assoc (a b c : string) : (a ++ b) ++ c = a ++ b ++ c.
Proof. induction a as [|x a IH]; simpl; [reflexivity | now rewrite IH]. Qed.

Lemma append_nil_r (a : string) : a ++ EmptyString = a.
Proof. induction a as [|x a IH]; simpl; [reflexivity | now rewrite IH]. Qed.

Lemma occurs_in_refl (p : string) : occurs_in p p.
Proof. exists EmptyString, EmptyString. simpl. now rewrite append_nil_r. Qed.

Lemma occurs_in_prefix (p t : string) : occurs_in p (p ++ t).
Proof. exists EmptyString, t. reflexivity. Qed.

Lemma occurs_in_app_r (p x t : string) :
  occurs_in p t -> occurs_in p (x ++ t).
Proof.
  intros [before [after ->]]. exists (x ++ before), after.
  now rewrite append_assoc.
Qed.

Lemma occurs_in_app_l (p t x : string) :
  occurs_in p t -> occurs_in p (t ++ x).
Proof.
  intros [before [after ->]]. exists before, (after ++ x).
  now rewrite !append_assoc.
Qed.

Lemma occurs_in_trans (a b c : string) :
  occurs_in a b -> occurs_in b c -> occurs_in a c.
Proof.
  intros [b1 [b2 ->]] Hc.
  destruct Hc as [c1 [c2 ->]].
  exists (c1 ++ b1), (b2 ++ c2). now rewrite !append_assoc.
Qed.

Lemma strip_prefix_app (p t : string) : strip_prefix p (p ++ t) = Some t.
Proof.
  induction p as [|x p IH]; simpl; [reflexivity |].
  now rewrite Ascii.eqb_refl.
Qed.

Lemma contains_unfold (p s : string) :
  contains p s
  = startswith p s
    || match s with EmptyString => false | String _ s' => contains p s' end.
Proof. destruct s; reflexivity. Qed.

Lemma occurs_in_contains (p t : string) :
  occurs_in p t -> contains p t = true.
Proof.
  intros [before [after ->]].
  induction before as [|x before IH].
  - cbn [append]. rewrite contains_unfold.
    unfold startswith. now rewrite strip_prefix_app.
  - cbn [append contains]. rewrite IH. apply orb_true_r.
Qed.
End Occurrences.

(** Finds [part] inside a text written as a chain of appends. *)
Ltac find_part :=
  first
    [ apply occurs_in_refl
    | apply occurs_in_prefix
    | apply occurs_in_app_r; find_part
    | apply occurs_in_app_l; find_part ].

(* ================================================================== *)
(** ** Persona assembly *)

Section PersonaAssembly.
Import PyStr PersonaGenerator Spec.
Local Open Scope string_scope.

Variable cfg : PERSONA_CONFIG.t.
Variable openai_cfg : OPENAI_CONFIG.t.
Variable prompts : PERSONA_PROMPTS.t.
Variable include_citations : bool.
Variable world : World.t.

Let grounded (analysis : string) (user_data : UserData.t)
  : list Citation.t :=
  if include_citations then _extract_citations analysis user_data else [].

Lemma analyze_completion (role prompt label fallback text : string)
      (user_data : UserData.t) (trace : list Event) :
  World.backend world (request openai_cfg role prompt) = Completion text ->
  analyze openai_cfg include_citations world role prompt label fallback
          user_data trace
  = ({| analysis := text; citations := grounded text user_data |},
     trace ++ [BackendCall (request openai_cfg role prompt)])%list.
Proof.
  intros H. unfold analyze, chat, bind, emit, ret. now rewrite H.
Qed.

Lemma analyze_failure (role prompt label fallback e : string)
      (user_data : UserData.t) (trace : list Event) :
  World.backend world (request openai_cfg role prompt) = Failure e ->
  analyze openai_cfg include_citations world role prompt label fallback
          user_data trace
  = ({| analysis := fallback; citations := [] |},
     (trace ++ [BackendCall (request openai_cfg role prompt)])
       ++ [LogError ("Error in " ++ label ++ " analysis: " ++ e)])%list.
Proof.
  intros H. unfold analyze, chat, bind, emit, ret. now rewrite H.
Qed.

Lemma section_block_banner (heading body : string) :
  occurs_in (banner heading) (section_block heading body).
Proof. unfold section_block. apply occurs_in_prefix. Qed.

(** Whatever the sections hold, the rendered document has every part. *)
Lemma format_persona_sections (sections : Sections)
      (user_data : UserData.t) :
  forall f,
    occurs_in (section_block (facet_heading f)
                             (analysis (facet_of sections f)))
              (_format_persona include_citations world sections user_data).
Proof.
  intros f. unfold _format_persona.
  destruct include_citations, f; cbn [facet_heading facet_of]; find_part.
Qed.

Lemma format_persona_complete (sections : Sections)
      (user_data : UserData.t) :
  complete_document
    (_format_persona include_citations world sections user_data).
Proof.
  unfold complete_document. repeat split.
  - unfold _format_persona, document_header, banner, unlines.
    cbn [map String.concat].
    destruct include_citations; find_part.
  - unfold _format_persona, basic_info_block.
    destruct include_citations; find_part.
  - intros f. eapply occurs_in_trans;
      [apply section_block_banner | apply format_persona_sections].
  - unfold _format_persona, disclaimer_block.
    destruct include_citations; find_part.
Qed.
End PersonaAssembly.

(* ================================================================== *)
(** ** Persona generation *)

Section PersonaGeneration.
Import PyStr PersonaGenerator Spec.
Local Open Scope string_scope.

Lemma no_evidence_of_empty_corpus (cfg : PERSONA_CONFIG.t)
      (user_data : UserData.t) :
  UserData.posts user_data = [] -> UserData.comments user_data = [] ->
  _extract_content_for_analysis cfg user_data = EmptyString.
Proof.
  intros Hp Hc. unfold _extract_content_for_analysis.
  now rewrite Hp, Hc.
Qed.

(** Without evidence text the generator stops before any backend call. *)
Lemma generate_persona_no_content (cfg : PERSONA_CONFIG.t)
      (openai_cfg : OPENAI_CONFIG.t) (prompts : PERSONA_PROMPTS.t)
      (include_citations : bool) (world : World.t)
      (user_data : UserData.t) :
  _extract_content_for_analysis cfg user_data = EmptyString ->
  run (generate_persona cfg openai_cfg prompts include_citations world
                        user_data)
  = (no_content_message,
     [LogInfo "Starting persona generation...";
      LogError "No content available for analysis"]).
Proof.
  intros H. unfold run, generate_persona.
  cbv beta iota zeta delta [bind emit ret]. rewrite H. reflexivity.
Qed.

Lemma no_content_message_incomplete : ~ complete_document no_content_message.
Proof.
  intros [H _]. apply occurs_in_contains in H. discriminate H.
Qed.

(** C1, as amended. When no post and no comment survived, the generator
    logs an error, sends nothing to the backend and returns the fixed
    message in place of a persona document. *)
Theorem empty_corpus_returns_message :
  forall (cfg : PERSONA_CONFIG.t) (openai_cfg : OPENAI_CONFIG.t)
         (prompts : PERSONA_PROMPTS.t) (include_citations : bool)
         (world : World.t) (user_data : UserData.t),
    UserData.posts user_data = [] ->
    UserData.comments user_data = [] ->
    let out :=
      run (generate_persona cfg openai_cfg prompts include_citations world
                            user_data) in
    fst out = "Unable to generate persona: No content available"
    /\ snd out = [LogInfo "Starting persona generation...";
                  LogError "No content available for analysis"]
    /\ calls_backend (snd out) = false
    /\ ~ complete_document (fst out).
Proof.
  intros cfg openai_cfg prompts include_citations world user_data Hp Hc out.
  subst out.
  rewrite generate_persona_no_content
    by now apply no_evidence_of_empty_corpus.
  cbn [fst snd]. repeat split.
  apply no_content_message_incomplete.
Qed.

Lemma empty_corpus_returns_message_witness :
  UserData.posts Sample.silent_user = []
  /\ UserData.comments Sample.silent_user = []
  /\ fst (run (generate_persona Sample.cfg Sample.openai_cfg Sample.prompts
                                true Sample.answering Sample.silent_user))
     = "Unable to generate persona: No content available".
Proof.
  split; [reflexivity | split; [reflexivity |]].
  apply (empty_corpus_returns_message
           Sample.cfg Sample.openai_cfg Sample.prompts true Sample.answering
           Sample.silent_user); reflexivity.
Defined.

(** C1, as stated, fails: for a user without surviving posts and comments
    the backend is not called and the text returned is not a persona
    document. *)
Lemma empty_corpus_yields_no_document :
  let out :=
    run (generate_persona Sample.cfg Sample.openai_cfg Sample.prompts
                          true Sample.answering Sample.silent_user) in
  UserData.posts Sample.silent_user = []
  /\ UserData.comments Sample.silent_user = []
  /\ calls_backend (snd out) = false
  /\ ~ complete_document (fst out).
Proof.
  cbv zeta. rewrite generate_persona_no_content by reflexivity.
  repeat split. apply no_content_message_incomplete.
Qed.

(** With evidence text at hand, the six analyses run in document order and
    the document is rendered from their results. *)
Lemma generate_persona_sections (cfg : PERSONA_CONFIG.t)
      (openai_cfg : OPENAI_CONFIG.t) (prompts : PERSONA_PROMPTS.t)
      (include_citations : bool) (world : World.t)
      (user_data : UserData.t)
      (results : facet -> Facet) (traces : facet -> list Event) :
  let content := _extract_content_for_analysis cfg user_data in
  content <> EmptyString ->
  (forall trace,
      _analyze_demographics openai_cfg prompts include_citations world
                            content user_data trace
      = (results Demographics, (trace ++ traces Demographics)%list)) ->
  (forall trace,
      _analyze_personality openai_cfg prompts include_citations world
                           content user_data trace
      = (results Personality, (trace ++ traces Personality)%list)) ->
  (forall trace,
      _analyze_interests openai_cfg prompts include_citations world
                         content user_data trace
      = (results Interests, (trace ++ traces Interests)%list)) ->
  (forall trace,
      _analyze_behaviors openai_cfg prompts include_citations world
                         content user_data trace
      = (results Behaviors, (trace ++ traces Behaviors)%list)) ->
  (forall trace,
      _analyze_motivations openai_cfg prompts include_citations world
                           content user_data trace
      = (results Motivations, (trace ++ traces Motivations)%list)) ->
  (forall trace,
      _analyze_frustrations openai_cfg include_citations world
                            content user_data trace
      = (results Frustrations, (trace ++ traces Frustrations)%list)) ->
  fst (run (generate_persona cfg openai_cfg prompts include_citations world
                             user_data))
  = _format_persona include_citations world
      {| basic_info := _generate_basic_info world user_data;
         demographics := results Demographics;
         personality := results Personality;
         interests := results Interests;
         behaviors := results Behaviors;
         motivations := results Motivations;
         frustrations := results Frustrations |}
      user_data.
Proof.
  intros content Hne Hd Hp Hi Hb Hm Hf.
  assert (Hempty : is_empty content = false).
  { destruct content; [congruence | reflexivity]. }
  unfold run, generate_persona.
  cbv beta iota zeta delta [bind emit ret].
  fold content. rewrite Hempty.
  rewrite Hd, Hp, Hi, Hb, Hm, Hf. reflexivity.
Qed.

End PersonaGeneration.

(* ================================================================== *)
(** ** Text normalisation *)

Section TextNormalisation.
Import PyStr DataProcessor Spec.
Local Open Scope string_scope.

Lemma strip_prefix_Some (p s r : string) :
  strip_prefix p s = Some r -> s = p ++ r.
Proof.
  revert s; induction p as [|a p IH]; intros s H; simpl in *.
  - now injection H as ->.
  - destruct s as [|b s]; [discriminate |].
    destruct (Ascii.eqb a b) eqn:E; [| discriminate].
    apply Ascii.eqb_eq in E; subst b. f_equal. now apply IH.
Qed.

Lemma all_chars_app (f : ascii -> bool) (a b : string) :
  all_chars f (a ++ b) = all_chars f a && all_chars f b.
Proof.
  induction a as [|c a IH]; simpl; [reflexivity |].
  now rewrite IH, andb_assoc.
Qed.

(** A text that starts with a marker holding a markup character is not
    markup free. *)
Lemma marked_prefix (p s r : string) :
  markup_free p = false -> strip_prefix p s = Some r ->
  markup_free s = false.
Proof.
  intros Hp H. apply strip_prefix_Some in H; subst s.
  unfold markup_free in *. now rewrite all_chars_app, Hp.
Qed.

Lemma markup_free_tail (c : ascii) (s : string) :
  markup_free (String c s) = true -> markup_free s = true.
Proof.
  unfold markup_free; simpl. intros H.
  now apply andb_true_iff in H as [_ H].
Qed.

(** A pattern that never matches on markup-free text. *)
Let quiet (m : Re.matcher) : Prop :=
  forall s, markup_free s = true -> m s = None.

Lemma sub_quiet (m : Re.matcher) (s : string) :
  quiet m -> markup_free s = true -> Re.sub m s = s.
Proof.
  intros Hm. unfold Re.sub. induction s as [|c s IH]; intros Hs.
  - reflexivity.
  - cbn [Re.sub_from]. rewrite (Hm _ Hs).
    f_equal. apply IH. eapply markup_free_tail; eassumption.
Qed.

Lemma url_quiet : quiet Re.url.
Proof.
  intros s Hs. unfold Re.url.
  destruct (strip_prefix "http" s) as [r |] eqn:Hr; [| reflexivity].
  apply strip_prefix_Some in Hr; subst s.
  assert (Hscheme : forall r', markup_free r' = true ->
                               strip_prefix "://" r' = None).
  { intros r' Hr'. destruct (strip_prefix "://" r') as [body |] eqn:E;
      [| reflexivity].
    rewrite (marked_prefix "://" r' body) in Hr'; [discriminate | | exact E].
    reflexivity. }
  assert (Hfree : markup_free r = true).
  { unfold markup_free in *. rewrite all_chars_app in Hs.
    now apply andb_true_iff in Hs as [_ Hs]. }
  destruct (strip_prefix "s" r) as [r' |] eqn:Hr'.
  - apply strip_prefix_Some in Hr'; subst r.
    assert (Hfree' : markup_free r' = true).
    { unfold markup_free in *. rewrite all_chars_app in Hfree.
      now apply andb_true_iff in Hfree as [_ Hfree]. }
    rewrite (Hscheme r' Hfree'), (Hscheme _ Hfree). reflexivity.
  - now rewrite (Hscheme r Hfree).
Qed.

Lemma mention_quiet (sigil : string) :
  markup_free sigil = false -> quiet (Re.mention sigil).
Proof.
  intros Hsigil s Hs. unfold Re.mention.
  destruct (strip_prefix sigil s) as [body |] eqn:E; [| reflexivity].
  rewrite (marked_prefix sigil s body Hsigil E) in Hs. discriminate.
Qed.

Lemma wrapped_quiet (d : string) :
  markup_free d = false -> quiet (Re.wrapped d).
Proof.
  intros Hd s Hs. unfold Re.wrapped.
  destruct (strip_prefix d s) as [r |] eqn:E; [| reflexivity].
  rewrite (marked_prefix d s r Hd E) in Hs. discriminate.
Qed.

Lemma literal_quiet (pat repl : string) :
  markup_free pat = false -> quiet (Re.literal pat repl).
Proof.
  intros Hpat s Hs. unfold Re.literal, startswith.
  destruct (strip_prefix pat s) as [r |] eqn:E; [| reflexivity].
  rewrite (marked_prefix pat s r Hpat E) in Hs. discriminate.
Qed.

(** On markup-free text only the whitespace normalisation acts. *)
Lemma clean_text_markup_free (s : string) :
  markup_free s = true ->
  _clean_text s = strip (join " " (split s)).
Proof.
  intros Hs. unfold _clean_text.
  destruct s as [|c s]; [reflexivity |]. cbn [is_empty].
  rewrite (sub_quiet _ _ url_quiet Hs).
  rewrite (sub_quiet _ _ (mention_quiet "/u/" eq_refl) Hs).
  rewrite (sub_quiet _ _ (mention_quiet "/r/" eq_refl) Hs).
  rewrite (sub_quiet _ _ (wrapped_quiet "**" eq_refl) Hs).
  rewrite (sub_quiet _ _ (wrapped_quiet "*" eq_refl) Hs).
  rewrite (sub_quiet _ _ (wrapped_quiet "~~" eq_refl) Hs).
  rewrite (sub_quiet _ _ (literal_quiet "&gt;" ">" eq_refl) Hs).
  rewrite (sub_quiet _ _ (literal_quiet "&lt;" "<" eq_refl) Hs).
  rewrite (sub_quiet _ _ (literal_quiet "&amp;" "&" eq_refl) Hs).
  reflexivity.
Qed.

Lemma starts_word_word (w r : string) :
  word w -> starts_word (w ++ r) = true.
Proof.
  intros [Hne Hw]. destruct w as [|c w]; [congruence |].
  simpl in *. now apply andb_true_iff in Hw as [Hc _].
Qed.

Lemma split_word_app (w r : string) :
  word w -> starts_word r = false -> split (w ++ r) = w :: split r.
Proof.
  intros [Hne Hw] Hr. induction w as [|c w IH]; [congruence |].
  simpl in Hw. apply andb_true_iff in Hw as [Hc Hw].
  apply negb_true_iff in Hc.
  cbn [append split]. rewrite Hc.
  destruct w as [|c' w].
  - cbn [append]. now rewrite Hr.
  - rewrite (starts_word_word (String c' w) r);
      [| split; [discriminate | exact Hw]].
    rewrite IH; [reflexivity | discriminate | exact Hw].
Qed.

Lemma split_words (s : string) : Forall word (split s).
Proof.
  induction s as [|c s IH]; cbn [split]; [constructor |].
  destruct (isspace c) eqn:Hc; [exact IH |].
  assert (Hone : word (String c EmptyString)).
  { split; [discriminate |]. simpl. now rewrite Hc. }
  destruct (starts_word s).
  - destruct (split s) as [|w ws]; [now constructor |].
    inversion IH as [| ? ? [Hne Hw] Hws]; subst.
    constructor; [| exact Hws].
    split; [discriminate |]. simpl. now rewrite Hc, Hw.
  - now constructor.
Qed.

Lemma join_cons (w w' : string) (ws : list string) :
  join " " (w :: w' :: ws) = w ++ " " ++ join " " (w' :: ws).
Proof. reflexivity. Qed.

Lemma split_join (ws : list string) :
  Forall word ws -> split (join " " ws) = ws.
Proof.
  induction 1 as [|w ws Hw Hws IH]; [reflexivity |].
  destruct ws as [|w' ws].
  - unfold join; simpl. rewrite <- (append_nil_r w) at 1.
    now rewrite split_word_app.
  - rewrite join_cons, split_word_app by (assumption || reflexivity).
    cbn [append split isspace]. f_equal. exact IH.
Qed.

Lemma rstrip_nospace (w : string) :
  all_chars (fun c => negb (isspace c)) w = true -> rstrip w = w.
Proof.
  induction w as [|c w IH]; intros H; [reflexivity |].
  simpl in H. apply andb_true_iff in H as [Hc Hw].
  apply negb_true_iff in Hc.
  cbn [rstrip]. rewrite (IH Hw), Hc, andb_false_r. reflexivity.
Qed.

Lemma rstrip_app (a b : string) :
  rstrip b <> EmptyString -> rstrip (a ++ b) = a ++ rstrip b.
Proof.
  intros Hb. induction a as [|c a IH]; [reflexivity |].
  cbn [append rstrip]. rewrite IH.
  destruct (a ++ rstrip b) eqn:E; [| reflexivity].
  destruct a; simpl in E; [contradiction | discriminate].
Qed.

Lemma rstrip_join (ws : list string) :
  Forall word ws -> rstrip (join " " ws) = join " " ws.
Proof.
  induction 1 as [|w ws [Hne Hw] Hws IH]; [reflexivity |].
  destruct ws as [|w' ws].
  - unfold join; simpl. now apply rstrip_nospace.
  - rewrite join_cons.
    assert (Hrest : join " " (w' :: ws) <> EmptyString).
    { inversion Hws as [| ? ? [Hne' _] _]; subst.
      destruct w'; [congruence |]. destruct ws; discriminate. }
    rewrite rstrip_app.
    + rewrite rstrip_app; rewrite IH; [reflexivity | exact Hrest].
    + rewrite rstrip_app; rewrite IH; [discriminate | exact Hrest].
Qed.

Lemma lstrip_join (ws : list string) :
  Forall word ws -> lstrip (join " " ws) = join " " ws.
Proof.
  intros H. destruct H as [|w ws [Hne Hw] Hws]; [reflexivity |].
  destruct w as [|c w]; [congruence |].
  simpl in Hw. apply andb_true_iff in Hw as [Hc _].
  apply negb_true_iff in Hc.
  destruct ws; unfold join; simpl; now rewrite Hc.
Qed.

Lemma strip_join (ws : list string) :
  Forall word ws -> strip (join " " ws) = join " " ws.
Proof.
  intros H. unfold strip. rewrite lstrip_join by assumption.
  now apply rstrip_join.
Qed.

(** The whitespace normalisation reaches a fixed point at once. *)
Lemma normalise_whitespace_idempotent (s : string) :
  let tidy t := strip (join " " (split t)) in
  tidy (tidy s) = tidy s.
Proof.
  cbv beta zeta. pose proof (split_words s) as Hw.
  rewrite (strip_join _ Hw), (split_join _ Hw).
  now apply strip_join.
Qed.

(** The text [_clean_text] returns is whitespace-normalised. *)
Lemma clean_text_tidy (x : string) :
  exists ws, Forall word ws /\ _clean_text x = join " " ws.
Proof.
  unfold _clean_text. destruct (is_empty x).
  - exists []. split; [constructor | reflexivity].
  - eexists. split; [apply split_words |]. apply strip_join, split_words.
Qed.

(** C3, as stated, fails: an escaped entity is decoded one level at each
    pass. *)
Lemma clean_text_not_idempotent :
  _clean_text "&amp;gt;" = "&gt;"
  /\ _clean_text (_clean_text "&amp;gt;") = ">"
  /\ _clean_text (_clean_text "&amp;gt;") <> _clean_text "&amp;gt;".
Proof.
  split; [reflexivity | split; [reflexivity | discriminate]].
Qed.
End TextNormalisation.

(* ================================================================== *)
(** ** Worked scenarios *)

Section Scenarios.
Import PyStr PyExn DataProcessor.
Local Open Scope string_scope.

(** One pass removes the URL, the mention and the emphasis markers. *)
Example clean_text_strips_markup :
  let cleaned := _clean_text "check **this** out http://x.co /u/bob" in
  cleaned = "check this out"
  /\ contains "http" cleaned = false
  /\ contains "/u/" cleaned = false
  /\ contains "**" cleaned = false.
Proof. repeat split. Qed.

(** Emphasis markers are not matched across a line break, and an opening
    marker without a closing one stays. *)
Example clean_text_unterminated :
  _clean_text ("a **b" ++ nl ++ "c** d *e* ~~f~~ ~~g") = "a b c d e f ~~g".
Proof. reflexivity. Qed.

(** The deleted post is dropped; one post and one comment survive. *)
Example deleted_post_is_dropped :
  exists data,
    process_user_data Sample.cfg Sample.raw_user = Ok data
    /\ map Post.created_utc (UserData.posts data) = [200%Q]
    /\ map Post.title (UserData.posts data) = ["A title"]
    /\ map Comment.created_utc (UserData.comments data) = [150%Q]
    /\ Statistics.total_posts (UserData.statistics data) = 1%Z
    /\ Statistics.total_comments (UserData.statistics data) = 1%Z
    /\ Statistics.top_subreddits (UserData.statistics data)
       = [("learnpython", 2%Z)]
    /\ Statistics.most_active_subreddit (UserData.statistics data)
       = Some "learnpython".
Proof. eexists. split; [vm_compute; reflexivity |]. repeat split. Qed.

(** Ties in the activity count keep the order in which the tags were met. *)
Example activity_ties_keep_order :
  firstn 10 (PyList.sort snd Z.leb true
               (Spec.activity ["b"; "a"; "c"; "a"; "b"; "d"]))
  = [("b", 2%Z); ("a", 2%Z); ("c", 1%Z); ("d", 1%Z)].
Proof. reflexivity. Qed.
End Scenarios.

(* ================================================================== *)
(** ** More on text normalisation *)

Section NormalisedText.
Import PyStr DataProcessor Spec.
Local Open Scope string_scope.

(** X1. The text [_clean_text] returns is its own whitespace normalisation:
    tokens separated by single spaces, nothing before or after. *)
Theorem clean_text_whitespace_normal :
  forall x : string,
    let y := _clean_text x in
    join " " (split y) = y
    /\ strip y = y
    /\ Forall word (split y).
Proof.
  intros x y. subst y.
  destruct (clean_text_tidy x) as [ws [Hws ->]].
  rewrite (split_join _ Hws). repeat split.
  - now apply strip_join.
  - exact Hws.
Qed.

(** X2. On a text without markup characters the tokens come out as they went
    in: only the whitespace between them changes. *)
Theorem clean_text_keeps_tokens :
  forall s : string,
    markup_free s = true ->
    _clean_text s = join " " (split s)
    /\ split (_clean_text s) = split s.
Proof.
  intros s Hs. rewrite (clean_text_markup_free _ Hs).
  rewrite (strip_join _ (split_words s)).
  split; [reflexivity | apply split_join, split_words].
Qed.

Lemma clean_text_keeps_tokens_witness :
  markup_free ("  I love   programming " ++ nl ++ " in python ") = true
  /\ _clean_text ("  I love   programming " ++ nl ++ " in python ")
     = "I love programming in python".
Proof.
  split; [reflexivity |].
  destruct (clean_text_keeps_tokens
              ("  I love   programming " ++ nl ++ " in python "))
    as [H _]; [reflexivity |].
  rewrite H. reflexivity.
Defined.

Lemma length_append (a b : string) :
  String.length (a ++ b) = String.length a + String.length b.
Proof. induction a as [|c a IH]; simpl; [reflexivity | now rewrite IH]. Qed.

(** A pattern whose replacement is no longer than its match, and whose
    match is a non-empty prefix of the text. *)
Let shrinking (m : Re.matcher) : Prop :=
  forall s repl n,
    m s = Some (repl, n) ->
    String.length repl <= n /\ 1 <= n <= String.length s.

Lemma sub_from_length (m : Re.matcher) :
  shrinking m ->
  forall s k,
    String.length (Re.sub_from m k s) + Nat.min k (String.length s)
    <= String.length s.
Proof.
  intros Hm. induction s as [|c s IH]; intros k.
  - simpl. lia.
  - cbn [Re.sub_from]. destruct k as [|k].
    + destruct (m (String c s)) as [[repl n] |] eqn:E.
      * destruct (Hm _ _ _ E) as [Hrepl [Hn1 Hn2]].
        rewrite length_append. specialize (IH (pred n)).
        cbn [String.length] in *. lia.
      * specialize (IH 0). cbn [String.length] in *. lia.
    + specialize (IH k). cbn [String.length] in *. lia.
Qed.

Lemma sub_length (m : Re.matcher) (s : string) :
  shrinking m -> String.length (Re.sub m s) <= String.length s.
Proof.
  intros Hm. pose proof (sub_from_length m Hm s 0). unfold Re.sub. lia.
Qed.

Lemma span_length (f : ascii -> bool) (s : string) :
  Re.span f s <= String.length s.
Proof.
  induction s as [|c s IH]; simpl; [lia |]. destruct (f c); lia.
Qed.

Lemma url_shrinking : shrinking Re.url.
Proof.
  intros s repl n. unfold Re.url.
  destruct (strip_prefix "http" s) as [r |] eqn:Hr; [| discriminate].
  apply strip_prefix_Some in Hr; subst s.
  assert (Hscheme :
            forall k r',
              String.length r' + k <= String.length r ->
              match strip_prefix "://" r' with
              | Some body =>
                  match Re.span Re.url_char body with
                  | 0 => None
                  | S j => Some (EmptyString, 4 + k + 3 + S j)
                  end
              | None => None
              end = Some (repl, n) ->
              String.length repl <= n
              /\ 1 <= n <= String.length ("http" ++ r)).
  { intros k r' Hlen H.
    destruct (strip_prefix "://" r') as [body |] eqn:E; [| discriminate].
    apply strip_prefix_Some in E; subst r'.
    pose proof (span_length Re.url_char body) as Hspan.
    destruct (Re.span Re.url_char body) eqn:Es; [discriminate |].
    injection H as <- <-.
    rewrite !length_append in *. cbn [String.length] in *. lia. }
  destruct (strip_prefix "s" r) as [r' |] eqn:Hr'.
  - apply strip_prefix_Some in Hr'.
    assert (Hlen : String.length r' + 1 <= String.length r).
    { subst r. cbn [append String.length]. lia. }
    destruct (strip_prefix "://" r') as [body |] eqn:E.
    + destruct (Re.span Re.url_char body) eqn:Es.
      * intros H. apply (Hscheme 0 r); [lia | exact H].
      * intros H. apply (Hscheme 1 r'); [exact Hlen |].
        rewrite E, Es. exact H.
    + intros H. apply (Hscheme 0 r); [lia | exact H].
  - intros H. apply (Hscheme 0 r); [lia | exact H].
Qed.

Lemma mention_shrinking (sigil : string) :
  1 <= String.length sigil -> shrinking (Re.mention sigil).
Proof.
  intros Hsigil s repl n. unfold Re.mention.
  destruct (strip_prefix sigil s) as [body |] eqn:E; [| discriminate].
  apply strip_prefix_Some in E; subst s.
  pose proof (span_length isword body) as Hspan.
  destruct (Re.span isword body) eqn:Es; [discriminate |].
  intros H. injection H as <- <-.
  rewrite length_append. cbn [String.length]. lia.
Qed.

Lemma lazy_until_length (d s body : string) :
  Re.lazy_until d s = Some body ->
  String.length body + String.length d <= String.length s.
Proof.
  revert body; induction s as [|c s IH]; intros body; cbn [Re.lazy_until].
  - destruct (startswith d EmptyString) eqn:E; [| discriminate].
    intros H. injection H as <-. unfold startswith in E.
    destruct (strip_prefix d EmptyString) as [r |] eqn:Er; [| discriminate].
    apply strip_prefix_Some in Er. destruct d; [simpl; lia | discriminate].
  - destruct (startswith d (String c s)) eqn:E.
    + intros H. injection H as <-. unfold startswith in E.
      destruct (strip_prefix d (String c s)) as [r |] eqn:Er;
        [| discriminate].
      apply strip_prefix_Some in Er. rewrite Er, length_append. simpl. lia.
    + destruct (Ascii.eqb c newline); [discriminate |].
      destruct (Re.lazy_until d s) as [body' |]; [| discriminate].
      intros H. injection H as <-. specialize (IH body' eq_refl).
      cbn [String.length]. lia.
Qed.

Lemma wrapped_shrinking (d : string) :
  1 <= String.length d -> shrinking (Re.wrapped d).
Proof.
  intros Hd s repl n. unfold Re.wrapped.
  destruct (strip_prefix d s) as [r |] eqn:E; [| discriminate].
  apply strip_prefix_Some in E; subst s.
  destruct (Re.lazy_until d r) as [body |] eqn:Eb; [| discriminate].
  apply lazy_until_length in Eb.
  intros H. injection H as <- <-.
  rewrite length_append. lia.
Qed.

Lemma literal_shrinking (pat repl : string) :
  String.length repl <= String.length pat -> 1 <= String.length pat ->
  shrinking (Re.literal pat repl).
Proof.
  intros Hrepl Hpat s repl' n. unfold Re.literal, startswith.
  destruct (strip_prefix pat s) as [r |] eqn:E; [| discriminate].
  apply strip_prefix_Some in E; subst s.
  intros H. injection H as <- <-.
  rewrite length_append. lia.
Qed.

(** Leading whitespace is dropped, not replaced. *)
Let lead (s : string) : nat :=
  match s with
  | EmptyString => 0
  | String c _ => if isspace c then 1 else 0
  end.

Lemma join_split_length_lead (s : string) :
  String.length (join " " (split s)) + lead s <= String.length s.
Proof.
  induction s as [|c s IH]; [simpl; lia |].
  cbn [split lead]. destruct (isspace c) eqn:Hc.
  { cbn [String.length]. lia. }
  destruct (starts_word s) eqn:Hs.
  - destruct (split s) as [|w ws] eqn:Ews.
    + cbn. lia.
    + assert (H : join " " (String c w :: ws)
                  = String c (join " " (w :: ws))).
      { destruct ws; reflexivity. }
      rewrite H. cbn [String.length]. lia.
  - destruct (split s) as [|w ws] eqn:Ews.
    + cbn. lia.
    + rewrite join_cons. cbn [append String.length].
      destruct s as [|c' s']; [discriminate |].
      cbn [starts_word] in Hs. apply negb_false_iff in Hs.
      cbn [lead] in IH. rewrite Hs in IH.
      cbn [String.length] in *. lia.
Qed.

(** X3. Normalising never lengthens a text. *)
Theorem clean_text_never_longer :
  forall x : string,
    (String.length (_clean_text x) <= String.length x)%nat.
Proof.
  intros x. unfold _clean_text.
  destruct (is_empty x); [simpl; lia |].
  rewrite (strip_join _ (split_words _)).
  eapply Nat.le_trans;
    [pose proof (join_split_length_lead
                   (Re.sub (Re.literal "&amp;" "&")
                      (Re.sub (Re.literal "&lt;" "<")
                         (Re.sub (Re.literal "&gt;" ">")
                            (Re.sub (Re.wrapped "~~")
                               (Re.sub (Re.wrapped "*")
                                  (Re.sub (Re.wrapped "**")
                                     (Re.sub (Re.mention "/r/")
                                        (Re.sub (Re.mention "/u/")
                                           (Re.sub Re.url x)))))))))) as H;
     apply Nat.le_trans with (2 := H); lia |].
  repeat (eapply Nat.le_trans;
          [apply sub_length;
           first [ apply url_shrinking
                 | apply mention_shrinking; simpl; lia
                 | apply wrapped_shrinking; simpl; lia
                 | apply literal_shrinking; simpl; lia ] |]).
  apply Nat.le_refl.
Qed.
End NormalisedText.

(* ================================================================== *)
(** ** What aggregation keeps *)

Section Survivors.
Import PyStr DataProcessor Spec.

Lemma valid_content_facts (cfg : PERSONA_CONFIG.t) (content : string) :
  _is_valid_content cfg content = true ->
  content <> EmptyString
  /\ (PERSONA_CONFIG.min_content_length cfg <= len content)%Z
  /\ str_in (lower content) removal_sentinels = false
  /\ 3 <= List.length (split content).
Proof.
  unfold _is_valid_content.
  destruct (is_empty content) eqn:He; [discriminate |].
  destruct (len content <? PERSONA_CONFIG.min_content_length cfg)%Z eqn:Hl;
    [discriminate |].
  destruct (str_in (lower content) removal_sentinels); [discriminate |].
  unfold PyList.len.
  destruct (Z.of_nat (List.length (split content)) <? 3)%Z eqn:Hw;
    [discriminate |].
  intros _. apply Z.ltb_ge in Hl, Hw. repeat split; try lia.
  intros ->. discriminate.
Qed.

Lemma flat_map_at_most_one {X Y} (f : X -> list Y) (l : list X) :
  (forall x, List.length (f x) <= 1) ->
  List.length (flat_map f l) <= List.length l.
Proof.
  intros Hf. induction l as [|x l IH]; simpl; [lia |].
  rewrite length_app. specialize (Hf x). lia.
Qed.

Lemma surviving_posts_length (cfg : PERSONA_CONFIG.t)
      (raws : list RawPost.t) :
  List.length (surviving_posts cfg raws) <= List.length raws.
Proof.
  apply flat_map_at_most_one. intros raw.
  destruct (_clean_post cfg raw) as [p |]; [| simpl; lia].
  destruct (_is_valid_content cfg (Post.content p)); simpl; lia.
Qed.

Lemma surviving_comments_length (cfg : PERSONA_CONFIG.t)
      (raws : list RawComment.t) :
  List.length (surviving_comments cfg raws) <= List.length raws.
Proof.
  apply flat_map_at_most_one. intros raw.
  destruct (_clean_comment cfg raw) as [c |]; [| simpl; lia].
  destruct (_is_valid_content cfg (Comment.content c)); simpl; lia.
Qed.

Lemma surviving_posts_In (cfg : PERSONA_CONFIG.t) (raws : list RawPost.t)
      (p : Post.t) :
  In p (surviving_posts cfg raws) ->
  _is_valid_content cfg (Post.content p) = true
  /\ exists raw, In raw raws /\ _clean_post cfg raw = Some p.
Proof.
  unfold surviving_posts. rewrite in_flat_map. intros [raw [Hraw Hin]].
  destruct (_clean_post cfg raw) as [q |] eqn:Eq; [| contradiction].
  destruct (_is_valid_content cfg (Post.content q)) eqn:Ev;
    [| contradiction].
  destruct Hin as [<- | []]. split; [exact Ev |]. now exists raw.
Qed.

Lemma surviving_comments_In (cfg : PERSONA_CONFIG.t)
      (raws : list RawComment.t) (c : Comment.t) :
  In c (surviving_comments cfg raws) ->
  _is_valid_content cfg (Comment.content c) = true
  /\ exists raw, In raw raws /\ _clean_comment cfg raw = Some c.
Proof.
  unfold surviving_comments. rewrite in_flat_map. intros [raw [Hraw Hin]].
  destruct (_clean_comment cfg raw) as [q |] eqn:Eq; [| contradiction].
  destruct (_is_valid_content cfg (Comment.content q)) eqn:Ev;
    [| contradiction].
  destruct Hin as [<- | []]. split; [exact Ev |]. now exists raw.
Qed.

Lemma processed_posts_perm (cfg : PERSONA_CONFIG.t)
      (raws : list RawPost.t) :
  Permutation (_process_posts cfg raws) (surviving_posts cfg raws).
Proof. rewrite processed_posts_loop. apply sort_reverse_perm. Qed.

Lemma processed_comments_perm (cfg : PERSONA_CONFIG.t)
      (raws : list RawComment.t) :
  Permutation (_process_comments cfg raws) (surviving_comments cfg raws).
Proof. rewrite processed_comments_loop. apply sort_reverse_perm. Qed.

(** X4. Every post and comment that aggregation returns is the cleaned form
    of an input item and passes the content filter: its body is not empty,
    has at least [min_content_length] characters and at least three
    tokens.  No more items come out than went in. *)
Theorem processed_items_are_accepted :
  forall (cfg : PERSONA_CONFIG.t)
         (raw_posts : list RawPost.t) (raw_comments : list RawComment.t),
    let kept (body : string) : Prop :=
      _is_valid_content cfg body = true
      /\ body <> EmptyString
      /\ (PERSONA_CONFIG.min_content_length cfg <= len body)%Z
      /\ 3 <= List.length (split body) in
    (List.length (_process_posts cfg raw_posts) <= List.length raw_posts
     /\ Forall (fun p =>
                  kept (Post.content p)
                  /\ exists raw,
                      In raw raw_posts /\ _clean_post cfg raw = Some p)
               (_process_posts cfg raw_posts))
    /\ (List.length (_process_comments cfg raw_comments)
        <= List.length raw_comments
        /\ Forall (fun c =>
                     kept (Comment.content c)
                     /\ exists raw,
                         In raw raw_comments
                         /\ _clean_comment cfg raw = Some c)
                  (_process_comments cfg raw_comments)).
Proof.
  intros cfg raw_posts raw_comments kept. split; split.
  - rewrite (Permutation_length (processed_posts_perm cfg raw_posts)).
    apply surviving_posts_length.
  - rewrite Forall_forall. intros p Hp.
    apply (Permutation_in _ (processed_posts_perm cfg raw_posts)) in Hp.
    apply surviving_posts_In in Hp as [Hv Hraw].
    split; [| exact Hraw].
    destruct (valid_content_facts _ _ Hv) as (H1 & H2 & _ & H3).
    unfold kept. tauto.
  - rewrite (Permutation_length (processed_comments_perm cfg raw_comments)).
    apply surviving_comments_length.
  - rewrite Forall_forall. intros c Hc.
    apply (Permutation_in _ (processed_comments_perm cfg raw_comments))
      in Hc.
    apply surviving_comments_In in Hc as [Hv Hraw].
    split; [| exact Hraw].
    destruct (valid_content_facts _ _ Hv) as (H1 & H2 & _ & H3).
    unfold kept. tauto.
Qed.

Lemma fold_append_filter_map {X Y} (keep : X -> bool) (f : X -> Y)
      (l : list X) (init : list Y) :
  fold_left (fun acc x => if keep x then PyList.append acc (f x) else acc)
            l init
  = (init ++ map f (filter keep l))%list.
Proof.
  revert init; induction l as [|x l IH]; intros init; simpl.
  - now rewrite app_nil_r.
  - rewrite IH. destruct (keep x); [| reflexivity].
    unfold PyList.append. simpl. now rewrite <- app_assoc.
Qed.

(** X5. [_process_subreddits] keeps the non-empty names, in order, and gives
    each its category and its description. *)
Theorem process_subreddits_names :
  forall subreddits : list string,
    let processed := _process_subreddits subreddits in
    map Subreddit.name processed
    = filter (fun name => negb (is_empty name)) subreddits
    /\ Forall (fun entry =>
                 Subreddit.category entry
                 = _categorize_subreddit (Subreddit.name entry)
                 /\ Subreddit.description entry
                    = _get_subreddit_description (Subreddit.name entry))
              processed.
Proof.
  intros subreddits processed.
  assert (H : processed
              = map (fun name =>
                       {| Subreddit.name := name;
                          Subreddit.category := _categorize_subreddit name;
                          Subreddit.description :=
                            _get_subreddit_description name |})
                    (filter (fun name => negb (is_empty name)) subreddits)).
  { subst processed. unfold _process_subreddits.
    rewrite <- (app_nil_l (map _ _)), <- fold_append_filter_map.
    apply fold_left_ext. intros acc name. now destruct (is_empty name). }
  rewrite H. split.
  - rewrite map_map. simpl. apply map_id.
  - rewrite Forall_map. simpl. rewrite Forall_forall. now intros.
Qed.

(** The keywords of a category that occur in a lower-cased name. *)
Let hit (name_lower : string) (entry : string * list string) : bool :=
  existsb (fun keyword => contains keyword name_lower) (snd entry).

(** X6. [_categorize_subreddit] answers with the first category, in declared
    order, one of whose keywords occurs in the lower-cased name, and with
    ["other"] exactly when no keyword of any category occurs; the answer
    does not depend on the letter case of the name. *)
Theorem categorize_subreddit_first_match :
  forall subreddit : string,
    let answer := _categorize_subreddit subreddit in
    (answer = "other"
     <-> forall category keywords keyword,
           In (category, keywords) categories -> In keyword keywords ->
           contains keyword (lower subreddit) = false)
    /\ (forall earlier category keywords later keyword,
           categories = earlier ++ (category, keywords) :: later ->
           In keyword keywords ->
           contains keyword (lower subreddit) = true ->
           (forall e k, In e earlier -> In k (snd e) ->
                        contains k (lower subreddit) = false) ->
           answer = category)
    /\ In answer (map fst categories ++ ["other"])
    /\ (forall other,
           lower other = lower subreddit ->
           _categorize_subreddit other = answer).
Proof.
  intros subreddit answer. subst answer. unfold _categorize_subreddit.
  fold (hit (lower subreddit)).
  assert (Hnames : Forall (fun e => fst e <> "other") categories).
  { repeat constructor; discriminate. }
  split; [| split; [| split]].
  - destruct (find (hit (lower subreddit)) categories)
      as [[category keywords] |] eqn:E.
    + apply find_some in E as [Hin Hhit]. split.
      * intros ->. rewrite Forall_forall in Hnames.
        now apply Hnames in Hin.
      * intros Hnone. unfold hit in Hhit. simpl in Hhit.
        apply existsb_exists in Hhit as [kw [Hkw Hc]].
        rewrite (Hnone _ _ _ Hin Hkw) in Hc. discriminate.
    + split; [| reflexivity]. intros _ category keywords keyword Hin Hkw.
      pose proof (find_none _ _ E _ Hin) as Hhit. unfold hit in Hhit.
      simpl in Hhit.
      destruct (contains keyword (lower subreddit)) eqn:Ec;
        [| reflexivity].
      assert (existsb (fun keyword => contains keyword (lower subreddit))
                      keywords = true)
        by (apply existsb_exists; eauto).
      congruence.
  - intros earlier category keywords later keyword Hcat Hkw Hc Hearlier.
    rewrite Hcat. clear Hcat Hnames.
    induction earlier as [|e earlier IH]; simpl.
    + assert (Hhit : hit (lower subreddit) (category, keywords) = true).
      { unfold hit. apply existsb_exists. eauto. }
      now rewrite Hhit.
    + assert (Hmiss : hit (lower subreddit) e = false).
      { unfold hit. destruct (existsb _ (snd e)) eqn:Ee; [| reflexivity].
        apply existsb_exists in Ee as [k [Hk Hck]].
        rewrite (Hearlier e k (or_introl eq_refl) Hk) in Hck.
        discriminate. }
      rewrite Hmiss. apply IH. intros e' k He' Hk.
      apply (Hearlier e' k); [now right | exact Hk].
  - destruct (find (hit (lower subreddit)) categories)
      as [[category keywords] |] eqn:E.
    + apply find_some in E as [Hin _]. apply in_or_app. left.
      apply (in_map fst) in Hin. exact Hin.
    + apply in_or_app. right. now left.
  - intros other Hother. now rewrite Hother.
Qed.
End Survivors.

(* ================================================================== *)
(** ** Totals of the statistics *)

Section StatisticsTotals.
Import PyStr PyExn DataProcessor Spec.

Lemma fold_add_shift (l : list Z) (a : Z) :
  fold_left Z.add l a = (a + fold_left Z.add l 0)%Z.
Proof.
  revert a; induction l as [|x l IH]; intros a; simpl; [lia |].
  rewrite (IH (a + x)%Z), (IH x). lia.
Qed.

Lemma sum_cons (x : Z) (l : list Z) :
  PyList.sum (x :: l) = (x + PyList.sum l)%Z.
Proof. unfold PyList.sum. simpl. apply fold_add_shift. Qed.

Lemma sum_app (l l' : list Z) :
  PyList.sum (l ++ l') = (PyList.sum l + PyList.sum l')%Z.
Proof.
  induction l as [|x l IH]; [reflexivity |].
  simpl. rewrite !sum_cons, IH. lia.
Qed.

Lemma sum_perm (l l' : list Z) :
  Permutation l l' -> PyList.sum l = PyList.sum l'.
Proof.
  induction 1; rewrite ?sum_cons; lia.
Qed.

Lemma sum_nonneg (l : list Z) :
  Forall (fun x => (0 <= x)%Z) l -> (0 <= PyList.sum l)%Z.
Proof.
  induction 1 as [|x l Hx Hl IH]; [reflexivity |].
  rewrite sum_cons. lia.
Qed.

Lemma sum_firstn (n : nat) (l : list Z) :
  Forall (fun x => (0 <= x)%Z) l ->
  (PyList.sum (firstn n l) <= PyList.sum l)%Z.
Proof.
  intros Hl. rewrite <- (firstn_skipn n l) at 2. rewrite sum_app.
  assert (0 <= PyList.sum (skipn n l))%Z; [| lia].
  apply sum_nonneg. rewrite Forall_forall in *. intros x Hx.
  apply Hl. rewrite <- (firstn_skipn n l). apply in_or_app. now right.
Qed.

Lemma count_activity_total (d : PyDict.t) (t : string) :
  PyList.sum (map snd (count_activity d t))
  = (PyList.sum (map snd d) + 1)%Z.
Proof.
  unfold count_activity. induction d as [|[k v] d IH]; [reflexivity |].
  cbn [PyDict.set PyDict.get]. destruct (String.eqb k t).
  - cbn [map snd]. rewrite !sum_cons. lia.
  - cbn [map snd]. rewrite !sum_cons, IH. lia.
Qed.

Lemma activity_total (l : list string) (d : PyDict.t) :
  PyList.sum (map snd (fold_left count_activity l d))
  = (PyList.sum (map snd d) + Z.of_nat (List.length l))%Z.
Proof.
  revert d; induction l as [|t l IH]; intros d; simpl fold_left.
  - simpl. lia.
  - rewrite IH, count_activity_total. cbn [List.length]. lia.
Qed.

Lemma occurrences_nonneg (t : string) (l : list string) :
  (0 <= occurrences t l)%Z.
Proof.
  induction l as [|x l IH]; simpl; [lia |]. destruct (String.eqb x t); lia.
Qed.

Lemma generate_statistics_fields (posts : list Post.t)
      (comments : list Comment.t) :
  exists s,
    _generate_statistics posts comments = Ok s
    /\ Statistics.total_posts s = PyList.len posts
    /\ Statistics.total_comments s = PyList.len comments
    /\ Statistics.top_subreddits s
       = firstn 10 (PyList.sort snd Z.leb true
                                (activity (tags posts comments)))
    /\ Statistics.subreddit_diversity s
       = PyList.len (activity (tags posts comments)).
Proof.
  unfold _generate_statistics.
  destruct (guarded_mean_ok (map Post.score posts)) as [q1 ->].
  destruct (guarded_mean_ok (map Comment.score comments)) as [q2 ->].
  destruct (average_content_length_ok
              (map IPost posts ++ map IComment comments)) as [q3 ->].
  cbn [bind]. eexists. split; [reflexivity |].
  cbn [Statistics.top_subreddits Statistics.total_posts
       Statistics.total_comments Statistics.subreddit_diversity].
  unfold activity, tags, PyDict.items.
  rewrite fold_left_app, <- 2 fold_left_map_arg. repeat split.
Qed.

(** X7. [subreddit_diversity] is the number of distinct tags in the corpus,
    [top_subreddits] lists ten of them or all, and the counts listed sum to
    at most the number of posts and comments - to exactly that number when
    there are at most ten distinct tags. *)
Theorem statistics_activity_totals :
  forall (posts : list Post.t) (comments : list Comment.t),
  exists s,
    _generate_statistics posts comments = Ok s
    /\ let distinct := nodup string_dec (tags posts comments) in
       let listed := PyList.sum (map snd (Statistics.top_subreddits s)) in
       let items :=
         (Statistics.total_posts s + Statistics.total_comments s)%Z in
       Statistics.total_posts s = PyList.len posts
       /\ Statistics.total_comments s = PyList.len comments
       /\ Statistics.subreddit_diversity s = PyList.len distinct
       /\ List.length (Statistics.top_subreddits s)
          = Nat.min 10 (List.length distinct)
       /\ (listed <= items)%Z
       /\ ((Statistics.subreddit_diversity s <= 10)%Z -> listed = items).
Proof.
  intros posts comments.
  destruct (generate_statistics_fields posts comments)
    as (s & Hs & Hposts & Hcomments & Htop & Hdiv).
  exists s. split; [exact Hs |]. cbn zeta.
  rewrite Hposts, Hcomments, Htop, Hdiv.
  set (met := tags posts comments).
  set (counts := activity met).
  set (ranked := PyList.sort snd Z.leb true counts).
  destruct (activity_counted met) as (Hnd & Hkeys & Hcount & _).
  fold counts in Hnd, Hkeys, Hcount.
  assert (Hperm : Permutation ranked counts) by apply sort_reverse_perm.
  assert (Hlen : List.length counts
                 = List.length (nodup string_dec met)).
  { rewrite <- (length_map fst counts). apply Permutation_length.
    apply NoDup_Permutation; [exact Hnd | apply NoDup_nodup |].
    intros t. rewrite nodup_In. apply Hkeys. }
  assert (Htotal : PyList.sum (map snd counts)
                   = (PyList.len posts + PyList.len comments)%Z).
  { unfold counts, activity. rewrite activity_total. unfold met, tags.
    rewrite length_app, !length_map. unfold PyList.len. simpl. lia. }
  assert (Hpos : Forall (fun x => (0 <= x)%Z) (map snd ranked)).
  { rewrite Forall_map, Forall_forall. intros [t c] Hin. simpl.
    apply (Permutation_in _ Hperm) in Hin.
    rewrite (Hcount _ _ Hin). apply occurrences_nonneg. }
  assert (Hranked : PyList.sum (map snd ranked)
                    = PyList.sum (map snd counts)).
  { apply sum_perm. now apply Permutation_map. }
  repeat split.
  - unfold PyList.len. now rewrite Hlen.
  - rewrite length_firstn, (Permutation_length Hperm). now rewrite Hlen.
  - rewrite <- Htotal, <- Hranked, <- firstn_map. now apply sum_firstn.
  - intros Hten. rewrite firstn_all2.
    + now rewrite Hranked.
    + rewrite (Permutation_length Hperm). unfold PyList.len in Hten. lia.
Qed.

(** The loop of [_calculate_average_content_length] over the bodies that
    are not empty. *)
Let lengths (items : list Item) : list Z :=
  map (fun item => len (item_content item))
      (filter (fun item => negb (is_empty (item_content item))) items).

Lemma content_length_loop (items : list Item) (total count : Z) :
  fold_left
    (fun acc item =>
       let '(total_length, count) := acc in
       let content := item_content item in
       if is_empty content then (total_length, count)
       else ((total_length + len content)%Z, (count + 1)%Z))
    items (total, count)
  = ((total + PyList.sum (lengths items))%Z,
     (count + PyList.len (lengths items))%Z).
Proof.
  revert total count; induction items as [|item items IH];
    intros total count.
  - unfold lengths, PyList.sum, PyList.len. simpl. f_equal; lia.
  - cbn [fold_left]. unfold lengths. cbn [filter].
    destruct (is_empty (item_content item)); cbn [negb].
    + apply IH.
    + rewrite IH. cbn [map]. rewrite sum_cons.
      unfold lengths, PyList.len. cbn [List.length]. f_equal; lia.
Qed.

(** X8. [content_length_avg] is the total length of the bodies that are not
    empty divided by their number, and [0] when there is none, whatever the
    division makes of the two numbers; the divisor is never zero, and items
    with an empty body do not weigh on the result. *)
Theorem average_content_length_of_nonempty :
  forall (R : Type) (divide : Z -> Z -> R) (zero : R) (items : list Item),
    let with_body :=
      filter (fun item => negb (is_empty (item_content item))) items in
    let bodies := map (fun item => len (item_content item)) with_body in
    let average :=
      Averages._calculate_average_content_length_by divide zero in
    average items
    = (if PyList.nonempty bodies
       then divide (PyList.sum bodies) (PyList.len bodies)
       else zero)
    /\ (PyList.nonempty bodies = true -> (0 < PyList.len bodies)%Z)
    /\ average with_body = average items
    /\ _calculate_average_content_length items
       = Averages._calculate_average_content_length_by
           truediv (Ok 0%Q) items.
Proof.
  intros R divide zero items with_body bodies average.
  assert (Hformula :
            forall l,
              average l
              = (if PyList.nonempty (lengths l)
                 then divide (PyList.sum (lengths l))
                             (PyList.len (lengths l))
                 else zero)).
  { intros l. unfold average, Averages._calculate_average_content_length_by.
    rewrite content_length_loop. rewrite !Z.add_0_l.
    destruct (lengths l) as [|x xs] eqn:E.
    - reflexivity.
    - assert (Hpos : (0 < PyList.len (x :: xs))%Z)
        by (unfold PyList.len; simpl; lia).
      destruct (PyList.len (x :: xs) >? 0)%Z eqn:Eg;
        [| rewrite Z.gtb_ltb, Z.ltb_ge in Eg; lia].
      reflexivity. }
  split; [apply Hformula |]. split; [| split; [| reflexivity]].
  - destruct bodies as [|x xs]; [discriminate |].
    intros _. unfold PyList.len. simpl. lia.
  - rewrite !Hformula.
    assert (Hsame : lengths with_body = lengths items).
    { unfold lengths, with_body. f_equal.
      induction items as [|item items IH]; [reflexivity |].
      cbn [filter].
      destruct (negb (is_empty (item_content item))) eqn:E;
        [cbn [filter]; rewrite E; now f_equal | exact IH]. }
    now rewrite Hsame.
Qed.

Lemma occurrences_positive (t : string) (l : list string) :
  In t l -> (1 <= occurrences t l)%Z.
Proof.
  induction l as [|x l IH]; [contradiction |].
  intros [-> | Hin]; cbn [occurrences].
  - rewrite String.eqb_refl. pose proof (occurrences_nonneg t l). lia.
  - specialize (IH Hin). destruct (String.eqb x t); lia.
Qed.

Lemma occurrences_at_most (t : string) (l : list string) :
  (occurrences t l <= Z.of_nat (List.length l))%Z.
Proof.
  induction l as [|x l IH]; [reflexivity |].
  cbn [occurrences List.length]. destruct (String.eqb x t); lia.
Qed.

(** The tag of a surviving item is the tag of a raw item, the empty text
    standing for a missing one. *)
Lemma processed_tags_raw (cfg : PERSONA_CONFIG.t)
      (raw_posts : list RawPost.t) (raw_comments : list RawComment.t)
      (tag : string) :
  In tag (tags (_process_posts cfg raw_posts)
               (_process_comments cfg raw_comments)) ->
  In tag (map (fun raw => get_or EmptyString (RawPost.subreddit raw))
              raw_posts
          ++ map (fun raw => get_or EmptyString (RawComment.subreddit raw))
                 raw_comments).
Proof.
  unfold tags. rewrite !in_app_iff, !in_map_iff.
  intros [[p [Htag Hin]] | [c [Htag Hin]]]; [left | right].
  - apply (Permutation_in _ (processed_posts_perm cfg raw_posts)) in Hin.
    apply surviving_posts_In in Hin.
    destruct Hin as [_ [raw [Hraw Hclean]]].
    exists raw. split; [| exact Hraw].
    unfold _clean_post in Hclean. injection Hclean as <-.
    exact Htag.
  - apply (Permutation_in _ (processed_comments_perm cfg raw_comments))
      in Hin.
    apply surviving_comments_In in Hin.
    destruct Hin as [_ [raw [Hraw Hclean]]].
    exists raw. split; [| exact Hraw].
    unfold _clean_comment in Hclean. injection Hclean as <-.
    exact Htag.
Qed.

(** X9. Whenever [process_user_data] returns, the counts of the statistics
    are the lengths of the lists returned and never exceed the numbers of
    raw items, a missing key standing for no item; every tag ranked in
    [top_subreddits], and so the most active one, is the tag of a raw post
    or comment, with a count between one and the number of items kept; and
    there are no more distinct tags than items kept. *)
Theorem process_user_data_counts :
  forall (cfg : PERSONA_CONFIG.t) (user_data : RawUserData.t)
         (data : UserData.t),
    let raw_posts := get_or [] (RawUserData.posts user_data) in
    let raw_comments := get_or [] (RawUserData.comments user_data) in
    let raw_tags :=
      map (fun raw => get_or EmptyString (RawPost.subreddit raw)) raw_posts
      ++ map (fun raw => get_or EmptyString (RawComment.subreddit raw))
             raw_comments in
    let stats := UserData.statistics data in
    let kept :=
      (Statistics.total_posts stats + Statistics.total_comments stats)%Z in
    process_user_data cfg user_data = Ok data ->
    Statistics.total_posts stats = PyList.len (UserData.posts data)
    /\ Statistics.total_comments stats = PyList.len (UserData.comments data)
    /\ (Statistics.total_posts stats <= PyList.len raw_posts)%Z
    /\ (Statistics.total_comments stats <= PyList.len raw_comments)%Z
    /\ (Statistics.subreddit_diversity stats <= kept)%Z
    /\ (forall tag count,
           In (tag, count) (Statistics.top_subreddits stats) ->
           In tag raw_tags /\ (1 <= count <= kept)%Z)
    /\ (forall tag,
           Statistics.most_active_subreddit stats = Some tag ->
           In tag raw_tags).
Proof.
  intros cfg user_data data raw_posts raw_comments raw_tags stats kept.
  unfold process_user_data. fold raw_posts raw_comments.
  set (posts := _process_posts cfg raw_posts).
  set (comments := _process_comments cfg raw_comments).
  destruct (generate_statistics_fields posts comments)
    as (s & Hs & Hposts & Hcomments & Htop & Hdiv).
  destruct (generate_statistics_top posts comments)
    as (s' & Hs' & _ & Hmost).
  assert (s' = s) by congruence. subst s'. clear Hs'.
  rewrite Hs. cbn [bind]. intros Hdata.
  injection Hdata as <-. subst stats kept.
  cbn [UserData.posts UserData.comments UserData.statistics] in *.
  set (met := tags posts comments) in *.
  set (counts := activity met) in *.
  destruct (activity_counted met) as (Hnd & Hkeys & Hcount & _).
  fold counts in Hnd, Hkeys, Hcount.
  assert (Hmet : Z.of_nat (List.length met)
                 = (PyList.len posts + PyList.len comments)%Z).
  { unfold met, tags, PyList.len. rewrite length_app, !length_map. lia. }
  assert (Hraw : forall tag, In tag met -> In tag raw_tags).
  { intros tag. apply processed_tags_raw. }
  assert (Hlisted :
            forall tag count,
              In (tag, count) (Statistics.top_subreddits s) ->
              In tag raw_tags
              /\ (1 <= count <= PyList.len posts + PyList.len comments)%Z).
  { intros tag count Hin. rewrite Htop in Hin.
    assert (Hranked : In (tag, count)
                         (PyList.sort snd Z.leb true counts)).
    { rewrite <- (firstn_skipn 10 (PyList.sort snd Z.leb true counts)).
      apply in_or_app. now left. }
    clear Hin. rename Hranked into Hin.
    apply (Permutation_in _ (sort_reverse_perm _ _ snd Z.leb counts)) in Hin.
    assert (Htag : In tag met).
    { apply Hkeys. apply in_map_iff. now exists (tag, count). }
    rewrite (Hcount _ _ Hin). split; [now apply Hraw |].
    pose proof (occurrences_positive tag met Htag).
    pose proof (occurrences_at_most tag met). lia. }
  rewrite Hposts, Hcomments, Hdiv.
  pose proof (Permutation_length (processed_posts_perm cfg raw_posts)).
  pose proof (Permutation_length
                (processed_comments_perm cfg raw_comments)).
  pose proof (surviving_posts_length cfg raw_posts).
  pose proof (surviving_comments_length cfg raw_comments).
  fold posts in H. fold comments in H0.
  split; [reflexivity |]. split; [reflexivity |].
  split; [unfold PyList.len; lia |]. split; [unfold PyList.len; lia |].
  split; [| split].
  - rewrite <- Hmet. unfold PyList.len.
    rewrite <- (length_map fst counts). apply inj_le.
    apply NoDup_incl_length; [exact Hnd |].
    intros tag Hin. now apply Hkeys.
  - exact Hlisted.
  - intros tag Hsome. rewrite Hmost in Hsome.
    destruct (Statistics.top_subreddits s) as [|[t c] rest] eqn:E;
      [discriminate |].
    injection Hsome as ->.
    apply (Hlisted tag c). now left.
Qed.

Lemma process_user_data_counts_witness :
  exists data,
    process_user_data Sample.cfg Sample.raw_user = Ok data
    /\ Statistics.total_posts (UserData.statistics data) = 1%Z
    /\ (Statistics.total_posts (UserData.statistics data) <= 2)%Z
    /\ (Statistics.subreddit_diversity (UserData.statistics data) <= 2)%Z.
Proof.
  eexists. split; [vm_compute; reflexivity |].
  destruct (process_user_data_counts Sample.cfg Sample.raw_user _ eq_refl)
    as (Hposts & _ & Hraw & _ & Hdiv & _).
  split; [exact Hposts |]. split; [exact Hraw | exact Hdiv].
Defined.
End StatisticsTotals.

(* ================================================================== *)
(** ** Every run of the generator *)

Section EveryRun.
Import PyStr PersonaGenerator Spec Assembly.
Local Open Scope string_scope.

Variable cfg : PERSONA_CONFIG.t.
Variable openai_cfg : OPENAI_CONFIG.t.
Variable prompts : PERSONA_PROMPTS.t.
Variable include_citations : bool.
Variable world : World.t.

Lemma analyze_outcome (f : facet) (role prompt : string)
      (content : string) (user_data : UserData.t) (trace : list Event) :
  facet_request openai_cfg prompts content user_data f
  = request openai_cfg role prompt ->
  analyze openai_cfg include_citations world role prompt (facet_label f)
          (facet_fallback f) user_data trace
  = (outcome include_citations user_data f
             (response openai_cfg prompts world content user_data f),
     (trace ++ facet_events openai_cfg prompts world content user_data f)
     %list).
Proof.
  intros Hreq. unfold facet_events, response. rewrite Hreq.
  destruct (World.backend world (request openai_cfg role prompt))
    as [text | e] eqn:E.
  - rewrite (analyze_completion _ _ _ _ _ _ _ _ _ _ E). reflexivity.
  - rewrite (analyze_failure _ _ _ _ _ _ _ _ _ _ E).
    cbn [outcome error_record map]. now rewrite <- app_assoc.
Qed.

Lemma generate_persona_run (user_data : UserData.t) :
  let content := _extract_content_for_analysis cfg user_data in
  content <> EmptyString ->
  run (generate_persona cfg openai_cfg prompts include_citations world
                        user_data)
  = (_format_persona include_citations world
                     (assembled openai_cfg prompts include_citations world
                                content user_data)
                     user_data,
     ([LogInfo "Starting persona generation..."]
        ++ flat_map (facet_events openai_cfg prompts world content
                                  user_data) facets
        ++ [LogInfo "Persona generation completed"])%list).
Proof.
  intros content Hne.
  assert (Hempty : is_empty content = false).
  { destruct content; [congruence | reflexivity]. }
  unfold run, generate_persona.
  cbv beta iota zeta delta [bind emit ret].
  fold content. rewrite Hempty.
  unfold _analyze_demographics, _analyze_personality, _analyze_interests,
    _analyze_behaviors, _analyze_motivations, _analyze_frustrations.
  rewrite (analyze_outcome Demographics _ _ content user_data)
    by reflexivity.
  rewrite (analyze_outcome Personality _ _ content user_data)
    by reflexivity.
  rewrite (analyze_outcome Interests _ _ content user_data) by reflexivity.
  rewrite (analyze_outcome Behaviors _ _ content user_data) by reflexivity.
  rewrite (analyze_outcome Motivations _ _ content user_data)
    by reflexivity.
  rewrite (analyze_outcome Frustrations _ _ content user_data)
    by reflexivity.
  unfold PyList.append, facets. cbn [flat_map].
  f_equal. rewrite app_nil_r, <- !app_assoc. reflexivity.
Qed.

Lemma backend_calls_app (t1 t2 : list Event) :
  backend_calls (t1 ++ t2)%list
  = (backend_calls t1 ++ backend_calls t2)%list.
Proof. apply flat_map_app. Qed.

Lemma logged_errors_app (t1 t2 : list Event) :
  logged_errors (t1 ++ t2)%list
  = (logged_errors t1 ++ logged_errors t2)%list.
Proof. apply flat_map_app. Qed.

Lemma backend_calls_errors (msgs : list string) :
  backend_calls (map LogError msgs) = [].
Proof. induction msgs; [reflexivity | exact IHmsgs]. Qed.

Lemma logged_errors_errors (msgs : list string) :
  logged_errors (map LogError msgs) = msgs.
Proof.
  induction msgs as [|m msgs IH]; [reflexivity |].
  cbn [map]. change (logged_errors (LogError m :: map LogError msgs))
    with (m :: logged_errors (map LogError msgs)). now rewrite IH.
Qed.

(** X11. Whenever there is evidence text, the backend is called exactly once
    per facet, in the fixed order of the facets, whatever the earlier calls
    returned; and each failed call, and nothing else, leaves one error
    record naming its facet. *)
Theorem one_backend_call_per_facet :
  forall user_data : UserData.t,
    let content := _extract_content_for_analysis cfg user_data in
    let trace :=
      snd (run (generate_persona cfg openai_cfg prompts include_citations
                                 world user_data)) in
    content <> EmptyString ->
    backend_calls trace
    = map (facet_request openai_cfg prompts content user_data) facets
    /\ logged_errors trace
       = flat_map (fun f =>
                     error_record f
                       (response openai_cfg prompts world content
                                 user_data f))
                  facets.
Proof.
  intros user_data content trace Hne. subst trace.
  rewrite (generate_persona_run user_data Hne). cbn [snd].
  fold content. unfold facets. cbn [flat_map map].
  rewrite !backend_calls_app, !logged_errors_app. unfold facet_events.
  repeat match goal with
         | |- context [backend_calls (?e :: map LogError ?m)] =>
             change (backend_calls (e :: map LogError m))
               with (backend_calls [e] ++ backend_calls (map LogError m))
               %list;
             rewrite (backend_calls_errors m)
         | |- context [logged_errors (?e :: map LogError ?m)] =>
             change (logged_errors (e :: map LogError m))
               with (logged_errors [e] ++ logged_errors (map LogError m))
               %list;
             rewrite (logged_errors_errors m)
         end.
  cbn [backend_calls logged_errors flat_map app].
  rewrite !app_nil_r. split; reflexivity.
Qed.
End EveryRun.

(* ================================================================== *)
(** ** When the generator declines *)

Section Declined.
Import PyStr PersonaGenerator Spec Assembly.
Local Open Scope string_scope.

Variable cfg : PERSONA_CONFIG.t.

Let post_parts (p : Post.t) : list string :=
  ((if negb (is_empty (Post.title p))
    then [("POST TITLE: " ++ Post.title p)%string] else [])
   ++ (if long_enough cfg (Post.content p)
       then [("POST CONTENT: " ++ Post.content p)%string] else []))%list.

Let comment_parts (c : Comment.t) : list string :=
  if long_enough cfg (Comment.content c)
  then ["COMMENT: " ++ Comment.content c] else [].

Lemma evidence_parts (user_data : UserData.t) :
  _extract_content_for_analysis cfg user_data
  = join (nl ++ nl)
         (flat_map post_parts (UserData.posts user_data)
          ++ flat_map comment_parts (UserData.comments user_data))%list.
Proof.
  unfold _extract_content_for_analysis. f_equal.
  match goal with
  | |- fold_left ?fc _ (fold_left ?fp _ _) = _ =>
      assert (Hposts : fold_left fp (UserData.posts user_data) []
                       = flat_map post_parts (UserData.posts user_data));
      [| rewrite Hposts;
         assert (Hcomments :
                   forall init,
                     fold_left fc (UserData.comments user_data) init
                     = (init ++ flat_map comment_parts
                                         (UserData.comments user_data))
                       %list);
         [| apply Hcomments]]
  end.
  - rewrite <- (app_nil_l (flat_map post_parts _)).
    rewrite <- fold_append_flat_map.
    apply fold_left_ext. intros acc p.
    unfold post_parts, PyList.append.
    destruct (negb (is_empty (Post.title p))),
             (long_enough cfg (Post.content p)); cbn [app];
      rewrite <- ?app_assoc, ?app_nil_r; reflexivity.
  - intros init. rewrite <- fold_append_flat_map.
    apply fold_left_ext. intros acc c.
    unfold comment_parts, PyList.append.
    destruct (long_enough cfg (Comment.content c));
      [reflexivity | now rewrite app_nil_r].
Qed.

Lemma join_empty_iff (sep : string) (parts : list string) :
  Forall (fun part => part <> EmptyString) parts ->
  (join sep parts = EmptyString <-> parts = []).
Proof.
  intros Hparts. split; [| now intros ->].
  destruct Hparts as [|part parts Hpart _]; [reflexivity |].
  unfold join. cbn [String.concat].
  destruct part as [|c part]; [congruence |].
  destruct parts; discriminate.
Qed.

Lemma flat_map_nil_iff {X Y} (f : X -> list Y) (l : list X) :
  flat_map f l = [] <-> Forall (fun x => f x = []) l.
Proof.
  induction l as [|x l IH]; simpl.
  - split; [constructor | reflexivity].
  - split.
    + intros H. apply app_eq_nil in H as [Hx Hl].
      constructor; [exact Hx | now apply IH].
    + intros H. inversion H as [| ? ? Hx Hl]; subst.
      rewrite Hx. now apply IH.
Qed.

Lemma no_evidence_iff (user_data : UserData.t) :
  _extract_content_for_analysis cfg user_data = EmptyString
  <-> Forall (silent_post cfg) (UserData.posts user_data)
      /\ Forall (silent_comment cfg) (UserData.comments user_data).
Proof.
  rewrite evidence_parts, join_empty_iff.
  - split.
    + intros H. apply app_eq_nil in H as [Hp Hc].
      apply flat_map_nil_iff in Hp, Hc. split.
      * eapply Forall_impl; [| exact Hp]. intros p Hparts.
        unfold post_parts, silent_post in *.
        destruct (is_empty (Post.title p)) eqn:Et; [| discriminate].
        apply is_empty_true in Et.
        destruct (long_enough cfg (Post.content p)); [discriminate |].
        now split.
      * eapply Forall_impl; [| exact Hc]. intros c Hparts.
        unfold comment_parts, silent_comment in *.
        now destruct (long_enough cfg (Comment.content c)).
    + intros [Hp Hc].
      assert (H1 : flat_map post_parts (UserData.posts user_data) = []).
      { apply flat_map_nil_iff. eapply Forall_impl; [| exact Hp].
        intros p [Ht Hl]. unfold post_parts. now rewrite Ht, Hl. }
      assert (H2 : flat_map comment_parts (UserData.comments user_data)
                   = []).
      { apply flat_map_nil_iff. eapply Forall_impl; [| exact Hc].
        intros c Hl. unfold comment_parts, silent_comment in *.
        now rewrite Hl. }
      now rewrite H1, H2.
  - apply Forall_app. split; apply Forall_flat_map, Forall_forall.
    + intros p _. unfold post_parts.
      destruct (negb (is_empty (Post.title p))),
               (long_enough cfg (Post.content p));
        repeat constructor; discriminate.
    + intros c _. unfold comment_parts.
      destruct (long_enough cfg (Comment.content c));
        repeat constructor; discriminate.
Qed.

Lemma format_persona_not_message (include_citations : bool)
      (world : World.t) (sections : Sections) (user_data : UserData.t) :
  _format_persona include_citations world sections user_data
  <> no_content_message.
Proof.
  unfold _format_persona, document_header, no_content_message.
  destruct include_citations; cbn [nl append]; discriminate.
Qed.

(** X12. [generate_persona] returns the no-content message, and leaves the
    backend alone, exactly when no post has a title and no post or comment
    body is longer than [min_content_length]. *)
Theorem persona_declined_iff :
  forall (openai_cfg : OPENAI_CONFIG.t) (prompts : PERSONA_PROMPTS.t)
         (include_citations : bool) (world : World.t)
         (user_data : UserData.t),
    let out :=
      run (generate_persona cfg openai_cfg prompts include_citations world
                            user_data) in
    let silent :=
      Forall (silent_post cfg) (UserData.posts user_data)
      /\ Forall (silent_comment cfg) (UserData.comments user_data) in
    (fst out = "Unable to generate persona: No content available"
     <-> silent)
    /\ (calls_backend (snd out) = false <-> silent)
    /\ (backend_calls (snd out) = [] <-> silent).
Proof.
  intros openai_cfg prompts include_citations world user_data out silent.
  subst out silent. rewrite <- no_evidence_iff.
  destruct (_extract_content_for_analysis cfg user_data) as [|c content]
    eqn:E.
  - rewrite (generate_persona_no_content _ _ _ _ _ _ E).
    cbn [fst snd]. repeat split; reflexivity.
  - assert (Hne : _extract_content_for_analysis cfg user_data
                  <> EmptyString) by (rewrite E; discriminate).
    rewrite (generate_persona_run cfg openai_cfg prompts include_citations
               world user_data Hne).
    cbn [fst snd]. split; [| split].
    + split; [| discriminate]. intros H.
      now apply format_persona_not_message in H.
    + split; [| discriminate]. unfold facets, facet_events.
      cbn [flat_map app calls_backend existsb orb]. discriminate.
    + split; [| discriminate]. unfold facets, facet_events.
      cbn [flat_map app backend_calls]. discriminate.
Qed.
End Declined.

(* ================================================================== *)
(** ** From the raw data to the document *)

Section WholePipeline.
Import PyStr PyExn DataProcessor PersonaGenerator Spec Assembly.
Local Open Scope string_scope.

Lemma one_backend_call_per_facet_witness :
  List.length
    (backend_calls
       (snd (run (generate_persona Sample.cfg Sample.openai_cfg
                                   Sample.prompts true
                                   Sample.personality_down
                                   Sample.active_user)))) = 6
  /\ logged_errors
       (snd (run (generate_persona Sample.cfg Sample.openai_cfg
                                   Sample.prompts true
                                   Sample.personality_down
                                   Sample.active_user)))
     = ["Error in personality analysis: Rate limit reached"].
Proof.
  destruct (one_backend_call_per_facet
              Sample.cfg Sample.openai_cfg Sample.prompts true
              Sample.personality_down Sample.active_user)
    as [Hcalls Herrors].
  - vm_compute. discriminate.
  - rewrite Hcalls, Herrors. split; reflexivity.
Defined.

Lemma process_user_data_lists (cfg : PERSONA_CONFIG.t)
      (user_data : RawUserData.t) (data : UserData.t) :
  process_user_data cfg user_data = Ok data ->
  UserData.posts data
  = _process_posts cfg (get_or [] (RawUserData.posts user_data))
  /\ UserData.comments data
     = _process_comments cfg (get_or [] (RawUserData.comments user_data)).
Proof.
  unfold process_user_data.
  destruct (_generate_statistics _ _) as [s | e]; cbn [bind];
    [| discriminate].
  intros H. injection H as <-. split; reflexivity.
Qed.

Lemma kept_body_silent_iff (cfg : PERSONA_CONFIG.t) (body : string) :
  _is_valid_content cfg body = true ->
  (long_enough cfg body = false
   <-> len body = PERSONA_CONFIG.min_content_length cfg).
Proof.
  intros Hv. destruct (valid_content_facts _ _ Hv) as (Hne & Hmin & _).
  unfold long_enough. destruct body as [|c body]; [congruence |].
  cbn [is_empty negb andb].
  destruct (len (String c body) >? PERSONA_CONFIG.min_content_length cfg)%Z
    eqn:E.
  - rewrite Z.gtb_ltb, Z.ltb_lt in E. split; [discriminate | lia].
  - rewrite Z.gtb_ltb, Z.ltb_ge in E. split; [lia | reflexivity].
Qed.

(** X13. For a corpus that [process_user_data] returned, the generator finds
    no evidence text exactly when every surviving post has an empty title
    and every surviving body has exactly [min_content_length] characters:
    the filter keeps a body of that length and the evidence text leaves it
    out. *)
Theorem processed_corpus_declined_iff :
  forall (cfg : PERSONA_CONFIG.t) (user_data : RawUserData.t)
         (data : UserData.t),
    process_user_data cfg user_data = Ok data ->
    (_extract_content_for_analysis cfg data = EmptyString
     <-> Forall (fun p =>
                   Post.title p = EmptyString
                   /\ len (Post.content p)
                      = PERSONA_CONFIG.min_content_length cfg)
                (UserData.posts data)
         /\ Forall (fun c =>
                      len (Comment.content c)
                      = PERSONA_CONFIG.min_content_length cfg)
                   (UserData.comments data)).
Proof.
  intros cfg user_data data Hdata.
  destruct (process_user_data_lists _ _ _ Hdata) as [Hposts Hcomments].
  assert (Hvp : Forall (fun p =>
                          _is_valid_content cfg (Post.content p) = true)
                       (UserData.posts data)).
  { rewrite Hposts, Forall_forall. intros p Hp.
    apply (Permutation_in _ (processed_posts_perm cfg _)) in Hp.
    now apply surviving_posts_In in Hp. }
  assert (Hvc : Forall (fun c =>
                          _is_valid_content cfg (Comment.content c) = true)
                       (UserData.comments data)).
  { rewrite Hcomments, Forall_forall. intros c Hc.
    apply (Permutation_in _ (processed_comments_perm cfg _)) in Hc.
    now apply surviving_comments_In in Hc. }
  rewrite no_evidence_iff. rewrite Forall_forall in Hvp, Hvc.
  rewrite !Forall_forall. unfold silent_post, silent_comment.
  split; intros [Hp Hc]; split.
  - intros p Hin. destruct (Hp p Hin) as [Ht Hl].
    split; [exact Ht |]. now apply kept_body_silent_iff; auto.
  - intros c Hin. apply kept_body_silent_iff; auto.
  - intros p Hin. destruct (Hp p Hin) as [Ht Hl].
    split; [exact Ht |]. now apply kept_body_silent_iff; auto.
  - intros c Hin. apply kept_body_silent_iff; auto.
Qed.

Lemma processed_corpus_declined_iff_witness :
  exists data,
    process_user_data Sample.cfg terse_user = Ok data
    /\ List.length (UserData.comments data) = 1
    /\ _extract_content_for_analysis Sample.cfg data = EmptyString.
Proof.
  eexists. split; [vm_compute; reflexivity |].
  split; [reflexivity |].
  apply (proj2 (processed_corpus_declined_iff
                  Sample.cfg terse_user _ eq_refl)).
  split; repeat constructor.
Defined.

(** X14. With citations enabled, the appendix of the document lists the
    citations of the demographics facet and of no other: it lists none
    when the demographics call failed, whatever the other facets hold. *)
Theorem appendix_follows_demographics :
  forall (cfg : PERSONA_CONFIG.t) (openai_cfg : OPENAI_CONFIG.t)
         (prompts : PERSONA_PROMPTS.t) (world : World.t)
         (user_data : UserData.t),
    let content := _extract_content_for_analysis cfg user_data in
    let doc :=
      fst (run (generate_persona cfg openai_cfg prompts true world
                                 user_data)) in
    let asked :=
      response openai_cfg prompts world content user_data Demographics in
    content <> EmptyString ->
    exists before listed,
      doc = before ++ citations_block listed
                   ++ disclaimer_block (World.now world)
      /\ match asked with
         | Completion text => listed = _extract_citations text user_data
         | Failure _ => listed = []
         end.
Proof.
  intros cfg openai_cfg prompts world user_data content doc asked Hne.
  subst doc.
  rewrite (generate_persona_run cfg openai_cfg prompts true world
             user_data Hne).
  cbn [fst]. fold content. unfold _format_persona.
  cbn [demographics assembled].
  fold asked. eexists. exists (citations (outcome true user_data
                                                  Demographics asked)).
  split.
  - rewrite append_assoc. reflexivity.
  - destruct asked; reflexivity.
Qed.

Lemma appendix_follows_demographics_witness :
  exists before,
    fst (run (generate_persona Sample.cfg Sample.openai_cfg Sample.prompts
                               true Sample.personality_down
                               Sample.active_user))
    = before
      ++ citations_block
           (_extract_citations EmptyString Sample.active_user)
      ++ disclaimer_block (World.now Sample.personality_down).
Proof.
  destruct (appendix_follows_demographics
              Sample.cfg Sample.openai_cfg Sample.prompts
              Sample.personality_down Sample.active_user)
    as (before & listed & Hdoc & Hlisted).
  - vm_compute. discriminate.
  - exists before. rewrite Hdoc. vm_compute in Hlisted.
    rewrite Hlisted. reflexivity.
Defined.
End WholePipeline.

(* ================================================================== *)
(** ** The sentiment lexicon *)

Section SentimentLexicon.
Import PyStr DataProcessor Spec.
Local Open Scope string_scope.

Lemma contains_occurs_in (p s : string) :
  contains p s = true -> occurs_in p s.
Proof.
  induction s as [|c s IH]; rewrite contains_unfold; intros H.
  - rewrite orb_false_r in H. unfold startswith in H.
    destruct (strip_prefix p EmptyString) as [r |] eqn:E; [| discriminate].
    apply strip_prefix_Some in E. rewrite E. apply occurs_in_prefix.
  - apply orb_true_iff in H as [H | H].
    + unfold startswith in H.
      destruct (strip_prefix p (String c s)) as [r |] eqn:E;
        [| discriminate].
      apply strip_prefix_Some in E. rewrite E. apply occurs_in_prefix.
    + apply (occurs_in_app_r p (String c EmptyString) s). now apply IH.
Qed.

Lemma contains_part (part whole s : string) :
  occurs_in part whole -> contains whole s = true ->
  contains part s = true.
Proof.
  intros Hpart Hwhole. apply occurs_in_contains.
  eapply occurs_in_trans; [exact Hpart |]. now apply contains_occurs_in.
Qed.

(** X15. Words are looked up as substrings, so a text that holds "dislike"
    also holds "like": when "dislike" is the only negative word in a text,
    the verdict is never [negative]. *)
Theorem dislike_is_never_negative_alone :
  forall text : string,
    contains "dislike" (lower text) = true ->
    Forall (fun word => contains word (lower text) = false)
           ["bad"; "terrible"; "awful"; "hate"; "sad"; "angry";
            "frustrated"] ->
    contains "like" (lower text) = true
    /\ _analyze_sentiment text <> negative.
Proof.
  intros text Hdislike Hothers.
  assert (Hlike : contains "like" (lower text) = true).
  { apply (contains_part "like" "dislike"); [| exact Hdislike].
    exists "dis", EmptyString. reflexivity. }
  split; [exact Hlike |].
  repeat match goal with
         | H : Forall _ (_ :: _) |- _ =>
             let Hw := fresh "Hw" in
             inversion H as [| ? ? Hw ?]; subst; clear H
         end.
  unfold _analyze_sentiment, count_hits. cbn [filter].
  repeat match goal with
         | H : contains _ (lower text) = _ |- _ => rewrite H; clear H
         end.
  destruct (contains "good" (lower text)),
           (contains "great" (lower text)),
           (contains "amazing" (lower text)),
           (contains "awesome" (lower text)),
           (contains "love" (lower text)),
           (contains "happy" (lower text)),
           (contains "excellent" (lower text));
    vm_compute; discriminate.
Qed.

Lemma dislike_is_never_negative_alone_witness :
  _analyze_sentiment "I dislike this" <> negative.
Proof.
  destruct (dislike_is_never_negative_alone "I dislike this")
    as [_ H].
  - reflexivity.
  - repeat constructor.
  - exact H.
Defined.
End SentimentLexicon.

(* ================================================================== *)
(** ** Usernames and URLs *)

Section Usernames.
Import PyStr PyText Spec.
Local Open Scope string_scope.

Let not_slash (c : ascii) : bool := negb (Ascii.eqb c "/").

Lemma split_from_found (sep s : string) :
  sep <> EmptyString -> contains sep s = true ->
  snd (split_from sep 0 s) <> [].
Proof.
  intros Hsep. induction s as [|c s IH]; rewrite contains_unfold.
  - rewrite orb_false_r. unfold startswith.
    destruct (strip_prefix sep EmptyString) as [r |] eqn:E;
      [| discriminate].
    apply strip_prefix_Some in E. destruct sep; [congruence | discriminate].
  - intros H. cbn [split_from].
    destruct (startswith sep (String c s)) eqn:E.
    + destruct (split_from sep (pred (String.length sep)) s).
      discriminate.
    + cbn [orb] in H. specialize (IH H).
      destruct (split_from sep 0 s). exact IH.
Qed.

Lemma first_piece_no_slash (s : string) :
  all_chars not_slash (fst (split_from "/" 0 s)) = true.
Proof.
  induction s as [|c s IH]; [reflexivity |].
  cbn [split_from]. destruct (startswith "/" (String c s)) eqn:E.
  - destruct (split_from "/" (pred (String.length "/")) s). reflexivity.
  - destruct (split_from "/" 0 s) as [piece pieces]. cbn [fst] in *.
    cbn [all_chars]. rewrite IH, andb_true_r.
    unfold startswith in E. cbn [strip_prefix] in E.
    unfold not_slash. rewrite Ascii.eqb_sym. now destruct (Ascii.eqb "/" c).
Qed.

Lemma after_marker_found (sep url : string) :
  sep <> EmptyString -> contains sep url = true ->
  exists piece, Main.after_marker sep url = inl piece.
Proof.
  intros Hsep H. unfold Main.after_marker, split_on.
  pose proof (split_from_found sep url Hsep H) as Hp.
  destruct (split_from sep 0 url) as [piece pieces]. cbn [snd] in Hp.
  destruct pieces as [|next pieces]; [congruence |].
  cbn [nth_error]. eauto.
Qed.

Lemma first_of_split (username : string) :
  exists first,
    nth_error (split_on "/" username) 0 = Some first
    /\ all_chars not_slash first = true.
Proof.
  unfold split_on. pose proof (first_piece_no_slash username) as H.
  destruct (split_from "/" 0 username) as [piece pieces].
  exists piece. split; [reflexivity | exact H].
Qed.

(** X16. [extract_username] answers with a name exactly when the URL holds
    [/user/] or [/u/], and the name then holds no [/]; otherwise it raises
    the [ValueError] for an invalid URL format, and no other error. *)
Theorem extract_username_outcome :
  forall url : string,
    match Main.extract_username url with
    | Main.Username name =>
        (contains "/user/" url = true \/ contains "/u/" url = true)
        /\ all_chars (fun c => negb (Ascii.eqb c "/")) name = true
    | Main.ValueError message =>
        contains "/user/" url = false
        /\ contains "/u/" url = false
        /\ message
           = "Could not extract username from URL: Invalid Reddit URL format"
    end.
Proof.
  intros url. unfold Main.extract_username.
  destruct (contains "/user/" url) eqn:Euser.
  - destruct (after_marker_found "/user/" url) as [piece ->];
      [discriminate | exact Euser |].
    destruct (first_of_split piece) as [first [-> Hfirst]].
    split; [now left | exact Hfirst].
  - destruct (contains "/u/" url) eqn:Eu.
    + destruct (after_marker_found "/u/" url) as [piece ->];
        [discriminate | exact Eu |].
      destruct (first_of_split piece) as [first [-> Hfirst]].
      split; [now right | exact Hfirst].
    + repeat split.
Qed.

Lemma split_from_no_marker (sep : string) (c0 : ascii) (rest name : string) :
  sep = String "/" (String c0 rest) ->
  all_chars not_slash name = true ->
  split_from sep 0 (name ++ "/") = (name ++ "/", []).
Proof.
  intros -> Hname. induction name as [|c name IH].
  - reflexivity.
  - cbn [all_chars] in Hname. apply andb_true_iff in Hname as [Hc Hname].
    cbn [append split_from]. unfold startswith at 1. cbn [strip_prefix].
    unfold not_slash in Hc. rewrite Ascii.eqb_sym in Hc.
    apply negb_true_iff in Hc. rewrite Hc.
    now rewrite (IH Hname).
Qed.

Lemma rstrip_char_name (name : string) :
  all_chars not_slash name = true ->
  rstrip_char "/" (name ++ "/") = name.
Proof.
  induction name as [|c name IH]; intros H; [reflexivity |].
  cbn [all_chars] in H. apply andb_true_iff in H as [Hc Hname].
  cbn [append rstrip_char]. rewrite (IH Hname).
  unfold not_slash in Hc. apply negb_true_iff in Hc.
  now rewrite Hc, andb_false_r.
Qed.

Lemma split_on_slash_name (name : string) :
  all_chars not_slash name = true -> split_on "/" name = [name].
Proof.
  intros H. unfold split_on.
  assert (Hs : split_from "/" 0 name = (name, [])).
  { induction name as [|c name IH]; [reflexivity |].
    cbn [all_chars] in H. apply andb_true_iff in H as [Hc Hname].
    cbn [split_from]. unfold startswith. cbn [strip_prefix].
    unfold not_slash in Hc. rewrite Ascii.eqb_sym in Hc.
    apply negb_true_iff in Hc. rewrite Hc.
    now rewrite (IH Hname). }
  now rewrite Hs.
Qed.

Lemma span_not_slash_name (name rest : string) :
  all_chars not_slash name = true ->
  Re.span not_slash (name ++ String "/" rest) = String.length name
  /\ take (String.length name) (name ++ String "/" rest) = name.
Proof.
  induction name as [|c name IH]; intros H; [split; reflexivity |].
  cbn [all_chars] in H. apply andb_true_iff in H as [Hc Hname].
  destruct (IH Hname) as [IH1 IH2].
  cbn [append Re.span String.length take]. rewrite Hc, IH1, IH2.
  split; reflexivity.
Qed.

(** X17. The profile URL that [create_citation_url] builds for a name leads
    back to the name, through [extract_username] and through
    [extract_username_from_url]. *)
Theorem username_url_round_trip :
  forall name : string,
    name <> EmptyString ->
    all_chars (fun c => negb (Ascii.eqb c "/")) name = true ->
    let url := Utils.create_citation_url None None None (Some name) in
    url = "https://www.reddit.com/user/" ++ name ++ "/"
    /\ Main.extract_username url = Main.Username name
    /\ Utils.extract_username_from_url url = Some name.
Proof.
  intros name Hne Hname url.
  assert (Hurl : url = "https://www.reddit.com/user/" ++ name ++ "/").
  { subst url. unfold Utils.create_citation_url. cbn [Utils.given].
    destruct name; [congruence | reflexivity]. }
  rewrite Hurl. split; [reflexivity |]. split.
  - unfold Main.extract_username.
    assert (Hc : contains "/user/"
                          ("https://www.reddit.com/user/" ++ name ++ "/")
                 = true).
    { apply occurs_in_contains.
      exists "https://www.reddit.com", (name ++ "/"). reflexivity. }
    rewrite Hc. unfold Main.after_marker, split_on.
    cbn [append split_from startswith strip_prefix Ascii.eqb Bool.eqb
         String.length pred].
    rewrite (split_from_no_marker "/user/" "u" "ser/" name eq_refl Hname).
    cbn [nth_error]. rewrite (rstrip_char_name _ Hname).
    change (let '(piece, pieces) := split_from "/" 0 name in
            piece :: pieces)
      with (split_on "/" name).
    now rewrite (split_on_slash_name _ Hname).
  - unfold Utils.extract_username_from_url. cbn [fold_left].
    cbn [append search path_segment_after strip_prefix Ascii.eqb Bool.eqb].
    destruct (span_not_slash_name name EmptyString Hname) as [Hspan Htake].
    fold not_slash. rewrite Hspan.
    destruct name as [|c name]; [congruence |].
    cbn [String.length]. cbn [String.length] in Htake. now rewrite Htake.
Qed.

Lemma username_url_round_trip_witness :
  Main.extract_username
    (Utils.create_citation_url None None None (Some "kojied"))
  = Main.Username "kojied".
Proof.
  destruct (username_url_round_trip "kojied") as (_ & H & _).
  - discriminate.
  - reflexivity.
  - exact H.
Defined.
End Usernames.

(* ================================================================== *)
(** ** The helpers of [utils.py] *)

Section UtilsHelpers.
Import PyStr PyText Spec.
Local Open Scope string_scope.

Let not_slash (c : ascii) : bool := negb (Ascii.eqb c "/").

Lemma search_none (m : string -> option string) (s : string) :
  search m s = None ->
  forall before t, s = before ++ t -> m t = None.
Proof.
  induction s as [|c s IH]; cbn [search]; intros H before t Hs.
  - destruct (m EmptyString) eqn:E; [discriminate |].
    destruct before; [| discriminate]. simpl in Hs. now subst t.
  - destruct (m (String c s)) eqn:E; [discriminate |].
    destruct before as [|b before].
    + simpl in Hs. now subst t.
    + injection Hs as <- Hs. now apply (IH H before t).
Qed.

Lemma search_some (m : string -> option string) (s group : string) :
  search m s = Some group ->
  exists before t, s = before ++ t /\ m t = Some group.
Proof.
  induction s as [|c s IH]; cbn [search]; intros H.
  - destruct (m EmptyString) eqn:E; [| discriminate].
    injection H as ->. now exists EmptyString, EmptyString.
  - destruct (m (String c s)) eqn:E.
    + injection H as ->. now exists EmptyString, (String c s).
    + destruct (IH H) as (before & t & -> & Ht).
      now exists (String c before), t.
Qed.

Lemma take_span (f : ascii -> bool) (s : string) :
  all_chars f (take (Re.span f s) s) = true.
Proof.
  induction s as [|c s IH]; [reflexivity |].
  cbn [Re.span]. destruct (f c) eqn:E; [| reflexivity].
  cbn [take all_chars]. now rewrite E, IH.
Qed.

Lemma path_segment_group (literal s group : string) :
  path_segment_after literal s = Some group ->
  group <> EmptyString /\ all_chars not_slash group = true.
Proof.
  unfold path_segment_after.
  destruct (strip_prefix literal s) as [rest |]; [| discriminate].
  fold not_slash.
  pose proof (take_span not_slash rest) as Hall.
  destruct (Re.span not_slash rest) as [|n] eqn:E; [discriminate |].
  intros H. injection H as <-. split; [| exact Hall].
  destruct rest as [|c rest]; [discriminate |].
  cbn [take]. discriminate.
Qed.

(** A match of a pattern for [old.reddit.com] holds a match of the same
    pattern without [old.], four characters further. *)
Lemma old_pattern_covered (tail s : string) :
  search (path_segment_after ("reddit.com/" ++ tail)) s = None ->
  search (path_segment_after ("old.reddit.com/" ++ tail)) s = None.
Proof.
  intros H.
  destruct (search (path_segment_after ("old.reddit.com/" ++ tail)) s)
    as [group |] eqn:E; [| reflexivity].
  apply search_some in E as (before & t & -> & Ht).
  unfold path_segment_after in Ht.
  destruct (strip_prefix ("old.reddit.com/" ++ tail) t) as [rest |] eqn:Er;
    [| discriminate].
  apply strip_prefix_Some in Er. subst t.
  pose proof (search_none _ _ H (before ++ "old.")
                          (("reddit.com/" ++ tail) ++ rest)) as Hnone.
  unfold path_segment_after in Hnone.
  rewrite strip_prefix_app in Hnone.
  rewrite Hnone in Ht; [discriminate |].
  rewrite !append_assoc. reflexivity.
Qed.

(** X18. [extract_username_from_url] is decided by its first two patterns: a
    URL the patterns for [old.reddit.com] match is matched by the first or
    the second already.  A name it returns is not empty and holds no
    [/]. *)
Theorem extract_username_from_url_two_patterns :
  forall url : string,
    Utils.extract_username_from_url url
    = match search (path_segment_after "reddit.com/user/") url with
      | Some name => Some name
      | None => search (path_segment_after "reddit.com/u/") url
      end
    /\ forall name,
         Utils.extract_username_from_url url = Some name ->
         name <> EmptyString
         /\ all_chars (fun c => negb (Ascii.eqb c "/")) name = true.
Proof.
  intros url.
  assert (Hfirst :
            Utils.extract_username_from_url url
            = match search (path_segment_after "reddit.com/user/") url with
              | Some name => Some name
              | None => search (path_segment_after "reddit.com/u/") url
              end).
  { unfold Utils.extract_username_from_url. cbn [fold_left].
    destruct (search (path_segment_after "reddit.com/user/") url)
      as [name |] eqn:E1; [reflexivity |].
    destruct (search (path_segment_after "reddit.com/u/") url)
      as [name |] eqn:E2; [reflexivity |].
    pose proof (old_pattern_covered "user/" url E1) as H3.
    pose proof (old_pattern_covered "u/" url E2) as H4.
    cbn [append] in H3, H4. now rewrite H3, H4. }
  split; [exact Hfirst |].
  intros name. rewrite Hfirst.
  destruct (search (path_segment_after "reddit.com/user/") url)
    as [n1 |] eqn:E1.
  - intros H. injection H as ->.
    apply search_some in E1 as (before & t & _ & Ht).
    now apply path_segment_group in Ht.
  - intros E2. apply search_some in E2 as (before & t & _ & Ht).
    now apply path_segment_group in Ht.
Qed.

Lemma take_length (n : nat) (s : string) :
  String.length (take n s) = Nat.min n (String.length s).
Proof.
  revert s; induction n as [|n IH]; intros s; [reflexivity |].
  destruct s as [|c s]; [reflexivity |]. cbn [take String.length].
  now rewrite IH.
Qed.

(** X19. For [max_length] of at least 3, [truncate_text] returns a text of at
    most [max_length] characters: the text itself if it fits, otherwise
    its first [max_length - 3] characters and an ellipsis. *)
Theorem truncate_text_fits :
  forall (text : string) (max_length : Z),
    (3 <= max_length)%Z ->
    (len (Utils.truncate_text text max_length) <= max_length)%Z
    /\ ((len text <= max_length)%Z ->
        Utils.truncate_text text max_length = text)
    /\ ((max_length < len text)%Z ->
        Utils.truncate_text text max_length
        = take (Z.to_nat (max_length - 3)) text ++ "..."
        /\ len (Utils.truncate_text text max_length) = max_length).
Proof.
  intros text max_length Hmax. unfold Utils.truncate_text.
  destruct (len text <=? max_length)%Z eqn:E.
  - apply Z.leb_le in E. repeat split; try lia; reflexivity.
  - apply Z.leb_gt in E. unfold slice_to.
    destruct (max_length - 3 <? 0)%Z eqn:En;
      [apply Z.ltb_lt in En; lia |].
    assert (Hlen : len (take (Z.to_nat (max_length - 3)) text ++ "...")
                   = max_length).
    { unfold len in *. rewrite length_append, take_length.
      cbn [String.length]. lia. }
    repeat split; try lia; reflexivity.
Qed.

Lemma truncate_text_fits_witness :
  Utils.truncate_text "The quick brown fox" 10 = "The qui...".
Proof.
  destruct (truncate_text_fits "The quick brown fox" 10) as (_ & _ & H).
  - lia.
  - destruct H as [H _]; [reflexivity |]. rewrite H. reflexivity.
Defined.
End UtilsHelpers.

(* ================================================================== *)
(** ** File names *)

Section FileNames.
Import PyStr PyText Spec.
Local Open Scope string_scope.

Let is_dot (c : ascii) : bool := Ascii.eqb c ".".

(** A character a sanitised name may hold. *)
Let safe_char (c : ascii) : bool :=
  negb (existsb (Ascii.eqb c) Utils.invalid_chars) && negb (isspace c).

Lemma all_chars_replace (P : ascii -> bool) (a b : ascii) (s : string) :
  all_chars P (replace_char a b s)
  = all_chars (fun c => P (if Ascii.eqb c a then b else c)) s.
Proof.
  induction s as [|c s IH]; [reflexivity |].
  cbn [replace_char all_chars]. now rewrite IH.
Qed.

Lemma all_chars_replace_all (P : ascii -> bool) (chars : list ascii)
      (s : string) :
  all_chars P (fold_left (fun s a => replace_char a "_" s) chars s)
  = all_chars
      (fun c =>
         P (fold_left (fun c a => if Ascii.eqb c a then "_"%char else c)
                      chars c))
      s.
Proof.
  revert P s; induction chars as [|a chars IH]; intros P s;
    [reflexivity |].
  cbn [fold_left]. rewrite IH, all_chars_replace. reflexivity.
Qed.

Lemma all_chars_true (P : ascii -> bool) (s : string) :
  (forall c, P c = true) -> all_chars P s = true.
Proof.
  intros HP. induction s as [|c s IH]; [reflexivity |].
  cbn [all_chars]. now rewrite HP, IH.
Qed.

Lemma all_chars_impl (P Q : ascii -> bool) (s : string) :
  (forall c, P c = true -> Q c = true) ->
  all_chars P s = true -> all_chars Q s = true.
Proof.
  intros HPQ. induction s as [|c s IH]; [reflexivity |].
  cbn [all_chars]. intros H. apply andb_true_iff in H as [Hc Hs].
  now rewrite (HPQ _ Hc), (IH Hs).
Qed.

Lemma sub_run_all (f : ascii -> bool) (repl : string)
      (Qin Qout : ascii -> bool) :
  all_chars Qout repl = true ->
  (forall c, Qin c = true -> f c = false -> Qout c = true) ->
  forall s k,
    k <= Re.span f s -> all_chars Qin s = true ->
    all_chars Qout (Re.sub_from (run_of f repl) k s) = true.
Proof.
  intros Hrepl Hkeep. induction s as [|c s IH]; intros k Hk Hs;
    [reflexivity |].
  cbn [all_chars] in Hs. apply andb_true_iff in Hs as [Hc Hs].
  cbn [Re.sub_from]. destruct k as [|k].
  - unfold run_of at 1. cbn [Re.span] in *. destruct (f c) eqn:Ef.
    + rewrite all_chars_app, Hrepl. cbn [pred andb]. now apply IH.
    + cbn [all_chars]. rewrite (Hkeep c Hc Ef). cbn [andb].
      apply IH; [lia | exact Hs].
  - cbn [Re.span] in Hk. destruct (f c); [| lia].
    apply IH; [lia | exact Hs].
Qed.

Lemma startswith_two_dots (c : ascii) (s : string) :
  startswith ".." (String c s)
  = if Ascii.eqb "." c then startswith "." s else false.
Proof.
  unfold startswith. cbn [strip_prefix].
  destruct (Ascii.eqb "." c); [| reflexivity].
  destruct s as [|c' s]; [reflexivity |].
  now destruct (Ascii.eqb "." c').
Qed.

Lemma startswith_dot (c : ascii) (s : string) :
  startswith "." (String c s) = Ascii.eqb "." c.
Proof.
  unfold startswith. cbn [strip_prefix]. now destruct (Ascii.eqb "." c).
Qed.

Lemma run_of_miss (f : ascii -> bool) (repl : string) (c : ascii)
      (s : string) :
  f c = false -> run_of f repl (String c s) = None.
Proof. intros H. unfold run_of. cbn [Re.span]. now rewrite H. Qed.

Lemma run_of_hit (f : ascii -> bool) (repl : string) (c : ascii)
      (s : string) :
  f c = true ->
  run_of f repl (String c s) = Some (repl, S (Re.span f s)).
Proof. intros H. unfold run_of. cbn [Re.span]. now rewrite H. Qed.

Lemma dots_collapsed (s : string) :
  let m := run_of is_dot "." in
  (startswith "." (Re.sub_from m (Re.span is_dot s) s) = false
   /\ contains ".." (Re.sub_from m (Re.span is_dot s) s) = false)
  /\ contains ".." (Re.sub_from m 0 s) = false.
Proof.
  cbv zeta. induction s as [|c s [[IHs IHc] IH0]]; [repeat split |].
  cbn [Re.span]. destruct (is_dot c) eqn:Hc.
  - split; [cbn [Re.sub_from]; now split |].
    cbn [Re.sub_from]. rewrite (run_of_hit _ _ _ _ Hc).
    cbn [pred append]. rewrite contains_unfold, startswith_two_dots.
    cbn [Ascii.eqb Bool.eqb]. now rewrite IHs, IHc.
  - cbn [Re.sub_from]. rewrite (run_of_miss _ _ _ _ Hc).
    rewrite startswith_dot, contains_unfold, startswith_two_dots.
    unfold is_dot in Hc. rewrite Ascii.eqb_sym in Hc. rewrite Hc.
    now repeat split.
Qed.

(** X20. [sanitize_filename] never returns an empty name or a lone dot, and the
    name it returns holds none of the nine invalid characters, no
    whitespace and no two dots in a row. *)
Theorem sanitize_filename_safe :
  forall filename : string,
    let name := Utils.sanitize_filename filename in
    name <> EmptyString
    /\ name <> "."
    /\ all_chars
         (fun c =>
            negb (existsb (Ascii.eqb c) Utils.invalid_chars)
            && negb (isspace c))
         name = true
    /\ contains ".." name = false.
Proof.
  intros filename name. subst name. unfold Utils.sanitize_filename.
  set (replaced :=
         fold_left (fun filename char => replace_char char "_" filename)
                   Utils.invalid_chars filename).
  set (spaced := Re.sub (run_of isspace "_") replaced).
  set (dotted := Re.sub (run_of (fun c => Ascii.eqb c ".") ".") spaced).
  assert (Hreplaced :
            all_chars (fun c => negb (existsb (Ascii.eqb c)
                                              Utils.invalid_chars))
                      replaced = true).
  { unfold replaced. rewrite all_chars_replace_all.
    apply all_chars_true.
    intros [[] [] [] [] [] [] [] []]; reflexivity. }
  assert (Hspaced : all_chars safe_char spaced = true).
  { unfold spaced, Re.sub.
    apply (sub_run_all isspace "_"
             (fun c => negb (existsb (Ascii.eqb c) Utils.invalid_chars))
             safe_char); [reflexivity | | lia | exact Hreplaced].
    intros c H1 H2. unfold safe_char. now rewrite H1, H2. }
  assert (Hdotted : all_chars safe_char dotted = true).
  { unfold dotted, Re.sub.
    apply (sub_run_all is_dot "." safe_char safe_char);
      [reflexivity | auto | lia | exact Hspaced]. }
  assert (Hdots : contains ".." dotted = false).
  { unfold dotted, Re.sub. apply (dots_collapsed spaced). }
  destruct (is_empty dotted || String.eqb dotted ".") eqn:E.
  - repeat split; discriminate.
  - apply orb_false_iff in E as [He Hd].
    apply String.eqb_neq in Hd.
    repeat split; try assumption.
    intros H. rewrite H in He. discriminate.
Qed.
End FileNames.

(* ================================================================== *)
(** ** When normalising twice changes nothing *)

Section Settling.
Import PyStr DataProcessor Spec Settled.
Local Open Scope string_scope.

(** A pattern whose match is a prefix of the text and is replaced by
    something shorter. *)
Let good (m : Re.matcher) : Prop :=
  forall s repl n,
    m s = Some (repl, n) ->
    String.length repl < n /\ n <= String.length s.

Lemma finds_false_sub (m : Re.matcher) (s : string) :
  finds m s = false -> Re.sub m s = s.
Proof.
  unfold Re.sub. induction s as [|c s IH]; [reflexivity |].
  cbn [finds Re.sub_from].
  destruct (m (String c s)) as [[repl n] |]; [discriminate |].
  intros H. now rewrite (IH H).
Qed.

Lemma finds_true_shorter (m : Re.matcher) (s : string) :
  good m -> finds m s = true ->
  String.length (Re.sub m s) < String.length s.
Proof.
  intros Hm. unfold Re.sub. induction s as [|c s IH]; cbn [finds].
  - destruct (m EmptyString) as [[repl n] |] eqn:E; [| discriminate].
    destruct (Hm _ _ _ E) as [H1 H2]. simpl in H2. lia.
  - cbn [Re.sub_from].
    destruct (m (String c s)) as [[repl n] |] eqn:E.
    + intros _. destruct (Hm _ _ _ E) as [H1 H2].
      assert (Hshrink :
                forall s0 repl0 n0,
                  m s0 = Some (repl0, n0) ->
                  String.length repl0 <= n0
                  /\ 1 <= n0 <= String.length s0).
      { intros s0 repl0 n0 E0. destruct (Hm _ _ _ E0). lia. }
      pose proof (sub_from_length m Hshrink s (pred n)) as Hrest.
      rewrite length_append. cbn [String.length] in *. lia.
    + intros H. specialize (IH H). cbn [String.length]. lia.
Qed.

Lemma url_replaces_by_nothing (s repl : string) (n : nat) :
  Re.url s = Some (repl, n) -> repl = EmptyString.
Proof.
  unfold Re.url.
  destruct (strip_prefix "http" s) as [r |]; [| discriminate].
  assert (Hscheme :
            forall k r',
              match strip_prefix "://" r' with
              | Some body =>
                  match Re.span Re.url_char body with
                  | 0 => None
                  | S j => Some (EmptyString, 4 + k + 3 + S j)
                  end
              | None => None
              end = Some (repl, n) ->
              repl = EmptyString).
  { intros k r' H.
    destruct (strip_prefix "://" r') as [body |]; [| discriminate].
    destruct (Re.span Re.url_char body); [discriminate |].
    now inversion H. }
  destruct (strip_prefix "s" r) as [r' |].
  - destruct (strip_prefix "://" r') as [body |] eqn:E.
    + destruct (Re.span Re.url_char body) eqn:Es.
      * apply (Hscheme 0 r).
      * intros H. now inversion H.
    + apply (Hscheme 0 r).
  - apply (Hscheme 0 r).
Qed.

Lemma url_good : good Re.url.
Proof.
  intros s repl n H. destruct (url_shrinking _ _ _ H) as [_ [H1 H2]].
  rewrite (url_replaces_by_nothing _ _ _ H). simpl. lia.
Qed.

Lemma mention_good (sigil : string) :
  1 <= String.length sigil -> good (Re.mention sigil).
Proof.
  intros Hsigil s repl n H.
  destruct (mention_shrinking sigil Hsigil _ _ _ H) as [_ [H1 H2]].
  unfold Re.mention in H.
  destruct (strip_prefix sigil s); [| discriminate].
  destruct (Re.span isword s0); [discriminate |].
  injection H as <- _. simpl. lia.
Qed.

Lemma wrapped_good (d : string) :
  1 <= String.length d -> good (Re.wrapped d).
Proof.
  intros Hd s repl n H.
  destruct (wrapped_shrinking d Hd _ _ _ H) as [_ [H1 H2]].
  unfold Re.wrapped in H.
  destruct (strip_prefix d s); [| discriminate].
  destruct (Re.lazy_until d s0); [| discriminate].
  injection H as <- <-. lia.
Qed.

Lemma literal_good (pat repl : string) :
  String.length repl < String.length pat -> good (Re.literal pat repl).
Proof.
  intros Hrepl s repl' n H.
  assert (Hle : String.length repl <= String.length pat) by lia.
  assert (Hpat : 1 <= String.length pat) by lia.
  destruct (literal_shrinking pat repl Hle Hpat _ _ _ H) as [_ [H1 H2]].
  unfold Re.literal in H.
  destruct (startswith pat s); [| discriminate].
  injection H as <- <-. lia.
Qed.

Lemma clean_patterns_good : Forall good clean_patterns.
Proof.
  unfold clean_patterns.
  repeat (apply Forall_cons;
          [first [ apply url_good
                 | apply mention_good; simpl; lia
                 | apply wrapped_good; simpl; lia
                 | apply literal_good; simpl; lia ] |]).
  apply Forall_nil.
Qed.

(** The substitutions of [_clean_text], one after the other. *)
Let substituted (ms : list Re.matcher) (s : string) : string :=
  fold_left (fun text m => Re.sub m text) ms s.

Lemma clean_text_substituted (x : string) :
  _clean_text x
  = if is_empty x then EmptyString
    else strip (join " " (split (substituted clean_patterns x))).
Proof. reflexivity. Qed.

Lemma substituted_settled (ms : list Re.matcher) (s : string) :
  forallb (fun m => negb (finds m s)) ms = true -> substituted ms s = s.
Proof.
  induction ms as [|m ms IH]; [reflexivity |].
  cbn [forallb]. intros H. apply andb_true_iff in H as [Hm Hms].
  apply negb_true_iff in Hm. unfold substituted in *. cbn [fold_left].
  rewrite (finds_false_sub _ _ Hm). now apply IH.
Qed.

Lemma substituted_length (ms : list Re.matcher) :
  Forall good ms ->
  forall s,
    String.length (substituted ms s) <= String.length s
    /\ (String.length (substituted ms s) = String.length s ->
        forallb (fun m => negb (finds m s)) ms = true).
Proof.
  induction 1 as [|m ms Hm Hms IH]; intros s.
  - split; [apply Nat.le_refl | reflexivity].
  - unfold substituted in *. cbn [fold_left forallb].
    destruct (IH (Re.sub m s)) as [Hle Heq].
    destruct (finds m s) eqn:E.
    + pose proof (finds_true_shorter m s Hm E). split; [lia |]. lia.
    + rewrite (finds_false_sub _ _ E) in *. split; [exact Hle |].
      intros H. cbn [negb andb]. now apply Heq.
Qed.

(** C3, as amended. Normalising twice equals normalising once exactly
    when none of the nine patterns of [_clean_text] still matches in the
    normalised text: every input whose normalised text is settled is a
    fixed point after one pass, and no other input is. *)
Theorem clean_text_idempotent_iff_settled :
  forall x : string,
    _clean_text (_clean_text x) = _clean_text x
    <-> settled (_clean_text x) = true.
Proof.
  intros x. destruct (clean_text_tidy x) as [ws [Hws Hy]].
  set (y := _clean_text x) in *. unfold settled.
  rewrite (clean_text_substituted y).
  destruct (is_empty y) eqn:Ey.
  { apply is_empty_true in Ey. rewrite Ey. split; reflexivity. }
  split.
  - intros Hfixed.
    rewrite (strip_join _ (split_words _)) in Hfixed.
    destruct (substituted_length _ clean_patterns_good y) as [Hle Heq].
    apply Heq.
    pose proof (join_split_length_lead (substituted clean_patterns y))
      as Hjoin.
    rewrite Hfixed in Hjoin. lia.
  - intros Hsettled. rewrite (substituted_settled _ _ Hsettled).
    rewrite Hy, (split_join _ Hws). now apply strip_join.
Qed.

(** A normalised text may keep [&] and [/] and still be settled. *)
Example settled_with_markup_characters :
  _clean_text "Q&amp;A with the devs" = "Q&A with the devs"
  /\ settled "Q&A with the devs" = true
  /\ _clean_text "either/or, see r/python" = "either/or, see r/python"
  /\ settled "either/or, see r/python" = true
  /\ settled (_clean_text "&amp;gt;") = false.
Proof. repeat split. Qed.
End Settling.

(* ================================================================== *)
(** ** What each facet method returns, and where it stands in the document *)

Section FacetResults.
Import PyStr PersonaGenerator Spec Assembly Document.
Local Open Scope string_scope.

(** Each of the six methods returns the outcome of its own call of the
    backend, whatever was logged before it ran. *)
Lemma facet_method_outcome (openai_cfg : OPENAI_CONFIG.t)
      (prompts : PERSONA_PROMPTS.t) (include_citations : bool)
      (world : World.t) (f : facet) (content : string)
      (user_data : UserData.t) (trace : list Event) :
  facet_method openai_cfg prompts include_citations world f content
               user_data trace
  = (outcome include_citations user_data f
             (response openai_cfg prompts world content user_data f),
     (trace ++ facet_events openai_cfg prompts world content user_data f)
     %list).
Proof.
  destruct f; cbn [facet_method];
    unfold _analyze_demographics, _analyze_personality, _analyze_interests,
      _analyze_behaviors, _analyze_motivations, _analyze_frustrations;
    match goal with
    | |- _ = (outcome _ _ ?g _, _) =>
        apply (analyze_outcome openai_cfg prompts include_citations world
                               g)
    end; reflexivity.
Qed.

(** The document of a run with evidence text is rendered from what the six
    methods returned. *)
Lemma generate_persona_document (cfg : PERSONA_CONFIG.t)
      (openai_cfg : OPENAI_CONFIG.t) (prompts : PERSONA_PROMPTS.t)
      (include_citations : bool) (world : World.t)
      (user_data : UserData.t) :
  let content := _extract_content_for_analysis cfg user_data in
  content <> EmptyString ->
  fst (run (generate_persona cfg openai_cfg prompts include_citations world
                             user_data))
  = _format_persona include_citations world
      (sections_of world user_data
         (fun f => fst (facet_method openai_cfg prompts include_citations
                                     world f content user_data [])))
      user_data.
Proof.
  intros content Hne.
  rewrite (generate_persona_run cfg openai_cfg prompts include_citations
             world user_data Hne).
  cbn [fst]. fold content. unfold sections_of, assembled. cbv beta.
  rewrite !facet_method_outcome. reflexivity.
Qed.

Lemma banner_section_header (heading : string) :
  banner heading = section_header heading ++ nl.
Proof.
  unfold banner, unlines, section_header.
  change rule with eighty_equals.
  cbn [map String.concat]. rewrite !append_assoc. reflexivity.
Qed.

Lemma banner_title (title name : string) :
  banner (title ++ name)
  = (eighty_equals ++ nl ++ title)
      ++ (name ++ nl ++ eighty_equals ++ nl ++ nl).
Proof.
  rewrite banner_section_header. unfold section_header.
  rewrite !append_assoc. reflexivity.
Qed.

Lemma section_block_rendered (heading body : string) :
  section_block heading body = rendered_section heading body.
Proof.
  unfold section_block, rendered_section.
  rewrite banner_section_header. unfold unlines.
  cbn [map String.concat]. rewrite !append_assoc. reflexivity.
Qed.

Lemma section_header_rendered (heading body : string) :
  occurs_in (section_header heading) (rendered_section heading body).
Proof. unfold rendered_section. apply occurs_in_prefix. Qed.

(** Whatever the sections hold, each facet stands in the document under
    its heading, between two rules of eighty equals signs. *)
Lemma format_persona_rendered (include_citations : bool) (world : World.t)
      (sections : Sections) (user_data : UserData.t) (f : facet) :
  occurs_in (rendered_section (facet_heading f)
                              (analysis (facet_of sections f)))
            (_format_persona include_citations world sections user_data).
Proof.
  rewrite <- section_block_rendered. apply format_persona_sections.
Qed.

Lemma format_persona_document_complete (include_citations : bool)
      (world : World.t) (sections : Sections) (user_data : UserData.t) :
  complete (_format_persona include_citations world sections user_data).
Proof.
  unfold complete. split; [| split; [| split]].
  - unfold _format_persona, document_header.
    rewrite banner_title.
    destruct include_citations; find_part.
  - unfold _format_persona, basic_info_block.
    rewrite banner_section_header.
    destruct include_citations; find_part.
  - intros f. eapply occurs_in_trans;
      [apply section_header_rendered | apply format_persona_rendered].
  - unfold _format_persona, disclaimer_block.
    rewrite banner_section_header.
    destruct include_citations; find_part.
Qed.

(** C7. When the backend fails on the personality request and answers the
    other five, the personality method returns the fixed fallback text and
    no citation, each other method returns the answer given for it with its
    citations, and the document rendered from what the six methods returned
    still shows the six facet headers: the personality section holds the
    fallback text, each other section the answer given for it. *)
Theorem personality_failure_is_contained :
  forall (cfg : PERSONA_CONFIG.t) (openai_cfg : OPENAI_CONFIG.t)
         (prompts : PERSONA_PROMPTS.t) (include_citations : bool)
         (world : World.t) (user_data : UserData.t)
         (e : string) (answers : facet -> string),
    let content := _extract_content_for_analysis cfg user_data in
    let ask f :=
      World.backend world
        (facet_request openai_cfg prompts content user_data f) in
    let method f trace :=
      fst (facet_method openai_cfg prompts include_citations world f
                        content user_data trace) in
    content <> EmptyString ->
    ask Personality = Failure e ->
    (forall f, f <> Personality -> ask f = Completion (answers f)) ->
    let doc :=
      fst (run (generate_persona cfg openai_cfg prompts include_citations
                                 world user_data)) in
    (forall trace,
        method Personality trace
        = {| analysis := "Unable to analyze personality";
             citations := [] |})
    /\ (forall f trace,
           f <> Personality ->
           method f trace
           = {| analysis := answers f;
                citations :=
                  if include_citations
                  then _extract_citations (answers f) user_data
                  else [] |})
    /\ doc = _format_persona include_citations world
               (sections_of world user_data (fun f => method f []))
               user_data
    /\ (forall f, occurs_in (section_header (facet_heading f)) doc)
    /\ occurs_in (rendered_section "PERSONALITY TRAITS"
                                   "Unable to analyze personality") doc
    /\ (forall f,
           f <> Personality ->
           occurs_in (rendered_section (facet_heading f) (answers f)) doc).
Proof.
  intros cfg openai_cfg prompts include_citations world user_data e answers
         content ask method Hne Hfail Hothers doc.
  assert (Hfallback :
            forall trace,
              method Personality trace
              = {| analysis := "Unable to analyze personality";
                   citations := [] |}).
  { intros trace. subst method. cbv beta.
    rewrite facet_method_outcome. cbn [fst]. unfold response.
    fold content. fold (ask Personality). rewrite Hfail. reflexivity. }
  assert (Hanswer :
            forall f trace,
              f <> Personality ->
              method f trace
              = {| analysis := answers f;
                   citations :=
                     if include_citations
                     then _extract_citations (answers f) user_data
                     else [] |}).
  { intros f trace Hf. subst method. cbv beta.
    rewrite facet_method_outcome. cbn [fst]. unfold response.
    fold content. fold (ask f). rewrite (Hothers f Hf). reflexivity. }
  assert (Hdoc :
            doc = _format_persona include_citations world
                    (sections_of world user_data (fun f => method f []))
                    user_data).
  { subst doc method. now apply generate_persona_document. }
  assert (Hrendered :
            forall f,
              occurs_in (rendered_section (facet_heading f)
                                          (analysis (method f [])))
                        doc).
  { intros f. rewrite Hdoc.
    pose proof (format_persona_rendered include_citations world
                  (sections_of world user_data (fun f => method f []))
                  user_data f) as H.
    destruct f; exact H. }
  split; [exact Hfallback |].
  split; [exact Hanswer |].
  split; [exact Hdoc |].
  split; [| split].
  - intros f. eapply occurs_in_trans;
      [apply section_header_rendered | apply Hrendered].
  - pose proof (Hrendered Personality) as H.
    rewrite Hfallback in H. exact H.
  - intros f Hf. pose proof (Hrendered f) as H.
    rewrite (Hanswer f [] Hf) in H. exact H.
Qed.

Lemma personality_failure_is_contained_witness :
  fst (facet_method Sample.openai_cfg Sample.prompts true
                    Sample.personality_down Personality
                    (_extract_content_for_analysis Sample.cfg
                                                   Sample.active_user)
                    Sample.active_user [])
  = {| analysis := "Unable to analyze personality"; citations := [] |}
  /\ occurs_in
       (rendered_section "PERSONALITY TRAITS"
                         "Unable to analyze personality")
       (fst (run (generate_persona Sample.cfg Sample.openai_cfg
                                   Sample.prompts true
                                   Sample.personality_down
                                   Sample.active_user))).
Proof.
  destruct (personality_failure_is_contained
              Sample.cfg Sample.openai_cfg Sample.prompts true
              Sample.personality_down Sample.active_user
              "Rate limit reached" Sample.answers)
    as (Hfallback & _ & _ & _ & Hsection & _).
  - vm_compute. discriminate.
  - reflexivity.
  - intros f Hf. destruct f; try reflexivity. contradiction.
  - split; [apply Hfallback | exact Hsection].
Defined.

(** X10. Whenever there is evidence text, each of the six methods returns
    the answer of the backend with the citations extracted for it, or else
    its own fallback text and no citation, whatever the other calls did;
    the document is rendered from what the six methods returned, holds each
    returned text under the header of its facet, and carries the header, the
    basic-information block, all six facet headers and the disclaimer
    whatever the backend does. *)
Theorem every_facet_answer_or_fallback :
  forall (cfg : PERSONA_CONFIG.t) (openai_cfg : OPENAI_CONFIG.t)
         (prompts : PERSONA_PROMPTS.t) (include_citations : bool)
         (world : World.t) (user_data : UserData.t),
    let content := _extract_content_for_analysis cfg user_data in
    let method f trace :=
      fst (facet_method openai_cfg prompts include_citations world f
                        content user_data trace) in
    let doc :=
      fst (run (generate_persona cfg openai_cfg prompts include_citations
                                 world user_data)) in
    content <> EmptyString ->
    (forall f trace,
        method f trace
        = match World.backend world
                  (facet_request openai_cfg prompts content user_data f)
          with
          | Completion text =>
              {| analysis := text;
                 citations :=
                   if include_citations
                   then _extract_citations text user_data
                   else [] |}
          | Failure _ =>
              {| analysis := facet_fallback f; citations := [] |}
          end)
    /\ doc = _format_persona include_citations world
               (sections_of world user_data (fun f => method f []))
               user_data
    /\ (forall f,
           occurs_in (rendered_section (facet_heading f)
                                       (analysis (method f [])))
                     doc)
    /\ complete doc.
Proof.
  intros cfg openai_cfg prompts include_citations world user_data
         content method doc Hne.
  assert (Hdoc :
            doc = _format_persona include_citations world
                    (sections_of world user_data (fun f => method f []))
                    user_data).
  { subst doc method. now apply generate_persona_document. }
  split; [| split; [exact Hdoc | split]].
  - intros f trace. subst method. cbv beta.
    rewrite facet_method_outcome. reflexivity.
  - intros f. rewrite Hdoc.
    pose proof (format_persona_rendered include_citations world
                  (sections_of world user_data (fun f => method f []))
                  user_data f) as H.
    destruct f; exact H.
  - rewrite Hdoc. apply format_persona_document_complete.
Qed.

Lemma every_facet_answer_or_fallback_witness :
  occurs_in
    (rendered_section "INTERESTS & HOBBIES" (Sample.answers Interests))
    (fst (run (generate_persona Sample.cfg Sample.openai_cfg Sample.prompts
                                true Sample.personality_down
                                Sample.active_user)))
  /\ complete
       (fst (run (generate_persona Sample.cfg Sample.openai_cfg
                                   Sample.prompts true
                                   Sample.personality_down
                                   Sample.active_user))).
Proof.
  destruct (every_facet_answer_or_fallback
              Sample.cfg Sample.openai_cfg Sample.prompts true
              Sample.personality_down Sample.active_user)
    as (_ & _ & Hsections & Hcomplete).
  - vm_compute. discriminate.
  - split; [exact (Hsections Interests) | exact Hcomplete].
Defined.
End FacetResults.
